(** * Photo-analysis pipeline of the colour-analysis app

    A shallow embedding of [src/utils/photoAnalysis.ts]: the upload
    retrier, the primary analysis invoker, the enrichment invoker, the
    fallback generator and the colour utilities, followed by the
    properties the specification states about them.  Around it, the code
    that calls the pipeline or is called with its results: the security
    utilities, the administrator check, the error logger, [analyzePhoto]
    of [App.tsx], what the two result components read of a result, and
    the system tests.

    Conventions of the embedding.
    - A JavaScript string is a [string]; every character is read as the
      code unit of the same number (code units below 256).
    - Values have the types the TypeScript declarations and the request
      schemas give them; the top-level properties of an object that
      comes back from the AI service may be absent ([None]), because the
      code itself tests for that.
    - An [async] function is a computation of type [Eff]: it carries the
      trace of the external calls it made and ends by returning a value
      or by throwing.  The answers of the outside world (storage, HTTP,
      the AI service, [Math.random]) are the fields of a [World]. *)

From Stdlib Require Import String Ascii List Bool Arith NArith ZArith Lia.
From Stdlib Require Import DecimalString HexadecimalString HexadecimalN.
From Equations Require Import Equations.
Import ListNotations.

Local Open Scope list_scope.
Local Open Scope string_scope.

(* ===================================================================== *)
(** ** JavaScript strings                                                *)
(* ===================================================================== *)

Module Js.

(** [s.startsWith(p)] *)
Definition startsWith (s p : string) : bool := String.prefix p s.

(** [s[i]] inside a string concatenation: the one-character string, or
    the text of [undefined] when [i] is out of range. *)
Definition charAt (s : string) (i : nat) : string :=
  match String.get i s with
  | Some c => String c EmptyString
  | None => "undefined"
  end.

(** [s.slice(1)] *)
Definition slice1 (s : string) : string :=
  match s with
  | EmptyString => EmptyString
  | String _ rest => rest
  end.

(** [s.replace(c, '')] for a one-character pattern [c]: only the first
    occurrence is removed. *)
Fixpoint removeFirst (c : ascii) (s : string) : string :=
  match s with
  | EmptyString => EmptyString
  | String a rest => if Ascii.eqb a c then rest else String a (removeFirst c rest)
  end.

(** [String.prototype.toLowerCase] on one code unit below 256: the
    letters A-Z and the Latin-1 capitals U+00C0..U+00DE other than the
    multiplication sign U+00D7 move up by 32. *)
Definition lowerChar (a : ascii) : ascii :=
  let n := nat_of_ascii a in
  if (((65 <=? n) && (n <=? 90))
      || ((192 <=? n) && (n <=? 222) && negb (n =? 215)))%nat
  then ascii_of_nat (n + 32) else a.

Fixpoint toLowerCase (s : string) : string :=
  match s with
  | EmptyString => EmptyString
  | String a rest => String (lowerChar a) (toLowerCase rest)
  end.

(** Template interpolation of a non-negative integer. *)
Definition decimal (n : nat) : string :=
  DecimalString.NilZero.string_of_uint (Nat.to_uint n).

(** [n.toString(16)] for a non-negative integer [n]. *)
Definition toString16 (n : Z) : string :=
  HexadecimalString.NilZero.string_of_uint (N.to_hex_uint (Z.to_N n)).

(** Value of a hexadecimal digit. *)
Definition hexDigit (a : ascii) : option Z :=
  let n := nat_of_ascii a in
  if ((48 <=? n) && (n <=? 57))%nat then Some (Z.of_nat (n - 48))
  else if ((65 <=? n) && (n <=? 70))%nat then Some (Z.of_nat (n - 55))
  else if ((97 <=? n) && (n <=? 102))%nat then Some (Z.of_nat (n - 87))
  else None.

Definition isHexDigit (a : ascii) : bool :=
  match hexDigit a with Some _ => true | None => false end.

(** White space that [parseInt] skips, among the code units below 256:
    TAB, LF, VT, FF, CR, SP and NBSP. *)
Definition isWhite (a : ascii) : bool :=
  let n := nat_of_ascii a in
  (((9 <=? n) && (n <=? 13)) || (n =? 32) || (n =? 160))%nat.

Fixpoint skipWhite (s : string) : string :=
  match s with
  | String a rest => if isWhite a then skipWhite rest else s
  | EmptyString => EmptyString
  end.

(** The longest run of hexadecimal digits at the head of [s], folded
    into [acc]; [seen] records whether a digit was read. *)
Fixpoint hexRun (s : string) (seen : bool) (acc : Z) : option Z :=
  match s with
  | String a rest =>
      match hexDigit a with
      | Some d => hexRun rest true (acc * 16 + d)
      | None => if seen then Some acc else None
      end
  | EmptyString => if seen then Some acc else None
  end.

Definition stripHexPrefix (s : string) : string :=
  match s with
  | String "0" (String "x" rest) => rest
  | String "0" (String "X" rest) => rest
  | _ => s
  end.

(** The optional sign in front of the digits. *)
Definition splitSign (s : string) : bool * string :=
  match s with
  | String "-" rest => (true, rest)
  | String "+" rest => (false, rest)
  | _ => (false, s)
  end.

(** A Number that [parseInt] returns: [NaN], an integer that a double
    holds, or an infinity. *)
Inductive Number :=
| NaN
| Finite (z : Z)
| Infinity (negative : bool).

(** The double nearest to the integer [v], for [0 <= v]: an integer of
    at most 53 bits is kept; a longer one keeps its 53 leading bits,
    rounded to nearest with ties to the even significand.  [None] when
    the rounding leaves the range of the finite doubles. *)
Definition roundToDouble (v : Z) : option Z :=
  let bits := (Z.log2 v + 1)%Z in
  if (bits <=? 53)%Z then Some v
  else
    let e := (bits - 53)%Z in
    let q := Z.shiftr v e in
    let dropped := Z.land v (Z.ones e) in
    let half := Z.shiftl 1 (e - 1) in
    let q' :=
      if (half <? dropped)%Z || ((dropped =? half)%Z && Z.odd q)
      then (q + 1)%Z else q in
    let d := Z.shiftl q' e in
    if (Z.shiftl 1 1024 <=? d)%Z then None else Some d.

(** [parseInt(s, 16)]: the digits give an exact integer, and the Number
    returned is the double nearest to it. *)
Definition parseInt16 (s : string) : Number :=
  let (neg, digits) := splitSign (skipWhite s) in
  match hexRun (stripHexPrefix digits) false 0 with
  | Some v =>
      match roundToDouble v with
      | Some d => Finite (if neg then (- d)%Z else d)
      | None => Infinity neg
      end
  | None => NaN
  end.

(** [ToInt32], applied by [>>] and [&] to their operands; [NaN] and the
    infinities go to 0. *)
Definition toInt32 (v : Number) : Z :=
  match v with
  | Finite z => ((z + 2147483648) mod 4294967296 - 2147483648)%Z
  | NaN => 0%Z
  | Infinity _ => 0%Z
  end.

End Js.

(* ===================================================================== *)
(** ** Data model                                                        *)
(* ===================================================================== *)

(** [interface ColorResult]; the optional [category] is one of the
    strings neutral, accent, statement, soft. *)
Record ColorResult := mkColor {
  name : string;
  hex : string;
  description : string;
  category : option string
}.

Record SeasonalDetails := mkDetails {
  sdDescription : string;
  characteristics : list string;
  avoidColors : list string
}.

(** The objects the pipeline passes around ([basicAnalysis: any], the
    AI objects and [AnalysisResult]): a property that is absent is
    [None]. *)
Record Analysis := mkAnalysis {
  skinTone : option string;
  season : option string;
  freeColors : option (list ColorResult);
  premiumColors : option (list ColorResult);
  recommendations : option (list string);
  makeupTips : option (list string);
  wardrobeGuide : option (list string);
  seasonalDetails : option SeasonalDetails
}.

(** [File]: the three properties the pipeline reads. *)
Record File := mkFile {
  fileName : string;
  fileSize : N;
  fileType : string
}.

(* ===================================================================== *)
(** ** Colour utilities                                                  *)
(* ===================================================================== *)

Fixpoint allHexDigits (s : string) : bool :=
  match s with
  | EmptyString => true
  | String a rest => Js.isHexDigit a && allHexDigits rest
  end.

(** [/^#[0-9A-Fa-f]{6}$/.test(s)]: a [#], then exactly six hexadecimal
    digits, then the end of the string. *)
Definition matchesHex6 (s : string) : bool :=
  match s with
  | String c rest =>
      Ascii.eqb c "#" && (String.length rest =? 6)%nat && allHexDigits rest
  | EmptyString => false
  end.

(** [R < 255 ? R < 1 ? 0 : R : 255] *)
Definition clampChannel (c : Z) : Z :=
  if (c <? 255)%Z then (if (c <? 1)%Z then 0%Z else c) else 255%Z.

(** The common body of [lightenColor] and [darkenColor], with [amt] as
    a parameter. *)
Definition shiftColor (amt : Z) (hex : string) : string :=
  let num := Js.toInt32 (Js.parseInt16 (Js.removeFirst "#" hex)) in
  let R := (Z.shiftr num 16 + amt)%Z in
  let G := (Z.land (Z.shiftr num 8) 255 + amt)%Z in
  let B := (Z.land num 255 + amt)%Z in
  "#" ++ Js.slice1 (Js.toString16
            (16777216 + clampChannel R * 65536 + clampChannel G * 256 + clampChannel B)%Z).

Definition lightenColor (hex : string) : string := shiftColor 40 hex.
Definition darkenColor (hex : string) : string := shiftColor (-40) hex.

(** The body of the hex-repair loop for one colour code. *)
Definition fixHex (h : string) : string :=
  if matchesHex6 h then h
  else
    let h1 := if negb (Js.startsWith h "#") then "#" ++ h else h in
    if (String.length h1 =? 4)%nat
    then "#" ++ Js.charAt h1 1 ++ Js.charAt h1 1 ++ Js.charAt h1 2
             ++ Js.charAt h1 2 ++ Js.charAt h1 3 ++ Js.charAt h1 3
    else h1.

Definition fixColor (c : ColorResult) : ColorResult :=
  mkColor (name c) (fixHex (hex c)) (description c) (category c).

(* ===================================================================== *)
(** ** Exceptions, traces and the outside world                          *)
(* ===================================================================== *)

(** What a [throw] carries: an [Error] built by the code, a [TypeError]
    raised by the engine (also an [Error]; its message is the engine's
    wording), or a value that is not an [Error]. *)
Inductive Thrown :=
| JsError (message : string)
| JsTypeError (message : string)
| JsOther.

(** [error instanceof Error] *)
Definition instanceOfError (e : Thrown) : bool :=
  match e with
  | JsOther => false
  | _ => true
  end.

(** [error.message] of an [Error]. *)
Definition messageOf (e : Thrown) : string :=
  match e with
  | JsError m => m
  | JsTypeError m => m
  | JsOther => "undefined"
  end.

Inductive Completion (A : Type) :=
| Return (a : A)
| Throw (e : Thrown).
Arguments Return {A} a.
Arguments Throw {A} e.

(** The calls that leave the process, and the waits. *)
Inductive Event :=
| EvUpload (attempt : nat)
| EvSleep (ms : N)
| EvHead (url : string)
| EvGenerateBasic (imageUrl : string)
| EvGenerateEnhanced.

Definition Eff (A : Type) : Type := (list Event * Completion A)%type.

Definition ret {A} (a : A) : Eff A := ([], Return a).
Definition throw {A} (e : Thrown) : Eff A := ([], Throw e).
Definition emit (ev : Event) : Eff unit := ([ev], Return tt).
Definition lift {A} (c : Completion A) : Eff A := ([], c).

Definition bind {A B} (m : Eff A) (k : A -> Eff B) : Eff B :=
  match m with
  | (t, Return a) => let (t', c) := k a in ((t ++ t')%list, c)
  | (t, Throw e) => (t, Throw e)
  end.

(** [try { m } catch (e) { h e }] *)
Definition tryCatch {A} (m : Eff A) (h : Thrown -> Eff A) : Eff A :=
  match m with
  | (t, Throw e) => let (t', c) := h e in ((t ++ t')%list, c)
  | (t, Return a) => (t, Return a)
  end.

Declare Scope eff_scope.
Delimit Scope eff_scope with eff.
Notation "x <- m ;; k" := (bind m (fun x => k))
  (at level 61, m at next level, right associativity) : eff_scope.
Notation "m ;;; k" := (bind m (fun _ => k))
  (at level 61, right associativity) : eff_scope.
Local Open Scope eff_scope.

Definition trace {A} (m : Eff A) : list Event := fst m.
Definition completion {A} (m : Eff A) : Completion A := snd m.

(** [{ publicUrl: string }] *)
Record UploadResult := mkUpload { publicUrl : string }.

(** [await blink.storage.upload(...)]: rejects, or resolves with a
    result that may be [undefined]. *)
Inductive UploadOutcome :=
| UploadRejects (e : Thrown)
| UploadResolves (r : option UploadResult).

(** [await fetch(url, { method: 'HEAD' })]: rejects, or resolves with a
    response. *)
Inductive FetchOutcome :=
| FetchRejects (e : Thrown)
| FetchResolves (ok : bool) (status : nat) (statusText : string).

(** [await Promise.race([analysisPromise, timeoutPromise])]: the AI call
    rejects first, the 60 s timer fires first, or the AI call resolves
    first with a response whose [object] may be missing. *)
Inductive RaceOutcome :=
| AiRejects (e : Thrown)
| AiTimesOut
| AiResolves (object : option Analysis).

(** [await blink.ai.generateObject({ prompt, schema })] of the
    enrichment stage. *)
Inductive EnrichOutcome :=
| EnrichRejects (e : Thrown)
| EnrichResolves (object : option Analysis).

(** The answers of the outside world.  [upload n] answers the [n]-th
    upload attempt.  [rndBasic] and [rndTop] are the values of
    [Math.floor(Math.random() * seasons.length)] at the two places that
    call the fallback generator (inside the primary stage and in the
    top-level handler); as [Math.random()] lies in [0, 1) they are below
    [seasons.length]. *)
Record World := mkWorld {
  upload : nat -> UploadOutcome;
  head : string -> FetchOutcome;
  aiBasic : string -> RaceOutcome;
  aiEnhance : Analysis -> EnrichOutcome;
  rndBasic : nat;
  rndTop : nat
}.

(* ===================================================================== *)
(** ** Fallback generator                                                *)
(* ===================================================================== *)

Definition color (n h d : string) : ColorResult := mkColor n h d None.
Definition tagged (n h d c : string) : ColorResult := mkColor n h d (Some c).

(** The own properties of [seasonColors], in source order. *)
Definition seasonColors : list (string * list ColorResult) :=
  [ ("Spring",
     [ tagged "Coral Pink" "#FF7F7F" "Vibrant and energizing" "accent";
       tagged "Golden Yellow" "#FFD700" "Bright and cheerful" "statement";
       tagged "Peach" "#FFCBA4" "Soft and flattering" "soft";
       tagged "Warm Beige" "#F5F5DC" "Perfect neutral base" "neutral";
       tagged "Turquoise" "#40E0D0" "Fresh and lively" "accent" ]);
    ("Summer",
     [ tagged "Soft Blue" "#87CEEB" "Cool and calming" "accent";
       tagged "Lavender" "#E6E6FA" "Gentle and elegant" "soft";
       tagged "Rose Pink" "#FFC0CB" "Romantic and soft" "accent";
       tagged "Cool Gray" "#D3D3D3" "Sophisticated neutral" "neutral";
       tagged "Mint Green" "#98FB98" "Fresh and cool" "soft" ]);
    ("Autumn",
     [ tagged "Burnt Orange" "#CC5500" "Rich and warm" "statement";
       tagged "Deep Burgundy" "#800020" "Luxurious and bold" "statement";
       tagged "Golden Brown" "#B8860B" "Earthy and grounding" "neutral";
       tagged "Olive Green" "#808000" "Natural and sophisticated" "accent";
       tagged "Warm Cream" "#FFFDD0" "Soft neutral base" "neutral" ]);
    ("Winter",
     [ tagged "True Red" "#FF0000" "Bold and striking" "statement";
       tagged "Royal Blue" "#4169E1" "Regal and powerful" "statement";
       tagged "Pure White" "#FFFFFF" "Clean and crisp" "neutral";
       tagged "Black" "#000000" "Classic and elegant" "neutral";
       tagged "Emerald Green" "#50C878" "Vibrant and luxurious" "accent" ]) ].

(** The names every object literal inherits from [Object.prototype]; the
    values there are functions (or, for [__proto__], the prototype
    itself): truthy and not iterable. *)
Definition objectPrototypeKeys : list string :=
  [ "constructor"; "hasOwnProperty"; "isPrototypeOf"; "propertyIsEnumerable";
    "toLocaleString"; "toString"; "valueOf"; "__proto__";
    "__defineGetter__"; "__defineSetter__"; "__lookupGetter__"; "__lookupSetter__" ].

Fixpoint assoc {A} (k : string) (l : list (string * A)) : option A :=
  match l with
  | [] => None
  | (k', v) :: rest => if String.eqb k k' then Some v else assoc k rest
  end.

Definition memStr (k : string) (l : list string) : bool :=
  existsb (String.eqb k) l.

(** [seasonColors[key]]: an own property, an inherited one, or
    [undefined]. *)
Inductive Property :=
| Own (colors : list ColorResult)
| Inherited
| Undefined.

(** The property key of [basicAnalysis.season]; a missing season reads
    as the key [undefined]. *)
Definition propertyKey (s : option string) : string :=
  match s with
  | Some k => k
  | None => "undefined"
  end.

Definition lookupSeason (key : string) : Property :=
  match assoc key seasonColors with
  | Some cs => Own cs
  | None => if memStr key objectPrototypeKeys then Inherited else Undefined
  end.

(** [seasonColors.Spring] *)
Definition springColors : list ColorResult :=
  match assoc "Spring" seasonColors with
  | Some cs => cs
  | None => []
  end.

Definition lightVariant (c : ColorResult) : ColorResult :=
  mkColor ("Light " ++ name c) (lightenColor (hex c))
          ("Lighter variation of " ++ Js.toLowerCase (name c)) (Some "soft").

Definition deepVariant (c : ColorResult) : ColorResult :=
  mkColor ("Deep " ++ name c) (darkenColor (hex c))
          ("Deeper variation of " ++ Js.toLowerCase (name c)) (Some "statement").

(** The array literal before [.slice(0, 24)]. *)
Definition expandPalette (baseColors : list ColorResult) : list ColorResult :=
  (baseColors ++ map lightVariant baseColors ++ map deepVariant baseColors)%list.

Definition fallbackMakeupTips (seasonLower : string) : list string :=
  [ "Use " ++ seasonLower ++ " tones for your foundation to complement your undertones";
    "Choose lipstick colors that enhance your natural lip color";
    "Apply eyeshadow in colors that make your eyes pop";
    "Use blush in colors that naturally flush your cheeks";
    "Choose eyeliner colors that define without overpowering";
    "Select mascara that enhances your natural lash color";
    "Use highlighter in tones that complement your skin";
    "Choose nail polish colors that coordinate with your palette" ].

Definition fallbackWardrobeGuide : list string :=
  [ "Build your wardrobe around your best neutral colors";
    "Add accent colors through accessories and statement pieces";
    "Choose fabrics and textures that complement your season";
    "Invest in quality basics in your most flattering neutrals";
    "Use your statement colors for special occasions";
    "Layer different tones from your palette for depth";
    "Choose patterns that incorporate your best colors";
    "Select jewelry metals that complement your undertones";
    "Consider the lighting when choosing colors for different occasions";
    "Mix textures within your color palette for visual interest" ].

Definition fallbackSeasonalDetails (seasonText : string) : SeasonalDetails :=
  mkDetails
    ("Your " ++ seasonText ++ " season is characterized by specific color harmonies that complement your natural features and bring out your best qualities.")
    [ "Natural warmth in skin undertones";
      "Harmonious color palette that enhances your features";
      "Balanced contrast levels that flatter your complexion";
      "Colors that make your eyes appear brighter";
      "Tones that give your skin a healthy glow" ]
    [ "Colors that clash with your undertones";
      "Overly bright or muted shades that wash you out";
      "Colors that make you appear tired or pale";
      "Tones that compete with your natural coloring";
      "Shades that require heavy makeup to look good" ].

(** [generateFallbackPremiumData(basicAnalysis)].  Spreading an
    inherited (non-iterable) value raises a [TypeError], and so does
    [basicAnalysis.season.toLowerCase()] when the season is missing. *)
Definition generateFallbackPremiumData (basicAnalysis : Analysis) : Completion Analysis :=
  match lookupSeason (propertyKey (season basicAnalysis)) with
  | Inherited => Throw (JsTypeError "baseColors is not iterable")
  | found =>
      let baseColors :=
        match found with
        | Own cs => cs
        | _ => springColors
        end in
      let premium := firstn 24 (expandPalette baseColors) in
      match season basicAnalysis with
      | None => Throw (JsTypeError "Cannot read properties of undefined (reading 'toLowerCase')")
      | Some s =>
          Return (mkAnalysis
                    (skinTone basicAnalysis)
                    (season basicAnalysis)
                    (freeColors basicAnalysis)
                    (Some premium)
                    (recommendations basicAnalysis)
                    (Some (fallbackMakeupTips (Js.toLowerCase s)))
                    (Some fallbackWardrobeGuide)
                    (Some (fallbackSeasonalDetails s)))
      end
  end.

Definition seasons : list string := ["Spring"; "Summer"; "Autumn"; "Winter"].

(** [generateFallbackAnalysis(fileName)]; [rnd] is
    [Math.floor(Math.random() * seasons.length)].  An index outside the
    array would give [undefined], on which [toLowerCase] raises. *)
Definition generateFallbackAnalysis (rnd : nat) (fileName : string) : Completion Analysis :=
  match nth_error seasons rnd with
  | None => Throw (JsTypeError "Cannot read properties of undefined (reading 'toLowerCase')")
  | Some randomSeason =>
      let lower := Js.toLowerCase randomSeason in
      let fallbackAnalysis :=
        mkAnalysis
          (Some ("Based on general analysis principles, we've determined your " ++ lower
                 ++ " coloring. While we couldn't perform a detailed AI analysis, these colors are carefully selected to complement "
                 ++ lower ++ " features."))
          (Some randomSeason)
          (Some [ color "Soft Pink" "#FFB6C1" "A universally flattering soft pink that works well for most skin tones";
                  color "Warm Beige" "#F5F5DC" "A versatile neutral that complements many complexions";
                  color "Light Blue" "#ADD8E6" "A gentle blue that brings out natural brightness" ])
          None
          (Some [ "Explore " ++ lower ++ " color palettes that complement your natural features";
                  "Consider colors that enhance your skin tone and bring out your best features";
                  "Try different shades within your color season to find your favorites";
                  "Use these colors as a starting point for building your personal palette" ])
          None None None in
      generateFallbackPremiumData fallbackAnalysis
  end.

(* ===================================================================== *)
(** ** Upload retrier                                                    *)
(* ===================================================================== *)

(** [15 * 1024 * 1024] *)
Definition maxUploadSize : N := 15 * 1024 * 1024.

(** The body of the [try] block of one attempt. *)
Definition attemptUpload (w : World) (attempt : nat) : Eff UploadResult :=
  emit (EvUpload attempt) ;;;
  match upload w attempt with
  | UploadRejects e => throw e
  | UploadResolves None => throw (JsError "Upload failed: No public URL returned")
  | UploadResolves (Some uploadResult) =>
      if (publicUrl uploadResult =? "")%string
      then throw (JsError "Upload failed: No public URL returned")
      else if negb (Js.startsWith (publicUrl uploadResult) "http")
      then throw (JsError "Upload failed: Invalid public URL format")
      else ret uploadResult
  end.

(** [lastError?.message] inside the template of the final error. *)
Definition lastMessage (lastError : option Thrown) : string :=
  match lastError with
  | Some e => messageOf e
  | None => "undefined"
  end.

(** [error instanceof Error ? error : new Error('Upload failed')] *)
Definition toError (error : Thrown) : Thrown :=
  if instanceOfError error then error else JsError "Upload failed".

(** [Math.pow(2, attempt) * 1000] *)
Definition backoffDelay (attempt : nat) : N := (2 ^ N.of_nat attempt * 1000)%N.

(** The [for] loop and the [throw] after it.  [remaining] counts the
    iterations left: [maxRetries + 1 - attempt]. *)
Fixpoint uploadLoop (w : World) (maxRetries remaining attempt : nat)
         (lastError : option Thrown) : Eff UploadResult :=
  match remaining with
  | 0 =>
      throw (JsError ("Upload failed after " ++ Js.decimal maxRetries
                      ++ " attempts: " ++ lastMessage lastError))
  | S remaining' =>
      match attemptUpload w attempt with
      | (t, Return uploadResult) => (t, Return uploadResult)
      | (t, Throw error) =>
          let lastError' := toError error in
          (t, Return tt) ;;;
          (if (attempt <? maxRetries)%nat
           then emit (EvSleep (backoffDelay attempt))
           else ret tt) ;;;
          uploadLoop w maxRetries remaining' (S attempt) (Some lastError')
      end
  end.

(** [uploadWithRetry(file, userId, maxRetries)].  The MIME-type test
    only logs a warning, so it leaves no mark here. *)
Definition uploadWithRetry (w : World) (file : File) (userId : string)
           (maxRetries : nat) : Eff UploadResult :=
  if (fileSize file =? 0)%N
  then throw (JsError "Please select a valid image file")
  else if (maxUploadSize <? fileSize file)%N
  then throw (JsError "File too large: Maximum size is 15MB")
  else uploadLoop w maxRetries maxRetries 1 None.

(* ===================================================================== *)
(** ** Primary analysis invoker                                          *)
(* ===================================================================== *)

Definition defaultColors : list ColorResult :=
  [ color "Classic Navy" "#000080" "A timeless color that works for most people";
    color "Soft Cream" "#F5F5DC" "A gentle neutral that complements many skin tones";
    color "Dusty Rose" "#D4A5A5" "A universally flattering soft pink tone" ].

(** The padding loop:
    [while (fc.length < 3) { i = fc.length;
       if (i < defaultColors.length) fc.push(defaultColors[i]) else break }] *)
Equations? padFreeColors (fc : list ColorResult) : list ColorResult
  by wf (3 - List.length fc) lt :=
  padFreeColors fc with lt_dec (List.length fc) 3 := {
    | left _ with nth_error defaultColors (List.length fc) := {
        | Some d => padFreeColors (fc ++ [d])%list ;
        | None => fc } ;
    | right _ => fc }.
Proof.
  rewrite length_app; simpl.
  destruct (List.length fc) as [|[|[|n]]]; simpl; lia.
Qed.

(** A string property is truthy when present and not empty. *)
Definition truthy (s : option string) : bool :=
  match s with
  | Some v => negb (v =? "")%string
  | None => false
  end.

(** [!result.skinTone || !result.season || !result.freeColors
     || result.freeColors.length < 1] *)
Definition incomplete (result : Analysis) : bool :=
  negb (truthy (skinTone result))
  || negb (truthy (season result))
  || match freeColors result with
     | None => true
     | Some fc => (List.length fc <? 1)%nat
     end.

Definition setFreeColors (result : Analysis) (fc : list ColorResult) : Analysis :=
  mkAnalysis (skinTone result) (season result) (Some fc) (premiumColors result)
             (recommendations result) (makeupTips result) (wardrobeGuide result)
             (seasonalDetails result).

(** What the stage does with the object of the response: fall back,
    or pad and repair the free colours in place. *)
Definition repairResult (w : World) (result : Analysis) : Eff Analysis :=
  if incomplete result
  then lift (generateFallbackAnalysis (rndBasic w) "incomplete_ai_result")
  else
    match freeColors result with
    | Some fc => ret (setFreeColors result (map fixColor (padFreeColors fc)))
    | None => throw (JsTypeError "Cannot read properties of undefined (reading 'length')")
    end.

(** [generateBasicAnalysis(imageUrl)] *)
Definition generateBasicAnalysis (w : World) (imageUrl : string) : Eff Analysis :=
  tryCatch
    (emit (EvGenerateBasic imageUrl) ;;;
     match aiBasic w imageUrl with
     | AiRejects e => throw e
     | AiTimesOut => throw (JsError "AI analysis timed out after 60 seconds")
     | AiResolves None => throw (JsError "AI analysis failed to generate results")
     | AiResolves (Some result) => repairResult w result
     end)
    (fun error =>
       throw (JsError ("AI analysis failed: "
                       ++ (if instanceOfError error then messageOf error
                           else "Unknown error")))).

(* ===================================================================== *)
(** ** Enrichment invoker                                                *)
(* ===================================================================== *)

Definition orElse {A} (x y : option A) : option A :=
  match x with
  | Some _ => x
  | None => y
  end.

(** [{ ...basicAnalysis, ...object }]: a property of [object] wins. *)
Definition spread (basicAnalysis object : Analysis) : Analysis :=
  mkAnalysis
    (orElse (skinTone object) (skinTone basicAnalysis))
    (orElse (season object) (season basicAnalysis))
    (orElse (freeColors object) (freeColors basicAnalysis))
    (orElse (premiumColors object) (premiumColors basicAnalysis))
    (orElse (recommendations object) (recommendations basicAnalysis))
    (orElse (makeupTips object) (makeupTips basicAnalysis))
    (orElse (wardrobeGuide object) (wardrobeGuide basicAnalysis))
    (orElse (seasonalDetails object) (seasonalDetails basicAnalysis)).

(** [generateEnhancedAnalysis(basicAnalysis)]: the [try] block yields
    [Some] merged result when it returns, [None] when control falls
    through to the fallback after it. *)
Definition generateEnhancedAnalysis (w : World) (basicAnalysis : Analysis) : Eff Analysis :=
  r <- tryCatch
         (emit EvGenerateEnhanced ;;;
          match aiEnhance w basicAnalysis with
          | EnrichRejects e => throw e
          | EnrichResolves (Some object) => ret (Some (spread basicAnalysis object))
          | EnrichResolves None => ret None
          end)
         (fun _ => ret None) ;;
  match r with
  | Some enhanced => ret enhanced
  | None => lift (generateFallbackPremiumData basicAnalysis)
  end.

(* ===================================================================== *)
(** ** The pipeline                                                      *)
(* ===================================================================== *)

(** Step 1.5: the HEAD request on the uploaded URL. *)
Definition validateUrl (w : World) (url : string) : Eff unit :=
  tryCatch
    (emit (EvHead url) ;;;
     match head w url with
     | FetchRejects e => throw e
     | FetchResolves ok status statusText =>
         if negb ok
         then throw (JsError ("Image not accessible: " ++ Js.decimal status
                              ++ " " ++ statusText))
         else ret tt
     end)
    (fun _ => throw (JsError "Uploaded image is not accessible. Please try again.")).

(** The [try] block of [analyzePhotoWithAI]. *)
Definition pipelineBody (w : World) (file : File) (userId : string) : Eff Analysis :=
  uploadResult <- uploadWithRetry w file userId 3 ;;
  validateUrl w (publicUrl uploadResult) ;;;
  basicAnalysis <- generateBasicAnalysis w (publicUrl uploadResult) ;;
  generateEnhancedAnalysis w basicAnalysis.

(** [analyzePhotoWithAI(file, userId)] *)
Definition analyzePhotoWithAI (w : World) (file : File) (userId : string) : Eff Analysis :=
  tryCatch (pipelineBody w file userId)
           (fun _ => lift (generateFallbackAnalysis (rndTop w) (fileName file))).

(* ===================================================================== *)
(** ** Origins of errors and of results                                  *)
(* ===================================================================== *)

(** An error leaves one of the four stages of the [try] block: the
    upload, the reachability check, the primary analysis or the
    enrichment. *)
Inductive StageThrows (w : World) (file : File) (userId : string) : Thrown -> Prop :=
| ThrowsUpload e :
    completion (uploadWithRetry w file userId 3) = Throw e ->
    StageThrows w file userId e
| ThrowsReachability up e :
    completion (uploadWithRetry w file userId 3) = Return up ->
    completion (validateUrl w (publicUrl up)) = Throw e ->
    StageThrows w file userId e
| ThrowsPrimary up e :
    completion (uploadWithRetry w file userId 3) = Return up ->
    completion (validateUrl w (publicUrl up)) = Return tt ->
    completion (generateBasicAnalysis w (publicUrl up)) = Throw e ->
    StageThrows w file userId e
| ThrowsEnrichment up basic e :
    completion (uploadWithRetry w file userId 3) = Return up ->
    completion (validateUrl w (publicUrl up)) = Return tt ->
    completion (generateBasicAnalysis w (publicUrl up)) = Return basic ->
    completion (generateEnhancedAnalysis w basic) = Throw e ->
    StageThrows w file userId e.

(** What the primary stage can return: the fallback, for a response
    that failed the validation, or the accepted response with its free
    colours padded and repaired. *)
Inductive BasicResult (w : World) (imageUrl : string) : Analysis -> Prop :=
| BasicFallback result r :
    aiBasic w imageUrl = AiResolves (Some result) ->
    incomplete result = true ->
    generateFallbackAnalysis (rndBasic w) "incomplete_ai_result" = Return r ->
    BasicResult w imageUrl r
| BasicRepaired result cs :
    aiBasic w imageUrl = AiResolves (Some result) ->
    incomplete result = false ->
    freeColors result = Some cs ->
    BasicResult w imageUrl
      (setFreeColors result
         (map fixColor (cs ++ skipn (List.length cs) defaultColors)%list)).

(** Where the result of the pipeline comes from: the top-level handler,
    the static premium data put on a basic result, or the object of the
    enrichment call merged onto a basic result. *)
Inductive PipelineResult (w : World) (file : File) : Analysis -> Prop :=
| FromHandler r :
    generateFallbackAnalysis (rndTop w) (fileName file) = Return r ->
    PipelineResult w file r
| FromStaticPremium imageUrl basic r :
    BasicResult w imageUrl basic ->
    generateFallbackPremiumData basic = Return r ->
    PipelineResult w file r
| FromEnrichment imageUrl basic object :
    BasicResult w imageUrl basic ->
    aiEnhance w basic = EnrichResolves (Some object) ->
    PipelineResult w file (spread basic object).

(* ===================================================================== *)
(** ** Shapes of results                                                 *)
(* ===================================================================== *)

Definition isSome {A} (o : option A) : bool :=
  match o with
  | Some _ => true
  | None => false
  end.

(** The properties [interface AnalysisResult] requires are present. *)
Definition complete (a : Analysis) : bool :=
  isSome (skinTone a) && isSome (season a) && isSome (freeColors a)
  && isSome (premiumColors a) && isSome (recommendations a).

Definition allHexValid (cs : list ColorResult) : bool :=
  forallb (fun c => matchesHex6 (hex c)) cs.

Definition seasonValid (a : Analysis) : bool :=
  match season a with
  | Some s => memStr s seasons
  | None => false
  end.

Definition hasLength {A} (n : nat) (o : option (list A)) : bool :=
  match o with
  | Some l => (List.length l =? n)%nat
  | None => false
  end.

Definition hexValidIn (o : option (list ColorResult)) : bool :=
  match o with
  | Some l => allHexValid l
  | None => false
  end.

(** What a result of the fallback generator looks like: complete, a
    season of the four, three free and fifteen premium colours with
    six-digit codes, eight make-up tips, ten wardrobe entries and the
    seasonal details. *)
Definition wellFormed (a : Analysis) : bool :=
  complete a && seasonValid a
  && hasLength 3 (freeColors a) && hexValidIn (freeColors a)
  && hasLength 15 (premiumColors a) && hexValidIn (premiumColors a)
  && hasLength 8 (makeupTips a) && hasLength 10 (wardrobeGuide a)
  && isSome (seasonalDetails a).

(* ===================================================================== *)
(** ** The wording of the specification                                  *)
(* ===================================================================== *)

Definition hexDigitsOfLength (n : nat) (s : string) : bool :=
  (String.length s =? n)%nat && allHexDigits s.

(** The codes the specification calls repairable: six or three
    hexadecimal digits, with or without the leading [#]. *)
Definition repairable (h : string) : bool :=
  let digits :=
    match h with
    | String c rest => if Ascii.eqb c "#" then rest else h
    | EmptyString => h
    end in
  hexDigitsOfLength 6 digits || hexDigitsOfLength 3 digits.

(** The variants as the specification words them: each RGB channel of
    the base colour moved by a fixed amount and clamped to [0, 255]. *)
Module Spec.

Definition clampByte (v : Z) : Z := Z.max 0 (Z.min 255 v).

(** The lower-case hexadecimal digit of a value below 16. *)
Definition digitChar (d : Z) : ascii :=
  match String.get (Z.to_nat d) "0123456789abcdef" with
  | Some a => a
  | None => "0"%char
  end.

(** A channel as two hexadecimal digits. *)
Definition hexPair (v : Z) : string :=
  String (digitChar (v / 16)) (String (digitChar (v mod 16)) EmptyString).

Definition pairValue (a b : ascii) : option Z :=
  match Js.hexDigit a, Js.hexDigit b with
  | Some x, Some y => Some (x * 16 + y)%Z
  | _, _ => None
  end.

(** The red, green and blue channels of a six-digit code. *)
Definition channels (h : string) : option (Z * Z * Z) :=
  match h with
  | String "#" (String r1 (String r2 (String g1 (String g2
      (String b1 (String b2 EmptyString)))))) =>
      match pairValue r1 r2, pairValue g1 g2, pairValue b1 b2 with
      | Some r, Some g, Some b => Some (r, g, b)
      | _, _, _ => None
      end
  | _ => None
  end.

Definition shifted (delta : Z) (h : string) : option string :=
  match channels h with
  | Some (r, g, b) =>
      Some ("#" ++ hexPair (clampByte (r + delta))
                ++ hexPair (clampByte (g + delta))
                ++ hexPair (clampByte (b + delta)))
  | None => None
  end.

End Spec.

(* ===================================================================== *)
(** ** The primary stage on a response that leaves the schema            *)
(* ===================================================================== *)

(** The object of the AI service is parsed JSON: nothing makes the
    [hex] of a colour a string.  This is [generateBasicAnalysis] again,
    on a response whose [freeColors], when present, is an array whose
    elements may lack a string [hex]; on the responses that [Analysis]
    describes it is the function above. *)
Module Untyped.

(** An element of [freeColors]: a colour whose [hex] is a string, or an
    element on which [color.hex.match(...)] raises a [TypeError] (a
    colour without [hex], with a [hex] that is [null] or a number, an
    element that is [null]); [message] is the text that the engine gives
    to this error. *)
Inductive Entry :=
| WithHex (c : ColorResult)
| WithoutHex (message : string).

(** [response.object] *)
Record Object := mkObject {
  skinTone : option string;
  season : option string;
  freeColors : option (list Entry);
  premiumColors : option (list ColorResult);
  recommendations : option (list string);
  makeupTips : option (list string);
  wardrobeGuide : option (list string);
  seasonalDetails : option SeasonalDetails
}.

(** The outcome of the race between the AI call and the timer. *)
Inductive Answer :=
| Rejects (e : Thrown)
| TimesOut
| Resolves (object : option Object).

(** [!result.skinTone || !result.season || !result.freeColors
     || result.freeColors.length < 1] *)
Definition incomplete (result : Object) : bool :=
  negb (truthy (skinTone result))
  || negb (truthy (season result))
  || match freeColors result with
     | None => true
     | Some fc => (List.length fc <? 1)%nat
     end.

(** The padding loop:
    [while (fc.length < 3) { i = fc.length;
       if (i < defaultColors.length) fc.push(defaultColors[i]) else break }] *)
Equations? padEntries (fc : list Entry) : list Entry
  by wf (3 - List.length fc) lt :=
  padEntries fc with lt_dec (List.length fc) 3 := {
    | left _ with nth_error defaultColors (List.length fc) := {
        | Some d => padEntries (fc ++ [WithHex d])%list ;
        | None => fc } ;
    | right _ => fc }.
Proof.
  rewrite length_app; simpl.
  destruct (List.length fc) as [|[|[|n]]]; simpl; lia.
Qed.

(** The loop [for (const color of result.freeColors)]: every code
    repaired, or the [TypeError] of [color.hex.match] at the first
    element whose [hex] is no string. *)
Fixpoint repairEntries (fc : list Entry) : Completion (list ColorResult) :=
  match fc with
  | [] => Return []
  | WithHex c :: rest =>
      match repairEntries rest with
      | Return cs => Return (fixColor c :: cs)
      | Throw e => Throw e
      end
  | WithoutHex message :: _ => Throw (JsTypeError message)
  end.

(** What the stage does with the object of the response. *)
Definition repairResult (rnd : nat) (result : Object) : Eff Analysis :=
  if incomplete result
  then lift (generateFallbackAnalysis rnd "incomplete_ai_result")
  else
    match freeColors result with
    | Some fc =>
        match repairEntries (padEntries fc) with
        | Return cs =>
            ret (mkAnalysis (skinTone result) (season result) (Some cs)
                            (premiumColors result) (recommendations result)
                            (makeupTips result) (wardrobeGuide result)
                            (seasonalDetails result))
        | Throw e => throw e
        end
    | None => throw (JsTypeError "Cannot read properties of undefined (reading 'length')")
    end.

(** [generateBasicAnalysis(imageUrl)], [rnd] being the index drawn by
    the fallback and [answer] the outcome of the race. *)
Definition generateBasicAnalysis (rnd : nat) (imageUrl : string) (answer : Answer)
  : Eff Analysis :=
  tryCatch
    (emit (EvGenerateBasic imageUrl) ;;;
     match answer with
     | Rejects e => throw e
     | TimesOut => throw (JsError "AI analysis timed out after 60 seconds")
     | Resolves None => throw (JsError "AI analysis failed to generate results")
     | Resolves (Some result) => repairResult rnd result
     end)
    (fun error =>
       throw (JsError ("AI analysis failed: "
                       ++ (if instanceOfError error then messageOf error
                           else "Unknown error")))).

End Untyped.



(** An entry whose [hex] is no string. *)
Definition withoutHex (e : Untyped.Entry) : bool :=
  match e with
  | Untyped.WithHex _ => false
  | Untyped.WithoutHex _ => true
  end.



(* ===================================================================== *)
(** ** Security utilities ([utils/security])                             *)
(* ===================================================================== *)

Module Security.

(** [{ isValid: boolean; error?: string }] *)
Record Validation := mkValidation {
  isValid : bool;
  error : option string
}.

Definition allowedTypes : list string :=
  [ "image/jpeg"; "image/jpg"; "image/png"; "image/webp"; "image/gif";
    "image/bmp"; "image/tiff" ].

(** [15 * 1024 * 1024] *)
Definition maxSize : N := 15 * 1024 * 1024.

(** [s] ends with [suffix]: one of the tails of [s] is [suffix]. *)
Fixpoint endsWith (s suffix : string) : bool :=
  String.eqb s suffix
  || match s with
     | EmptyString => false
     | String _ rest => endsWith rest suffix
     end.

(** The extensions of [suspiciousPatterns], each pattern being
    [/\.ext$/i]. *)
Definition suspiciousExtensions : list string :=
  [ ".php"; ".exe"; ".bat"; ".sh"; ".cmd"; ".scr"; ".com"; ".pif"; ".vbs";
    ".js"; ".jar" ].

(** [/\.ext$/i.test(name)]: the name ends with the extension, letters
    compared without regard to case.  The extensions are written in
    lower-case ASCII, and no other character is lowered to an ASCII
    letter or to the dot, so the test is the comparison of the
    lower-cased name. *)
Definition hasExtension (name ext : string) : bool :=
  endsWith (Js.toLowerCase name) ext.

(** [validateFileUpload(file)] *)
Definition validateFileUpload (file : File) : Validation :=
  if negb (memStr (fileType file) allowedTypes)
  then mkValidation false
         (Some "Invalid file type. Please upload a JPG, PNG, WebP, GIF, BMP, or TIFF image.")
  else if (maxSize <? fileSize file)%N
  then mkValidation false
         (Some "File size too large. Please upload an image smaller than 15MB.")
  else if existsb (hasExtension (fileName file)) suspiciousExtensions
  then mkValidation false (Some "Invalid file name. Please rename your image file.")
  else mkValidation true None.

(** [s.replace(/[<>]/g, '')] *)
Fixpoint removeAngleBrackets (s : string) : string :=
  match s with
  | EmptyString => EmptyString
  | String a rest =>
      if Ascii.eqb a "<" || Ascii.eqb a ">"
      then removeAngleBrackets rest
      else String a (removeAngleBrackets rest)
  end.

(** [s.replace(re, '')] for a global pattern [re] without empty matches.
    [matchLength t] is the length of the match of [re] at the start of
    [t], when there is one.  The search goes from left to right; the
    characters of a match are dropped and the search goes on after
    them.  [skip] counts the characters of the current match that are
    still to be dropped. *)
Fixpoint removeMatches (matchLength : string -> option nat) (skip : nat) (s : string)
  : string :=
  match s with
  | EmptyString => EmptyString
  | String a rest =>
      match skip with
      | S k => removeMatches matchLength k rest
      | O =>
          match matchLength s with
          | Some n => removeMatches matchLength (Nat.pred n) rest
          | None => String a (removeMatches matchLength 0 rest)
          end
      end
  end.

(** [/javascript:/i] at the start of [s].  Without the [u] flag the case
    folding of the pattern keeps a character above U+007F apart from
    every ASCII letter, so the test is the comparison with the
    lower-cased text. *)
Definition matchJavascript (s : string) : option nat :=
  if String.prefix "javascript:" (Js.toLowerCase s) then Some 11%nat else None.

(** [\w]: a letter of A-Z or a-z, a digit or the underscore. *)
Definition isWordChar (a : ascii) : bool :=
  let n := nat_of_ascii a in
  (((48 <=? n) && (n <=? 57)) || ((65 <=? n) && (n <=? 90))
   || ((97 <=? n) && (n <=? 122)) || (n =? 95))%nat.

(** The longest run of word characters at the start of [s]: its length
    and what follows it. *)
Fixpoint wordRun (s : string) : nat * string :=
  match s with
  | String a rest =>
      if isWordChar a then let (n, t) := wordRun rest in (S n, t) else (O, s)
  | EmptyString => (O, EmptyString)
  end.

(** [/on\w+=/i] at the start of [s].  The sign [=] is no word character,
    so the greedy [\w+] can only be followed by [=] at the end of the
    longest run: giving characters back never helps. *)
Definition matchHandler (s : string) : option nat :=
  match s with
  | String o afterO =>
      if Ascii.eqb (Js.lowerChar o) "o"
      then match afterO with
           | String n rest =>
               if Ascii.eqb (Js.lowerChar n) "n"
               then match wordRun rest with
                    | (S k, String e _) =>
                        if Ascii.eqb e "=" then Some (2 + S k + 1)%nat else None
                    | _ => None
                    end
               else None
           | EmptyString => None
           end
      else None
  | EmptyString => None
  end.

(** [s.trimEnd()] and [s.trim()], on code units below 256. *)
Fixpoint trimEnd (s : string) : string :=
  match s with
  | EmptyString => EmptyString
  | String a rest =>
      match trimEnd rest with
      | EmptyString => if Js.isWhite a then EmptyString else String a EmptyString
      | t => String a t
      end
  end.

Definition trim (s : string) : string := trimEnd (Js.skipWhite s).

(** [sanitizeInput(input)] *)
Definition sanitizeInput (input : string) : string :=
  trim
    (removeMatches matchHandler 0
       (removeMatches matchJavascript 0
          (removeAngleBrackets input))).

(** [validateHexColor(hex)]:
    [/^#([A-Fa-f0-9]{6}|[A-Fa-f0-9]{3})$/.test(hex)] *)
Definition validateHexColor (hex : string) : bool :=
  match hex with
  | String c rest =>
      Ascii.eqb c "#" && (hexDigitsOfLength 6 rest || hexDigitsOfLength 3 rest)
  | EmptyString => false
  end.

(** [class RateLimiter]: the two constructor parameters and the map
    [attempts]; [this.attempts.get(id) || []] is the value of the
    function at [id].  Times are the integers of [Date.now()]. *)
Record RateLimiter := mkLimiter {
  maxAttempts : Z;
  windowMs : Z;
  attempts : string -> list Z
}.

(** [new RateLimiter(maxAttempts, windowMs)] *)
Definition newLimiter (maxAttempts windowMs : Z) : RateLimiter :=
  mkLimiter maxAttempts windowMs (fun _ => []).

(** [attempts.filter(time => now - time < this.windowMs)] *)
Definition validAttempts (l : RateLimiter) (identifier : string) (now : Z) : list Z :=
  filter (fun time => (now - time <? windowMs l)%Z) (attempts l identifier).

(** [isAllowed(identifier)], [now] being the value of [Date.now()]: the
    answer and the limiter after the call. *)
Definition isAllowed (l : RateLimiter) (identifier : string) (now : Z)
  : bool * RateLimiter :=
  let valid := validAttempts l identifier now in
  if (maxAttempts l <=? Z.of_nat (List.length valid))%Z
  then (false, l)
  else (true,
        mkLimiter (maxAttempts l) (windowMs l)
          (fun k => if String.eqb k identifier then (valid ++ [now])%list
                    else attempts l k)).

(** [getRemainingAttempts(identifier)] *)
Definition getRemainingAttempts (l : RateLimiter) (identifier : string) (now : Z) : Z :=
  Z.max 0 (maxAttempts l - Z.of_nat (List.length (validAttempts l identifier now))).

(** A sequence of [isAllowed] calls, each with its identifier and the
    clock value it reads: the answers, and the limiter at the end. *)
Fixpoint run (l : RateLimiter) (calls : list (string * Z)) : list bool * RateLimiter :=
  match calls with
  | [] => ([], l)
  | (identifier, now) :: rest =>
      let (answer, l') := isAllowed l identifier now in
      let (answers, l'') := run l' rest in
      (answer :: answers, l'')
  end.

(** The times at which calls for [identifier] were granted. *)
Fixpoint granted (identifier : string) (calls : list (string * Z)) (answers : list bool)
  : list Z :=
  match calls, answers with
  | (k, now) :: calls', answer :: answers' =>
      if String.eqb k identifier && answer
      then now :: granted identifier calls' answers'
      else granted identifier calls' answers'
  | _, _ => []
  end.

(** The clock value after a sequence of calls. *)
Fixpoint lastClock (start : Z) (calls : list (string * Z)) : Z :=
  match calls with
  | [] => start
  | (_, now) :: rest => lastClock now rest
  end.

(** The clock values of a sequence of calls never go back. *)
Fixpoint clockFrom (start : Z) (calls : list (string * Z)) : Prop :=
  match calls with
  | [] => True
  | (_, now) :: rest => (start <= now)%Z /\ clockFrom now rest
  end.

End Security.

(* ===================================================================== *)
(** ** Administrators ([utils/admin])                                    *)
(* ===================================================================== *)

Module Admin.

Definition ADMIN_EMAILS : list string :=
  [ "kai.jiabo.feng@gmail.com"; "admin@example.com" ].

(** [isAdmin(userEmail)]; [None] is [null] or [undefined]. *)
Definition isAdmin (userEmail : option string) : bool :=
  match userEmail with
  | Some email =>
      if negb (truthy userEmail) then false
      else memStr (Js.toLowerCase email) ADMIN_EMAILS
  | None => false
  end.

(** [requireAdmin(userEmail)] *)
Definition requireAdmin (userEmail : option string) : bool := isAdmin userEmail.

Record AdminStatus := mkStatus {
  statusIsAdmin : bool;
  statusEmail : option string;
  hasAccess : bool;
  message : string
}.

(** [getAdminStatus(userEmail)] *)
Definition getAdminStatus (userEmail : option string) : AdminStatus :=
  let isAdminUser := isAdmin userEmail in
  mkStatus isAdminUser userEmail isAdminUser
           (if isAdminUser then "Admin access granted"
            else "This feature is only available to administrators").

End Admin.

(* ===================================================================== *)
(** ** The error logger ([utils/errorLogger])                            *)
(* ===================================================================== *)

Module Logger.

Inductive Severity := Low | Medium | High | Critical.

(** The object [errorLog] that [logError] builds.  Its type is
    [ErrorLog], but the spread of the argument can leave [undefined]
    ([None]) in a property that the interface requires.
    [additionalData] is kept as a list of keys with their values
    written out. *)
Record ErrorLog := mkErrorLog {
  logId : option string;
  timestamp : option string;
  userId : option string;
  errorType : string;
  errorMessage : string;
  stackTrace : option string;
  pageUrl : option string;
  userAgent : option string;
  additionalData : option (list (string * string));
  severity : option Severity
}.

(** A property of the argument of [logError]: not there, there with the
    value [undefined], or there with a value. *)
Inductive Given (A : Type) :=
| Absent
| Undefined
| Value (v : A).
Arguments Absent {A}.
Arguments Undefined {A}.
Arguments Value {A} v.

(** [Partial<ErrorLog>] *)
Record PartialLog := mkPartial {
  givenId : Given string;
  givenTimestamp : Given string;
  givenUserId : Given string;
  givenType : Given string;
  givenMessage : Given string;
  givenStack : Given string;
  givenPageUrl : Given string;
  givenUserAgent : Given string;
  givenData : Given (list (string * string));
  givenSeverity : Given Severity
}.

(** What one call of [logError] reads from the browser: the id made of
    the clock and of [Math.random], the time, the user kept in
    [localStorage], the address of the page, the user agent, and whether
    [localStorage.setItem] accepts the item rather than throws. *)
Record Ambient := mkAmbient {
  generatedId : string;
  isoTime : string;
  currentUserId : option string;
  href : string;
  agent : string;
  storageAccepts : bool
}.

(** The array [logs] of the logger, and the item [error_logs] of
    [localStorage] when there is one. *)
Record Store := mkStore {
  logs : list ErrorLog;
  persisted : option (list ErrorLog)
}.

Definition maxLogs : nat := 100.

(** [{ key: default, ...error }]: a property of [error] wins over the
    default, also when its value is [undefined]. *)
Definition spreadOver {A} (default : option A) (given : Given A) : option A :=
  match given with
  | Absent => default
  | Undefined => None
  | Value v => Some v
  end.

(** [error.key || d] *)
Definition orText (given : Given string) (d : string) : string :=
  match given with
  | Value v => if (v =? "")%string then d else v
  | _ => d
  end.

(** The object [errorLog] of [logError]: the defaults, the spread of
    [error] over them, then [errorType] and [errorMessage]. *)
Definition entry (amb : Ambient) (error : PartialLog) : ErrorLog :=
  mkErrorLog
    (spreadOver (Some (generatedId amb)) (givenId error))
    (spreadOver (Some (isoTime amb)) (givenTimestamp error))
    (spreadOver (currentUserId amb) (givenUserId error))
    (orText (givenType error) "Unknown Error")
    (orText (givenMessage error) "No message provided")
    (spreadOver None (givenStack error))
    (spreadOver (Some (href amb)) (givenPageUrl error))
    (spreadOver (Some (agent amb)) (givenUserAgent error))
    (spreadOver None (givenData error))
    (spreadOver (Some Medium) (givenSeverity error)).

(** [persistLogs()]: the first 50 logs are stored; an error of the
    storage is ignored. *)
Definition persistLogs (amb : Ambient) (st : Store) : Store :=
  if storageAccepts amb
  then mkStore (logs st) (Some (firstn 50 (logs st)))
  else st.

(** [logError(error)]: the store after the call and the id returned,
    [errorLog.id]. *)
Definition logError (st : Store) (amb : Ambient) (error : PartialLog)
  : Store * option string :=
  let errorLog := entry amb error in
  let unshifted := errorLog :: logs st in
  let kept :=
    if (maxLogs <? List.length unshifted)%nat then firstn maxLogs unshifted
    else unshifted in
  (persistLogs amb (mkStore kept (persisted st)), logId errorLog).

(** A property written [key: value] in an object literal, [value]
    being possibly [undefined]. *)
Definition written {A} (value : option A) : Given A :=
  match value with
  | Some v => Value v
  | None => Undefined
  end.

(** [logAnalysisError(error, additionalData)] and
    [logUploadError(error, file)], for an [Error] with the given message
    and stack. *)
Definition analysisError (message : string) (stack : option string)
    (data : option (list (string * string))) : PartialLog :=
  mkPartial Absent Absent Absent (Value "Analysis Error") (Value message)
            (written stack) Absent Absent (written data) (Value High).

Definition uploadError (message : string) (stack : option string) (file : File)
  : PartialLog :=
  mkPartial Absent Absent Absent (Value "Upload Error") (Value message)
            (written stack) Absent Absent
            (Value [("fileName", fileName file);
                    ("fileSize", Js.decimal (N.to_nat (fileSize file)));
                    ("fileType", fileType file)])
            (Value Medium).

(** A sequence of calls of [logError]. *)
Fixpoint logAll (st : Store) (calls : list (Ambient * PartialLog)) : Store :=
  match calls with
  | [] => st
  | (amb, error) :: rest => logAll (fst (logError st amb error)) rest
  end.

(** The entries of a sequence of calls, the first call first. *)
Definition entries (calls : list (Ambient * PartialLog)) : list ErrorLog :=
  map (fun call => entry (fst call) (snd call)) calls.

End Logger.

(* ===================================================================== *)
(** ** The caller of the pipeline ([App.tsx])                            *)
(* ===================================================================== *)

Module App.

(** [s.includes(sub)] *)
Fixpoint includes (s sub : string) : bool :=
  String.prefix sub s
  || match s with
     | EmptyString => false
     | String _ rest => includes rest sub
     end.

(** The state of the component that [analyzePhoto] sets. *)
Record Ui := mkUi {
  isAnalyzing : bool;
  error : option string;
  analysisResult : option Analysis;
  currentAnalysisId : option string
}.

Definition setIsAnalyzing (b : bool) (ui : Ui) : Ui :=
  mkUi b (error ui) (analysisResult ui) (currentAnalysisId ui).

Definition setError (e : option string) (ui : Ui) : Ui :=
  mkUi (isAnalyzing ui) e (analysisResult ui) (currentAnalysisId ui).

Definition setAnalysisResult (r : option Analysis) (ui : Ui) : Ui :=
  mkUi (isAnalyzing ui) (error ui) r (currentAnalysisId ui).

Definition setCurrentAnalysisId (i : option string) (ui : Ui) : Ui :=
  mkUi (isAnalyzing ui) (error ui) (analysisResult ui) i.

(** What [analyzePhoto] asks of the other modules, in order: the
    performance tracker, the error logger, and the calls of the
    pipeline that leave the process. *)
Inductive Call :=
| StartTiming (label : string)
| EndTiming
| LogUploadError (message : string) (file : File)
| LogAnalysisError (message : string) (userId : option string) (file : File)
| Pipeline (e : Event).

(** The values read from the clock and from [Math.random] during one
    call: [Date.now()] in [isAllowed], in [getRemainingAttempts] and in
    the analysis id, and the random suffix of the id. *)
Record Readings := mkReadings {
  atIsAllowed : Z;
  atRemaining : Z;
  atId : Z;
  idSuffix : string
}.

(** The limiter of the application:
    [new RateLimiter(5, 15 * 60 * 1000)] *)
Definition analysisRateLimiter : Security.RateLimiter :=
  Security.newLimiter 5 (15 * 60 * 1000).

Definition signInMessage : string := "Please sign in to analyze your photo.".

Definition rateLimitMessage (remaining : Z) : string :=
  "Rate limit exceeded. You can try again in a few minutes. Remaining attempts: "
  ++ Js.decimal (Z.to_nat remaining).

(** [validation.error || 'Invalid file'] *)
Definition validationMessage (v : Security.Validation) : string :=
  if truthy (Security.error v)
  then match Security.error v with Some m => m | None => "Invalid file" end
  else "Invalid file".

(** The [try] block.  [user] is [user?.id], absent when there is no
    user.  The result is the calls made, the limiter after the block,
    and how the block ends. *)
Definition tryBlock (user : option string) (limiter : Security.RateLimiter)
    (file : File) (w : World) (c : Readings)
  : list Call * Security.RateLimiter * Completion Analysis :=
  match user with
  | Some id =>
      if truthy user
      then
        let (allowed, limiter') := Security.isAllowed limiter id (atIsAllowed c) in
        if negb allowed
        then
          let remaining := Security.getRemainingAttempts limiter' id (atRemaining c) in
          ([], limiter', Throw (JsError (rateLimitMessage remaining)))
        else
          let validation := Security.validateFileUpload file in
          if negb (Security.isValid validation)
          then
            let message := validationMessage validation in
            ([LogUploadError message file], limiter', Throw (JsError message))
          else
            let run := analyzePhotoWithAI w file id in
            (map Pipeline (trace run), limiter', completion run)
      else ([], limiter, Throw (JsError signInMessage))
  | None => ([], limiter, Throw (JsError signInMessage))
  end.

(** The message chosen in the [catch] block. *)
Definition friendlyMessage (e : Thrown) : string :=
  if instanceOfError e
  then
    let errorMessage := Js.toLowerCase (messageOf e) in
    if includes errorMessage "rate limit" || includes errorMessage "quota"
    then "Service temporarily unavailable. Please try again in a few minutes."
    else if includes errorMessage "network" || includes errorMessage "fetch"
            || includes errorMessage "connection"
    then "Network error. Please check your connection and try again."
    else if includes errorMessage "image" || includes errorMessage "photo"
            || includes errorMessage "upload"
    then "Unable to process this image. Please try a different photo with good lighting."
    else if includes errorMessage "ai" || includes errorMessage "analysis"
    then "AI analysis service is temporarily unavailable. Please try again in a moment."
    else if includes errorMessage "auth" || includes errorMessage "sign"
    then "Please sign in to analyze your photo."
    else messageOf e
  else "Analysis failed. Please try again.".

(** [`analysis_${Date.now()}_${Math.random().toString(36).substr(2, 9)}`] *)
Definition newAnalysisId (c : Readings) : string :=
  "analysis_" ++ Js.decimal (Z.to_nat (atId c)) ++ "_" ++ idSuffix c.

(** [analyzePhoto(file)]: the state of the component and the limiter
    after the call, and the calls made.  The calls to the tracker and to
    the logger return: their storage accesses are guarded in the
    source. *)
Definition analyzePhoto (ui : Ui) (limiter : Security.RateLimiter)
    (user : option string) (file : option File) (w : World) (c : Readings)
  : Ui * Security.RateLimiter * list Call :=
  match file with
  | None => (ui, limiter, [])
  | Some f =>
      let ui1 := setError None (setIsAnalyzing true ui) in
      let '(calls, limiter', outcome) := tryBlock user limiter f w c in
      let '(ui2, logged) :=
        match outcome with
        | Return enhancedAnalysis =>
            (setAnalysisResult (Some enhancedAnalysis)
               (setCurrentAnalysisId (Some (newAnalysisId c)) ui1),
             [])
        | Throw e =>
            (setError (Some (friendlyMessage e)) ui1,
             if instanceOfError e
             then [LogAnalysisError (messageOf e) user f]
             else [])
        end in
      (setIsAnalyzing false ui2, limiter',
       (StartTiming "photo_analysis" :: calls ++ logged ++ [EndTiming])%list)
  end.

(** The calls of the pipeline among the calls made. *)
Fixpoint pipelineCalls (calls : list Call) : list Event :=
  match calls with
  | [] => []
  | Pipeline e :: rest => e :: pipelineCalls rest
  | _ :: rest => pipelineCalls rest
  end.

End App.

(* ===================================================================== *)
(** ** What the components show of a result                              *)
(* ===================================================================== *)

Module Display.

(** The panel under the upload zone of [App]:
    [analysisResult && !isPremiumUnlocked && !error] shows
    [ColorResults], [analysisResult && isPremiumUnlocked && !error]
    shows [PremiumResults]. *)
Inductive Panel :=
| NoPanel
| FreePanel (results : Analysis)
| PremiumPanel (results : Analysis).

Definition panel (ui : App.Ui) (isPremiumUnlocked : bool) : Panel :=
  match App.analysisResult ui with
  | Some results =>
      if truthy (App.error ui) then NoPanel
      else if isPremiumUnlocked then PremiumPanel results
      else FreePanel results
  | None => NoPanel
  end.

(** What [ColorResults] reads of the colours while it renders:
    [results.freeColors.map(...)],
    [results.premiumColors.slice(0, 8).map(...)] and
    [Math.max(0, results.premiumColors.length - 8)]. *)
Record Preview := mkPreview {
  swatches : list ColorResult;
  locked : list ColorResult;
  more : Z
}.

(** The render of [ColorResults]: reading a property of [undefined]
    throws a [TypeError]. *)
Definition colorResults (results : Analysis) : Completion Preview :=
  match freeColors results with
  | None => Throw (JsTypeError "Cannot read properties of undefined (reading 'map')")
  | Some fc =>
      match premiumColors results with
      | None =>
          Throw (JsTypeError "Cannot read properties of undefined (reading 'slice')")
      | Some pc =>
          Return (mkPreview fc (firstn 8 pc)
                            (Z.max 0 (Z.of_nat (List.length pc) - 8)))
      end
  end.

(** [c.category === tag] *)
Definition hasCategory (tag : string) (c : ColorResult) : bool :=
  match category c with
  | Some t => String.eqb t tag
  | None => false
  end.

(** The object of [categorizeColors(colors)] in [PremiumResults]. *)
Record Categorized := mkCategorized {
  neutrals : list ColorResult;
  accents : list ColorResult;
  statements : list ColorResult;
  softs : list ColorResult;
  others : list ColorResult
}.

Definition categorizeColors (colors : list ColorResult) : Categorized :=
  mkCategorized
    (filter (hasCategory "neutral") colors)
    (filter (hasCategory "accent") colors)
    (filter (hasCategory "statement") colors)
    (filter (hasCategory "soft") colors)
    (filter (fun c => negb (truthy (category c))) colors).

(** The swatches of the card [Complete Color Palette]: the lists that
    its four blocks map over, in their order. *)
Definition completePalette (c : Categorized) : list ColorResult :=
  (neutrals c ++ accents c ++ statements c ++ others c)%list.


End Display.

(* ===================================================================== *)
(** ** The system tests ([utils/testing])                                *)
(* ===================================================================== *)

Module Testing.

(** A value of [details]. *)
Inductive Detail :=
| Flag (b : bool)
| Count (n : nat)
| Names (l : list string).

(** [interface TestResult] *)
Record TestResult := mkResult {
  name : string;
  passed : bool;
  error : option string;
  details : option (list (string * Detail))
}.

Record Summary := mkSummary {
  total : nat;
  passedTests : nat;
  failedTests : nat
}.

(** [interface SystemTestResults] *)
Record SystemTestResults := mkResults {
  overall : bool;
  tests : list TestResult;
  summary : Summary
}.

(** What the tests find in the browser: whether a module loads (the
    error of [import(path)] when it does not), the answers of
    [validateUrl], whose parser is the one of the browser, and the
    results of the six tests that look at nothing else than the
    browser. *)
Record Browser := mkBrowser {
  importError : string -> option Thrown;
  validateUrl : string -> bool;
  sdkConnection : TestResult;
  uiComponents : TestResult;
  localStorage : TestResult;
  errorHandling : TestResult;
  performance : TestResult;
  accessibility : TestResult
}.

(** The result built in a [catch] block. *)
Definition failure (name : string) (e : Thrown) : TestResult :=
  mkResult name false
           (Some (if instanceOfError e then messageOf e else "Unknown error"))
           None.

(** [new File(['test'], name, { type })] and
    [new File([new ArrayBuffer(size)], name, { type })] *)
Definition textFile (name type : string) : File := mkFile name 4 type.

Definition bufferFile (size : N) (name type : string) : File := mkFile name size type.

(** [testFileUploadValidation()] *)
Definition testFileUploadValidation (b : Browser) : TestResult :=
  let name := "File Upload Validation" in
  match importError b "./security" with
  | Some e => failure name e
  | None =>
      let validFile := textFile "test.jpg" "image/jpeg" in
      if negb (Security.isValid (Security.validateFileUpload validFile))
      then failure name (JsError "Valid file rejected")
      else
        let invalidFile := textFile "test.txt" "text/plain" in
        if Security.isValid (Security.validateFileUpload invalidFile)
        then failure name (JsError "Invalid file type accepted")
        else
          let oversizedFile := bufferFile (16 * 1024 * 1024) "large.jpg" "image/jpeg" in
          if Security.isValid (Security.validateFileUpload oversizedFile)
          then failure name (JsError "Oversized file accepted")
          else
            let largeValidFile :=
              bufferFile (14 * 1024 * 1024) "large.jpg" "image/jpeg" in
            if negb (Security.isValid (Security.validateFileUpload largeValidFile))
            then failure name
                   (JsError "14MB file rejected, should be accepted with 15MB limit")
            else mkResult name true None
                   (Some [("validFile", Flag true); ("invalidType", Flag true);
                          ("oversized", Flag true); ("largeFileSupport", Flag true)])
  end.

Definition quote : string := String (ascii_of_nat 34) EmptyString.

(** The text [<script>alert(...)</script>] of the test, the argument of
    [alert] being [xss] between double quotes. *)
Definition maliciousInput : string :=
  "<script>alert(" ++ quote ++ "xss" ++ quote ++ ")</script>".

(** [testSecurityValidation()] *)
Definition testSecurityValidation (b : Browser) : TestResult :=
  let name := "Security Validation" in
  match importError b "./security" with
  | Some e => failure name e
  | None =>
      let sanitized := Security.sanitizeInput maliciousInput in
      if App.includes sanitized "<script>"
      then failure name (JsError "XSS not prevented")
      else if negb (Security.validateHexColor "#FF0000")
      then failure name (JsError "Valid hex color rejected")
      else if Security.validateHexColor "invalid"
      then failure name (JsError "Invalid hex color accepted")
      else if negb (validateUrl b "https://example.com")
      then failure name (JsError "Valid URL rejected")
      else if validateUrl b "javascript:alert(1)"
      then failure name (JsError "Malicious URL accepted")
      else mkResult name true None
             (Some [("xssPrevention", Flag true); ("hexValidation", Flag true);
                    ("urlValidation", Flag true)])
  end.

(** [testAdminFunctions()]; the two imported names are functions. *)
Definition testAdminFunctions (b : Browser) : TestResult :=
  let name := "Admin Functions" in
  match importError b "./admin" with
  | Some e => failure name e
  | None =>
      let adminStatus := Admin.getAdminStatus (Some "kai.jiabo.feng@gmail.com") in
      if negb (Admin.statusIsAdmin adminStatus)
      then failure name (JsError "Admin email not recognized")
      else
        let nonAdminStatus := Admin.getAdminStatus (Some "user@example.com") in
        if Admin.statusIsAdmin nonAdminStatus
        then failure name (JsError "Non-admin email incorrectly recognized as admin")
        else mkResult name true None
               (Some [("adminEmail", Flag true); ("nonAdminEmail", Flag true)])
  end.

Definition testFiles : list File :=
  [ textFile "test.jpg" "image/jpeg"; textFile "test.png" "image/png";
    textFile "test.webp" "image/webp"; textFile "test.gif" "image/gif";
    textFile "test.bmp" "image/bmp" ].

(** [testPhotoAnalysisMock()]; the imported name is a function. *)
Definition testPhotoAnalysisMock (b : Browser) : TestResult :=
  let name := "Photo Analysis Function" in
  match importError b "./photoAnalysis" with
  | Some e => failure name e
  | None =>
      match importError b "./security" with
      | Some e => failure name e
      | None =>
          let validFiles :=
            List.length
              (filter (fun file => Security.isValid (Security.validateFileUpload file))
                      testFiles) in
          if (validFiles <? 4)%nat
          then failure name
                 (JsError ("Only " ++ Js.decimal validFiles
                           ++ " file types accepted, expected at least 4"))
          else
            let largeFile := bufferFile (14 * 1024 * 1024) "large.jpg" "image/jpeg" in
            if negb (Security.isValid (Security.validateFileUpload largeFile))
            then failure name
                   (JsError "14MB file rejected, should be accepted with 15MB limit")
            else
              let oversizedFile :=
                bufferFile (16 * 1024 * 1024) "oversized.jpg" "image/jpeg" in
              if Security.isValid (Security.validateFileUpload oversizedFile)
              then failure name (JsError "16MB file accepted, should be rejected")
              else mkResult name true None
                     (Some [("functionExists", Flag true);
                            ("validFileTypes", Count validFiles);
                            ("largeFileSupport", Flag true);
                            ("oversizedRejection", Flag true)])
      end
  end.

(** [runSystemTests()] *)
Definition runSystemTests (b : Browser) : SystemTestResults :=
  let tests :=
    [ sdkConnection b; testFileUploadValidation b; testSecurityValidation b;
      uiComponents b; localStorage b; errorHandling b; performance b;
      accessibility b; testAdminFunctions b; testPhotoAnalysisMock b ] in
  let passed := List.length (filter passed tests) in
  let failed := (List.length tests - passed)%nat in
  mkResults (failed =? 0)%nat tests (mkSummary (List.length tests) passed failed).

(** The six tests that look at the browser alone. *)
Definition browserTests (b : Browser) : list TestResult :=
  [ sdkConnection b; uiComponents b; localStorage b; errorHandling b;
    performance b; accessibility b ].

End Testing.

(* ===================================================================== *)
(** ** Auxiliary definitions of the proofs                               *)
(* ===================================================================== *)

(** The numeral whose first digit has the value [v], below 16, and
    whose other digits are [l]; it links [toString16] to
    [Spec.digitChar]. *)
Definition digitOf (v : Z) (l : Hexadecimal.uint) : Hexadecimal.uint :=
  match v with
  | 0%Z => Hexadecimal.D0 l | 1%Z => Hexadecimal.D1 l | 2%Z => Hexadecimal.D2 l
  | 3%Z => Hexadecimal.D3 l | 4%Z => Hexadecimal.D4 l | 5%Z => Hexadecimal.D5 l
  | 6%Z => Hexadecimal.D6 l | 7%Z => Hexadecimal.D7 l | 8%Z => Hexadecimal.D8 l
  | 9%Z => Hexadecimal.D9 l | 10%Z => Hexadecimal.Da l | 11%Z => Hexadecimal.Db l
  | 12%Z => Hexadecimal.Dc l | 13%Z => Hexadecimal.Dd l | 14%Z => Hexadecimal.De l
  | _ => Hexadecimal.Df l
  end.

(** Number of upload attempts in a trace. *)
Fixpoint uploads (t : list Event) : nat :=
  match t with
  | [] => 0
  | EvUpload _ :: rest => S (uploads rest)
  | _ :: rest => uploads rest
  end.

(** What a run of calls keeps true: seen from any moment [T] not before
    the clock, the times stored for an identifier are the granted
    times of that identifier, and no more than [maxAttempts] are
    stored. *)
Definition limiterInvariant (l : Security.RateLimiter) (history : string -> list Z)
           (clock : Z) : Prop :=
  forall identifier,
    (Z.of_nat (List.length (Security.attempts l identifier))
     <= Z.max 0 (Security.maxAttempts l))%Z
    /\ forall T, (clock <= T)%Z ->
         filter (fun t => (T - t <? Security.windowMs l)%Z) (Security.attempts l identifier)
         = filter (fun t => (T - t <? Security.windowMs l)%Z) (history identifier).

(** The two messages that [analyzePhoto] shows for its own errors. *)
Definition unableMessage : string :=
  "Unable to process this image. Please try a different photo with good lighting.".

Definition unavailableMessage : string :=
  "Service temporarily unavailable. Please try again in a few minutes.".

(** The ways the [try] block ends. *)
Inductive TryBlock (user : option string) (limiter : Security.RateLimiter)
    (file : File) (w : World) (c : App.Readings)
  : list App.Call -> Security.RateLimiter -> Completion Analysis -> Prop :=
| SignedOut :
    truthy user = false ->
    TryBlock user limiter file w c [] limiter (Throw (JsError App.signInMessage))
| Limited id :
    user = Some id -> truthy user = true ->
    fst (Security.isAllowed limiter id (App.atIsAllowed c)) = false ->
    TryBlock user limiter file w c [] limiter
      (Throw (JsError (App.rateLimitMessage
                (Security.getRemainingAttempts limiter id (App.atRemaining c)))))
| Rejected id :
    user = Some id -> truthy user = true ->
    fst (Security.isAllowed limiter id (App.atIsAllowed c)) = true ->
    Security.isValid (Security.validateFileUpload file) = false ->
    TryBlock user limiter file w c
      [App.LogUploadError (App.validationMessage (Security.validateFileUpload file)) file]
      (snd (Security.isAllowed limiter id (App.atIsAllowed c)))
      (Throw (JsError (App.validationMessage (Security.validateFileUpload file))))
| Analyzed id :
    user = Some id -> truthy user = true ->
    fst (Security.isAllowed limiter id (App.atIsAllowed c)) = true ->
    Security.isValid (Security.validateFileUpload file) = true ->
    TryBlock user limiter file w c
      (map App.Pipeline (trace (analyzePhotoWithAI w file id)))
      (snd (Security.isAllowed limiter id (App.atIsAllowed c)))
      (completion (analyzePhotoWithAI w file id)).

(** A colour that one of the four blocks of [Complete Color Palette]
    shows: its category is [neutral], [accent] or [statement], or it has
    none. *)
Definition shownInPalette (c : ColorResult) : bool :=
  Display.hasCategory "neutral" c || Display.hasCategory "accent" c
  || Display.hasCategory "statement" c || negb (truthy (category c)).

(** Sum of the waits of a trace, in milliseconds. *)
Fixpoint totalSleep (t : list Event) : N :=
  match t with
  | [] => 0
  | EvSleep ms :: rest => ms + totalSleep rest
  | _ :: rest => totalSleep rest
  end.

(** The events of a trace that are calls to the AI service or the HEAD
    request. *)
Definition isAfterUpload (ev : Event) : bool :=
  match ev with
  | EvHead _ | EvGenerateBasic _ | EvGenerateEnhanced => true
  | _ => false
  end.

(* ===================================================================== *)
(** ** Concrete scenarios                                                *)
(* ===================================================================== *)

Module Scenario.

Definition photo : File := mkFile "photo.jpg" 2097152 "image/jpeg".
Definition emptyPhoto : File := mkFile "photo.jpg" 0 "image/jpeg".
Definition namelessPhoto : File := mkFile "" 2097152 "image/jpeg".

Definition stored : UploadResult := mkUpload "https://storage.example/analysis/photo.jpg".

Definition rust : ColorResult := color "Rust" "#B7410E" "Echoes the warmth of the skin".
Definition teal : ColorResult := color "Teal" "#008080" "Sets off the eyes".
Definition moss : ColorResult := color "Moss" "#8A9A5B" "Soft and earthy".
Definition plum : ColorResult := color "Plum" "#8E4585" "Deep and rich".

Definition tips : list string :=
  ["Wear warm tones near the face"; "Prefer gold jewellery"; "Avoid icy pastels"].

(** An object of the primary AI call with the given season and free
    colours. *)
Definition aiObject (s : string) (fc : list ColorResult) : Analysis :=
  mkAnalysis (Some "Warm undertone with golden hints") (Some s) (Some fc)
             None (Some tips) None None None.

Definition emptyObject : Analysis :=
  mkAnalysis None None None None None None None None.

(** An object of the enrichment call that only carries premium
    colours. *)
Definition premiumObject (pc : list ColorResult) : Analysis :=
  mkAnalysis None None None (Some pc) None None None None.

(** Storage and the HEAD request succeed; the two AI calls answer as
    given. *)
Definition world (basic : RaceOutcome) (enrich : EnrichOutcome) : World :=
  mkWorld (fun _ => UploadResolves (Some stored))
          (fun _ => FetchResolves true 200 "OK")
          (fun _ => basic)
          (fun _ => enrich)
          2 2.

(** Storage rejects the first [n] attempts with a network error and
    accepts the next ones. *)
Definition flaky (n : nat) : World :=
  mkWorld (fun attempt =>
             if (attempt <=? n)%nat
             then UploadRejects (JsError ("Network error on attempt " ++ Js.decimal attempt))
             else UploadResolves (Some stored))
          (fun _ => FetchResolves true 200 "OK")
          (fun _ => AiTimesOut)
          (fun _ => EnrichRejects JsOther)
          2 2.

(** What the top-level handler returns when the index drawn is 2. *)
Definition handlerResult : Analysis :=
  match generateFallbackAnalysis 2 "photo.jpg" with
  | Return r => r
  | Throw _ => emptyObject
  end.

End Scenario.


(** Calls of [analyzePhoto] from an idle component, with the limiter of
    the application when nobody has asked yet, while the primary AI call
    times out and the enrichment call fails. *)
Module Session.

Definition idle : App.Ui := App.mkUi false None None None.

Definition readings : App.Readings := App.mkReadings 1000 1001 1002 "k3j9x0q2a".

Definition offline : World := Scenario.world AiTimesOut (EnrichRejects JsOther).

Definition script : File := mkFile "photo.js" 2097152 "image/jpeg".

Definition run (user : option string) (file : File)
  : App.Ui * Security.RateLimiter * list App.Call :=
  App.analyzePhoto idle App.analysisRateLimiter user (Some file) offline readings.

End Session.

(** The two entries that a refused file sends to the logger, into an
    empty store whose storage is full at the second call. *)
Module Journal.

Definition first : Logger.Ambient :=
  Logger.mkAmbient "error_1000_k3j9x0q2a" "2024-05-01T10:00:00.000Z" (Some "user-1")
                   "https://app.example/" "Mozilla/5.0" true.

Definition second : Logger.Ambient :=
  Logger.mkAmbient "error_1001_p0o9i8u7y" "2024-05-01T10:00:00.001Z" (Some "user-1")
                   "https://app.example/" "Mozilla/5.0" false.

Definition empty : Logger.Store := Logger.mkStore [] None.

Definition refusal : string := "Invalid file name. Please rename your image file.".

Definition calls : list (Logger.Ambient * Logger.PartialLog) :=
  [ (first, Logger.uploadError refusal None Session.script);
    (second, Logger.analysisError refusal None None) ].

End Journal.

(** A browser in which every module loads, [validateUrl] answers as the
    URL parser does on the two addresses of the test, and the six tests
    of the browser pass except the one of accessibility. *)
Module Bench.

Definition pass (name : string) : Testing.TestResult :=
  Testing.mkResult name true None None.

Definition browser : Testing.Browser :=
  Testing.mkBrowser
    (fun _ => None)
    (fun url => Js.startsWith url "https:")
    (pass "Blink SDK Connection")
    (pass "UI Components")
    (pass "Local Storage")
    (pass "Error Handling")
    (pass "Performance")
    (Testing.mkResult "Accessibility" false
       (Some "Accessibility checks failed: description") None).

End Bench.

(** A basic result of the season Winter with one free colour, and what
    the static premium data make of it. *)
Module Gallery.

Definition basic : Analysis := Scenario.aiObject "Winter" [Scenario.rust].



End Gallery.
(* ===================================================================== *)
(** ** The colour utilities on a few inputs                              *)
(* ===================================================================== *)

Example lighten_coral : lightenColor "#FF7F7F" = "#ffa7a7".
Proof. reflexivity. Qed.

Example lighten_white : lightenColor "#FFFFFF" = "#ffffff".
Proof. reflexivity. Qed.

Example darken_black : darkenColor "#000000" = "#000000".
Proof. reflexivity. Qed.

Example darken_royal_blue : darkenColor "#4169E1" = "#1941b9".
Proof. reflexivity. Qed.

Example fixHex_kept : fixHex "#B7410E" = "#B7410E".
Proof. reflexivity. Qed.

Example fixHex_short_with_hash : fixHex "#abc" = "#aabbcc".
Proof. reflexivity. Qed.

Example fixHex_not_hex : fixHex "#zzz" = "#zzzzzz".
Proof. reflexivity. Qed.

Example fixHex_empty : fixHex "" = "#".
Proof. reflexivity. Qed.

Example parseInt16_forms :
  Js.parseInt16 "FF7F7F" = Js.Finite 16744319
  /\ Js.parseInt16 "  -0x1F" = Js.Finite (-31)
  /\ Js.parseInt16 "12xyz" = Js.Finite 18
  /\ Js.parseInt16 "xyz" = Js.NaN.
Proof. repeat split. Qed.

(** Beyond 53 bits the Number is the nearest double: 2^53 + 1 is read as
    2^53, 2^53 + 3 as 2^53 + 4, and 257 digits F as [Infinity]. *)
Example parseInt16_rounds :
  Js.parseInt16 "20000000000001" = Js.Finite 9007199254740992
  /\ Js.parseInt16 "20000000000003" = Js.Finite 9007199254740996
  /\ Js.parseInt16 ("-F" ++ Js.toString16 (2 ^ 1024 - 1)) = Js.Infinity true.
Proof. repeat split; vm_compute; reflexivity. Qed.

(* ===================================================================== *)
(** ** Basic facts about the effect operations                           *)
(* ===================================================================== *)

Lemma completion_bind_throw {A B} (m : Eff A) (k : A -> Eff B) e :
  completion m = Throw e -> completion (bind m k) = Throw e.
Proof.
  destruct m as [t [a|e']]; unfold completion; simpl; intros H; [discriminate|].
  injection H as ->. reflexivity.
Qed.

Lemma completion_bind_return {A B} (m : Eff A) (k : A -> Eff B) a :
  completion m = Return a -> completion (bind m k) = completion (k a).
Proof.
  destruct m as [t [a'|e]]; unfold completion; simpl; intros H; [|discriminate].
  injection H as ->. destruct (k a); reflexivity.
Qed.

Lemma trace_bind_return {A B} (m : Eff A) (k : A -> Eff B) a :
  completion m = Return a -> trace (bind m k) = (trace m ++ trace (k a))%list.
Proof.
  destruct m as [t [a'|e]]; unfold completion, trace; simpl; intros H; [|discriminate].
  injection H as ->. destruct (k a); reflexivity.
Qed.

Lemma completion_tryCatch_return {A} (m : Eff A) h a :
  completion m = Return a -> completion (tryCatch m h) = Return a.
Proof.
  destruct m as [t [a'|e]]; unfold completion; simpl; intros H; [exact H|discriminate].
Qed.

Lemma completion_tryCatch_throw {A} (m : Eff A) h e :
  completion m = Throw e -> completion (tryCatch m h) = completion (h e).
Proof.
  destruct m as [t [a'|e']]; unfold completion; simpl; intros H; [discriminate|].
  injection H as ->. destruct (h e); reflexivity.
Qed.

(* ===================================================================== *)
(** ** The fallback generator always answers                             *)
(* ===================================================================== *)

Lemma below_four (n : nat) : n < 4 -> n = 0 \/ n = 1 \/ n = 2 \/ n = 3.
Proof. lia. Qed.

(** With an index inside [seasons] the full fallback returns a
    well-formed result whose season is the one drawn. *)
Lemma generateFallbackAnalysis_returns rnd fileName :
  rnd < 4 ->
  exists r, generateFallbackAnalysis rnd fileName = Return r
            /\ wellFormed r = true
            /\ season r = nth_error seasons rnd.
Proof.
  intros H.
  destruct (below_four rnd H) as [-> | [-> | [-> | ->]]];
    (eexists; split; [reflexivity | split; vm_compute; reflexivity]).
Qed.

(** The file name only reaches the log. *)
Lemma generateFallbackAnalysis_name rnd n1 n2 :
  generateFallbackAnalysis rnd n1 = generateFallbackAnalysis rnd n2.
Proof. reflexivity. Qed.

(** The top-level handler turns every throw of the body into the
    fallback, and leaves a returned result alone. *)
Lemma analyze_on_throw w file userId e :
  completion (pipelineBody w file userId) = Throw e ->
  completion (analyzePhotoWithAI w file userId)
  = generateFallbackAnalysis (rndTop w) (fileName file).
Proof.
  intros H. unfold analyzePhotoWithAI.
  rewrite (completion_tryCatch_throw _ _ e H). reflexivity.
Qed.

Lemma analyze_on_return w file userId a :
  completion (pipelineBody w file userId) = Return a ->
  completion (analyzePhotoWithAI w file userId) = Return a.
Proof. apply completion_tryCatch_return. Qed.

Lemma analyze_returns w file userId :
  rndTop w < 4 ->
  exists r, completion (analyzePhotoWithAI w file userId) = Return r.
Proof.
  intros H.
  destruct (completion (pipelineBody w file userId)) as [a|e] eqn:E.
  - exists a. now apply analyze_on_return.
  - destruct (generateFallbackAnalysis_returns (rndTop w) (fileName file) H)
      as (r & Hr & _).
    exists r. rewrite (analyze_on_throw _ _ _ e E). exact Hr.
Qed.

(* ===================================================================== *)
(** ** Errors of the stages and the top-level handler                    *)
(* ===================================================================== *)

(** The [try] block throws exactly when one of its stages does. *)
Lemma stageThrows_body w file userId e :
  StageThrows w file userId e <-> completion (pipelineBody w file userId) = Throw e.
Proof.
  unfold pipelineBody. split.
  - intros H. destruct H as [e Hu | up e Hu Hv | up e Hu Hv Hb | up b e Hu Hv Hb He].
    + now apply completion_bind_throw.
    + rewrite (completion_bind_return _ _ up Hu).
      now apply completion_bind_throw.
    + rewrite (completion_bind_return _ _ up Hu).
      rewrite (completion_bind_return _ _ tt Hv).
      now apply completion_bind_throw.
    + rewrite (completion_bind_return _ _ up Hu).
      rewrite (completion_bind_return _ _ tt Hv).
      rewrite (completion_bind_return _ _ b Hb).
      exact He.
  - destruct (completion (uploadWithRetry w file userId 3)) as [up|e1] eqn:Hu.
    2:{ rewrite (completion_bind_throw _ _ e1 Hu). intros [= <-].
        now apply ThrowsUpload. }
    rewrite (completion_bind_return _ _ up Hu).
    destruct (completion (validateUrl w (publicUrl up))) as [[]|e2] eqn:Hv.
    2:{ rewrite (completion_bind_throw _ _ e2 Hv). intros [= <-].
        now apply ThrowsReachability with up. }
    rewrite (completion_bind_return _ _ tt Hv).
    destruct (completion (generateBasicAnalysis w (publicUrl up))) as [b|e3] eqn:Hb.
    2:{ rewrite (completion_bind_throw _ _ e3 Hb). intros [= <-].
        now apply ThrowsPrimary with up. }
    rewrite (completion_bind_return _ _ b Hb).
    intros He. now apply ThrowsEnrichment with up b.
Qed.

(** C1 (as amended).  Whatever the storage, the HEAD request and the two
    AI calls answer, [analyzePhotoWithAI] returns and never throws: an
    error that leaves any stage is caught by the one top-level handler
    and replaced by the result of the fallback generator, which is
    complete and well formed; when no stage throws, the caller receives
    what the stages produced. *)
Theorem analyzePhotoWithAI_never_throws w file userId :
  rndTop w < 4 ->
  exists r,
    completion (analyzePhotoWithAI w file userId) = Return r
    /\ (forall e, StageThrows w file userId e ->
          generateFallbackAnalysis (rndTop w) (fileName file) = Return r
          /\ wellFormed r = true)
    /\ (forall a, completion (pipelineBody w file userId) = Return a -> r = a).
Proof.
  intros H.
  destruct (analyze_returns w file userId H) as (r & Hr).
  exists r. split; [exact Hr|]. split.
  - intros e He. apply stageThrows_body in He.
    rewrite (analyze_on_throw _ _ _ e He) in Hr.
    destruct (generateFallbackAnalysis_returns (rndTop w) (fileName file) H)
      as (r' & Hr' & Hwf & _).
    rewrite Hr' in Hr. injection Hr as <-. now split.
  - intros a Ha. rewrite (analyze_on_return _ _ _ a Ha) in Hr.
    now injection Hr as <-.
Qed.

(** A run of the theorem: the primary AI call times out. *)
Lemma analyzePhotoWithAI_never_throws_timeout :
  rndTop (Scenario.world AiTimesOut (EnrichRejects JsOther)) < 4
  /\ exists r,
       completion (analyzePhotoWithAI (Scenario.world AiTimesOut (EnrichRejects JsOther))
                                      Scenario.photo "user-1") = Return r
       /\ (forall e, StageThrows (Scenario.world AiTimesOut (EnrichRejects JsOther))
                                 Scenario.photo "user-1" e ->
             generateFallbackAnalysis 2 "photo.jpg" = Return r /\ wellFormed r = true)
       /\ (forall a, completion (pipelineBody (Scenario.world AiTimesOut (EnrichRejects JsOther))
                                              Scenario.photo "user-1") = Return a -> r = a).
Proof.
  split.
  - simpl. lia.
  - apply (analyzePhotoWithAI_never_throws
             (Scenario.world AiTimesOut (EnrichRejects JsOther)) Scenario.photo "user-1").
    simpl. lia.
Defined.

(** C1, the part that fails: the enrichment call answers with an object
    that has no property at all; nothing throws, and the caller receives
    a result without [premiumColors]. *)
Lemma analyzePhotoWithAI_incomplete_result :
  exists r,
    completion (analyzePhotoWithAI
                  (Scenario.world
                     (AiResolves (Some (Scenario.aiObject "Autumn" [Scenario.rust])))
                     (EnrichResolves (Some Scenario.emptyObject)))
                  Scenario.photo "user-1") = Return r
    /\ premiumColors r = None
    /\ complete r = false.
Proof. eexists. split; [vm_compute; reflexivity | split; reflexivity]. Qed.

(* ===================================================================== *)
(** ** Upload retrier                                                    *)
(* ===================================================================== *)

Lemma attemptUpload_trace w attempt :
  trace (attemptUpload w attempt) = [EvUpload attempt].
Proof.
  unfold attemptUpload.
  destruct (upload w attempt) as [e | [up|]]; try reflexivity.
  simpl. destruct (publicUrl up =? "")%string; [reflexivity|].
  destruct (negb _); reflexivity.
Qed.

Lemma attemptUpload_eq w attempt :
  attemptUpload w attempt = ([EvUpload attempt], completion (attemptUpload w attempt)).
Proof.
  rewrite <- (attemptUpload_trace w attempt).
  destruct (attemptUpload w attempt); reflexivity.
Qed.

Lemma uploadLoop_success w maxRetries remaining attempt lastError r :
  completion (attemptUpload w attempt) = Return r ->
  uploadLoop w maxRetries (S remaining) attempt lastError = ([EvUpload attempt], Return r).
Proof.
  intros H. simpl. rewrite attemptUpload_eq, H. reflexivity.
Qed.

Lemma uploadLoop_failure w maxRetries remaining attempt lastError e :
  completion (attemptUpload w attempt) = Throw e ->
  uploadLoop w maxRetries (S remaining) attempt lastError
  = (([EvUpload attempt], Return tt) ;;;
     (if (attempt <? maxRetries)%nat then emit (EvSleep (backoffDelay attempt)) else ret tt) ;;;
     uploadLoop w maxRetries remaining (S attempt) (Some (toError e))).
Proof.
  intros H. simpl. rewrite attemptUpload_eq, H. reflexivity.
Qed.

Lemma uploads_app t1 t2 : uploads (t1 ++ t2) = uploads t1 + uploads t2.
Proof.
  induction t1 as [|ev t1 IH]; [reflexivity|].
  destruct ev; simpl; rewrite IH; reflexivity.
Qed.

(** The loop never makes more attempts than it has iterations left. *)
Lemma uploadLoop_uploads w maxRetries remaining :
  forall attempt lastError,
    uploads (trace (uploadLoop w maxRetries remaining attempt lastError)) <= remaining.
Proof.
  induction remaining as [|k IH]; intros attempt lastError.
  - simpl. lia.
  - destruct (completion (attemptUpload w attempt)) as [r|e] eqn:E.
    + rewrite (uploadLoop_success _ _ _ _ _ r E). simpl. lia.
    + rewrite (uploadLoop_failure _ _ _ _ _ e E).
      specialize (IH (S attempt) (Some (toError e))).
      destruct (uploadLoop w maxRetries k (S attempt) (Some (toError e))) as [t c].
      unfold trace in *. simpl in IH.
      destruct (attempt <? maxRetries)%nat; simpl; lia.
Qed.

Lemma uploadWithRetry_accepts w file userId maxRetries :
  fileSize file <> 0%N -> (fileSize file <= maxUploadSize)%N ->
  uploadWithRetry w file userId maxRetries = uploadLoop w maxRetries maxRetries 1 None.
Proof.
  intros H0 Hmax. unfold uploadWithRetry.
  destruct (N.eqb_spec (fileSize file) 0); [contradiction|].
  destruct (N.ltb_spec maxUploadSize (fileSize file)); [lia|reflexivity].
Qed.

Lemma uploadWithRetry_empty w file userId maxRetries :
  fileSize file = 0%N ->
  uploadWithRetry w file userId maxRetries
  = ([], Throw (JsError "Please select a valid image file")).
Proof. intros H. unfold uploadWithRetry. rewrite H. reflexivity. Qed.

Lemma uploadWithRetry_oversized w file userId maxRetries :
  (maxUploadSize < fileSize file)%N ->
  uploadWithRetry w file userId maxRetries
  = ([], Throw (JsError "File too large: Maximum size is 15MB")).
Proof.
  intros H. unfold uploadWithRetry.
  destruct (N.eqb_spec (fileSize file) 0) as [E|_].
  - rewrite E in H. unfold maxUploadSize in H. lia.
  - destruct (N.ltb_spec maxUploadSize (fileSize file)); [reflexivity|lia].
Qed.

(** Three failed attempts: two waits, then the final error. *)
Lemma uploadLoop_exhausted w e1 e2 e3 :
  completion (attemptUpload w 1) = Throw e1 ->
  completion (attemptUpload w 2) = Throw e2 ->
  completion (attemptUpload w 3) = Throw e3 ->
  uploadLoop w 3 3 1 None
  = ([EvUpload 1; EvSleep (backoffDelay 1); EvUpload 2; EvSleep (backoffDelay 2); EvUpload 3],
     Throw (JsError ("Upload failed after 3 attempts: " ++ messageOf (toError e3)))).
Proof.
  intros H1 H2 H3.
  rewrite (uploadLoop_failure _ _ _ _ _ e1 H1).
  rewrite (uploadLoop_failure _ _ _ _ _ e2 H2).
  rewrite (uploadLoop_failure _ _ _ _ _ e3 H3).
  reflexivity.
Qed.

(** C6.  With a file that passes the size checks, [uploadWithRetry]
    makes at most three attempts; after a failed first attempt it waits
    2^1 * 1000 = 2000 ms, after a failed second one 2^2 * 1000 = 4000 ms,
    and after a failed third one it does not wait but throws an error
    whose message holds the attempt count and the message of the last
    failure. *)
Theorem uploadWithRetry_backoff w file userId :
  fileSize file <> 0%N -> (fileSize file <= maxUploadSize)%N ->
  uploads (trace (uploadWithRetry w file userId 3)) <= 3
  /\ backoffDelay 1 = 2000%N /\ backoffDelay 2 = 4000%N
  /\ (forall r,
        completion (attemptUpload w 1) = Return r ->
        uploadWithRetry w file userId 3 = ([EvUpload 1], Return r))
  /\ (forall e1 r,
        completion (attemptUpload w 1) = Throw e1 ->
        completion (attemptUpload w 2) = Return r ->
        uploadWithRetry w file userId 3
        = ([EvUpload 1; EvSleep (backoffDelay 1); EvUpload 2], Return r))
  /\ (forall e1 e2 r,
        completion (attemptUpload w 1) = Throw e1 ->
        completion (attemptUpload w 2) = Throw e2 ->
        completion (attemptUpload w 3) = Return r ->
        uploadWithRetry w file userId 3
        = ([EvUpload 1; EvSleep (backoffDelay 1); EvUpload 2;
            EvSleep (backoffDelay 2); EvUpload 3], Return r))
  /\ (forall e1 e2 e3,
        completion (attemptUpload w 1) = Throw e1 ->
        completion (attemptUpload w 2) = Throw e2 ->
        completion (attemptUpload w 3) = Throw e3 ->
        uploadWithRetry w file userId 3
        = ([EvUpload 1; EvSleep (backoffDelay 1); EvUpload 2;
            EvSleep (backoffDelay 2); EvUpload 3],
           Throw (JsError ("Upload failed after " ++ Js.decimal 3 ++ " attempts: "
                           ++ messageOf (toError e3))))).
Proof.
  intros H0 Hmax. rewrite (uploadWithRetry_accepts _ _ _ _ H0 Hmax).
  split; [apply uploadLoop_uploads|].
  split; [reflexivity|]. split; [reflexivity|].
  split; [|split; [|split]].
  - intros r H1. now apply uploadLoop_success.
  - intros e1 r H1 H2.
    rewrite (uploadLoop_failure _ _ _ _ _ e1 H1).
    rewrite (uploadLoop_success _ _ _ _ _ r H2). reflexivity.
  - intros e1 e2 r H1 H2 H3.
    rewrite (uploadLoop_failure _ _ _ _ _ e1 H1).
    rewrite (uploadLoop_failure _ _ _ _ _ e2 H2).
    rewrite (uploadLoop_success _ _ _ _ _ r H3). reflexivity.
  - intros e1 e2 e3 H1 H2 H3. exact (uploadLoop_exhausted w e1 e2 e3 H1 H2 H3).
Qed.

(** A run of C6: storage rejects all three attempts. *)
Lemma uploadWithRetry_backoff_always_failing :
  fileSize Scenario.photo <> 0%N
  /\ (fileSize Scenario.photo <= maxUploadSize)%N
  /\ uploadWithRetry (Scenario.flaky 3) Scenario.photo "user-1" 3
     = ([EvUpload 1; EvSleep 2000; EvUpload 2; EvSleep 4000; EvUpload 3],
        Throw (JsError "Upload failed after 3 attempts: Network error on attempt 3")).
Proof.
  assert (H0 : fileSize Scenario.photo <> 0%N) by (simpl; discriminate).
  assert (Hmax : (fileSize Scenario.photo <= maxUploadSize)%N)
    by (vm_compute; discriminate).
  split; [exact H0|]. split; [exact Hmax|].
  destruct (uploadWithRetry_backoff (Scenario.flaky 3) Scenario.photo "user-1" H0 Hmax)
    as (_ & _ & _ & _ & _ & _ & Hall).
  apply (Hall (JsError "Network error on attempt 1")
              (JsError "Network error on attempt 2")
              (JsError "Network error on attempt 3")); reflexivity.
Defined.

(** C8 (as amended).  [uploadWithRetry] checks the size before any call
    leaves the process: an empty file and a file above 15 MiB are
    rejected with an empty trace, while any other size goes on to the
    first upload attempt; 14 MiB is within the limit and 16 MiB is not.
    The file name is not examined: replacing it, even by the empty
    name, changes nothing. *)
Theorem uploadWithRetry_preconditions w file userId maxRetries :
  (fileSize file = 0%N ->
     uploadWithRetry w file userId maxRetries
     = ([], Throw (JsError "Please select a valid image file")))
  /\ ((maxUploadSize < fileSize file)%N ->
        uploadWithRetry w file userId maxRetries
        = ([], Throw (JsError "File too large: Maximum size is 15MB")))
  /\ (fileSize file <> 0%N -> (fileSize file <= maxUploadSize)%N ->
        0 < maxRetries ->
        hd_error (trace (uploadWithRetry w file userId maxRetries)) = Some (EvUpload 1))
  /\ (14 * 1024 * 1024 <= maxUploadSize)%N
  /\ (maxUploadSize < 16 * 1024 * 1024)%N
  /\ (forall anyName,
        uploadWithRetry w (mkFile anyName (fileSize file) (fileType file)) userId maxRetries
        = uploadWithRetry w file userId maxRetries).
Proof.
  split; [apply uploadWithRetry_empty|].
  split; [apply uploadWithRetry_oversized|].
  split; [|split; [vm_compute; discriminate|split; [reflexivity|reflexivity]]].
  intros H0 Hmax Hn. rewrite (uploadWithRetry_accepts _ _ _ _ H0 Hmax).
  destruct maxRetries as [|k]; [lia|].
  destruct (completion (attemptUpload w 1)) as [r|e] eqn:E.
  - rewrite (uploadLoop_success _ _ _ _ _ r E). reflexivity.
  - rewrite (uploadLoop_failure _ _ _ _ _ e E).
    destruct (1 <? S k)%nat;
      destruct (uploadLoop w (S k) k 2 (Some (toError e))); reflexivity.
Qed.

(** A run of C8: a 14 MiB file reaches the first upload attempt. *)
Lemma uploadWithRetry_preconditions_14MiB :
  fileSize (mkFile "portrait.png" (14 * 1024 * 1024) "image/png") <> 0%N
  /\ (fileSize (mkFile "portrait.png" (14 * 1024 * 1024) "image/png") <= maxUploadSize)%N
  /\ 0 < 3
  /\ hd_error (trace (uploadWithRetry (Scenario.flaky 0)
                        (mkFile "portrait.png" (14 * 1024 * 1024) "image/png") "user-1" 3))
     = Some (EvUpload 1).
Proof.
  assert (H0 : fileSize (mkFile "portrait.png" (14 * 1024 * 1024) "image/png") <> 0%N)
    by (simpl; discriminate).
  assert (Hmax : (fileSize (mkFile "portrait.png" (14 * 1024 * 1024) "image/png")
                  <= maxUploadSize)%N) by (vm_compute; discriminate).
  assert (Hn : 0 < 3) by lia.
  split; [exact H0|]. split; [exact Hmax|]. split; [exact Hn|].
  destruct (uploadWithRetry_preconditions (Scenario.flaky 0)
              (mkFile "portrait.png" (14 * 1024 * 1024) "image/png") "user-1" 3)
    as (_ & _ & Hpass & _).
  exact (Hpass H0 Hmax Hn).
Defined.

(** C8, the part that fails: a file with an empty name and an accepted
    size is not rejected; the first upload attempt is made and its
    result returned. *)
Lemma uploadWithRetry_accepts_empty_name :
  fileName Scenario.namelessPhoto = ""
  /\ uploadWithRetry (Scenario.flaky 0) Scenario.namelessPhoto "user-1" 3
     = ([EvUpload 1], Return Scenario.stored).
Proof. split; reflexivity. Qed.

(** C2 (as amended).  The upload stage raises its own errors, a
    rejected size or the exhaustion of the three attempts with the cause
    in the message, but only as far as [analyzePhotoWithAI]: there they
    are absorbed like the failure of any other stage, the caller
    receives the fallback result, and no error reaches it. *)
Theorem upload_errors_absorbed w file userId :
  rndTop w < 4 ->
  (fileSize file = 0%N ->
     completion (uploadWithRetry w file userId 3)
     = Throw (JsError "Please select a valid image file"))
  /\ ((maxUploadSize < fileSize file)%N ->
        completion (uploadWithRetry w file userId 3)
        = Throw (JsError "File too large: Maximum size is 15MB"))
  /\ (forall e1 e2 e3,
        fileSize file <> 0%N -> (fileSize file <= maxUploadSize)%N ->
        completion (attemptUpload w 1) = Throw e1 ->
        completion (attemptUpload w 2) = Throw e2 ->
        completion (attemptUpload w 3) = Throw e3 ->
        completion (uploadWithRetry w file userId 3)
        = Throw (JsError ("Upload failed after 3 attempts: " ++ messageOf (toError e3))))
  /\ (forall e,
        StageThrows w file userId e ->
        completion (analyzePhotoWithAI w file userId)
        = generateFallbackAnalysis (rndTop w) (fileName file))
  /\ (forall e, completion (analyzePhotoWithAI w file userId) <> Throw e).
Proof.
  intros H.
  split; [|split; [|split; [|split]]].
  - intros E. now rewrite (uploadWithRetry_empty _ _ _ _ E).
  - intros E. now rewrite (uploadWithRetry_oversized _ _ _ _ E).
  - intros e1 e2 e3 H0 Hmax H1 H2 H3.
    rewrite (uploadWithRetry_accepts _ _ _ _ H0 Hmax).
    now rewrite (uploadLoop_exhausted w e1 e2 e3 H1 H2 H3).
  - intros e He. apply stageThrows_body in He. now apply analyze_on_throw with e.
  - intros e He. destruct (analyze_returns w file userId H) as (r & Hr).
    rewrite Hr in He. discriminate.
Qed.

(** A run of C2: the empty file.  The upload stage throws, the pipeline
    returns the fallback for the season drawn. *)
Lemma upload_errors_absorbed_empty_file :
  rndTop (Scenario.flaky 0) < 4
  /\ completion (uploadWithRetry (Scenario.flaky 0) Scenario.emptyPhoto "user-1" 3)
     = Throw (JsError "Please select a valid image file")
  /\ completion (analyzePhotoWithAI (Scenario.flaky 0) Scenario.emptyPhoto "user-1")
     = generateFallbackAnalysis 2 "photo.jpg".
Proof.
  assert (H : rndTop (Scenario.flaky 0) < 4) by (simpl; lia).
  split; [exact H|].
  destruct (upload_errors_absorbed (Scenario.flaky 0) Scenario.emptyPhoto "user-1" H)
    as (Hempty & _ & _ & Habs & _).
  split.
  - apply Hempty. reflexivity.
  - apply (Habs (JsError "Please select a valid image file")).
    apply ThrowsUpload. apply Hempty. reflexivity.
Defined.

(** C2, the part that fails: called with a 0-byte file, the pipeline
    does not raise the validation error; it returns a fallback result. *)
Lemma analyzePhotoWithAI_empty_file_returns :
  fileSize Scenario.emptyPhoto = 0%N
  /\ exists r,
       completion (analyzePhotoWithAI (Scenario.flaky 0) Scenario.emptyPhoto "user-1")
       = Return r
       /\ season r = Some "Autumn"
       /\ wellFormed r = true.
Proof.
  split; [reflexivity|].
  eexists. split; [vm_compute; reflexivity | split; vm_compute; reflexivity].
Qed.

(* ===================================================================== *)
(** ** Primary analysis invoker                                          *)
(* ===================================================================== *)

Lemma skipn_nth_error {A} (l : list A) n d :
  nth_error l n = Some d -> skipn n l = d :: skipn (S n) l.
Proof.
  revert l. induction n as [|n IH]; intros [|x l] H; try discriminate.
  - injection H as ->. reflexivity.
  - simpl in H. apply IH in H. exact H.
Qed.

(** Closed form of the padding loop: the defaults appended are those at
    the positions from the original length on. *)
Lemma padFreeColors_skipn fc :
  padFreeColors fc = (fc ++ skipn (List.length fc) defaultColors)%list.
Proof.
  funelim (padFreeColors fc).
  - rewrite skipn_all2 by (simpl; lia). now rewrite app_nil_r.
  - match goal with IH : padFreeColors _ = (_ ++ _)%list |- _ => rewrite IH end.
    match goal with E : nth_error _ _ = Some _ |- _ =>
      rewrite (skipn_nth_error _ _ _ E) end.
    rewrite length_app, <- app_assoc, Nat.add_1_r. reflexivity.
  - match goal with E : nth_error _ _ = None |- _ =>
      apply nth_error_None in E; rewrite skipn_all2 by exact E end.
    now rewrite app_nil_r.
Qed.

Lemma padFreeColors_length fc :
  List.length (padFreeColors fc) = Nat.max 3 (List.length fc).
Proof.
  rewrite padFreeColors_skipn, length_app, length_skipn.
  change (List.length defaultColors) with 3. lia.
Qed.

Lemma incomplete_false result :
  incomplete result = false ->
  truthy (skinTone result) = true /\ truthy (season result) = true
  /\ exists cs, freeColors result = Some cs /\ 1 <= List.length cs.
Proof.
  unfold incomplete. intros H.
  apply orb_false_iff in H as [H H3]. apply orb_false_iff in H as [H1 H2].
  apply negb_false_iff in H1, H2. split; [exact H1|]. split; [exact H2|].
  destruct (freeColors result) as [cs|]; [|discriminate].
  exists cs. split; [reflexivity|]. apply Nat.ltb_ge in H3. exact H3.
Qed.

(** An accepted response is returned with its free colours padded and
    repaired. *)
Lemma generateBasicAnalysis_accepted w imageUrl result cs :
  aiBasic w imageUrl = AiResolves (Some result) ->
  incomplete result = false ->
  freeColors result = Some cs ->
  generateBasicAnalysis w imageUrl
  = ([EvGenerateBasic imageUrl],
     Return (setFreeColors result
               (map fixColor (cs ++ skipn (List.length cs) defaultColors)%list))).
Proof.
  intros Hai Hinc Hfc. unfold generateBasicAnalysis, repairResult.
  rewrite Hai, Hinc, Hfc, padFreeColors_skipn. reflexivity.
Qed.

(** A response that fails the validation is replaced by the fallback. *)
Lemma generateBasicAnalysis_incomplete w imageUrl result r :
  aiBasic w imageUrl = AiResolves (Some result) ->
  incomplete result = true ->
  generateFallbackAnalysis (rndBasic w) "incomplete_ai_result" = Return r ->
  generateBasicAnalysis w imageUrl = ([EvGenerateBasic imageUrl], Return r).
Proof.
  intros Hai Hinc Hfb. unfold generateBasicAnalysis, repairResult.
  rewrite Hai, Hinc, Hfb. reflexivity.
Qed.

Lemma wellFormed_freeColors r :
  wellFormed r = true ->
  exists fc, freeColors r = Some fc /\ List.length fc = 3 /\ allHexValid fc = true.
Proof.
  unfold wellFormed. intros H.
  repeat (apply andb_true_iff in H as [H ?]).
  destruct (freeColors r) as [fc|]; [|discriminate].
  exists fc. split; [reflexivity|]. split; [|assumption].
  simpl in *. now apply Nat.eqb_eq.
Qed.

(** C3 (as amended).  When the primary AI call resolves with an object,
    the stage returns a result whose [freeColors] has length
    [max 3 n], [n] being the number of colours of an accepted response:
    exactly 3 for 1, 2 or 3 colours, the missing ones being the defaults
    at the positions from [n] on, and [n] itself, with nothing cut, when
    the model returned more than 3.  A response without colours is not
    accepted: the result is then the fallback, with 3 colours. *)
Theorem freeColors_length w imageUrl result :
  aiBasic w imageUrl = AiResolves (Some result) ->
  rndBasic w < 4 ->
  exists r fc,
    completion (generateBasicAnalysis w imageUrl) = Return r
    /\ freeColors r = Some fc
    /\ (incomplete result = true -> List.length fc = 3)
    /\ (freeColors result = Some [] -> incomplete result = true)
    /\ (forall cs,
          incomplete result = false -> freeColors result = Some cs ->
          1 <= List.length cs
          /\ fc = map fixColor (cs ++ skipn (List.length cs) defaultColors)%list
          /\ List.length fc = Nat.max 3 (List.length cs)).
Proof.
  intros Hai Hrnd.
  destruct (incomplete result) eqn:Hinc.
  - destruct (generateFallbackAnalysis_returns (rndBasic w) "incomplete_ai_result" Hrnd)
      as (r & Hr & Hwf & _).
    destruct (wellFormed_freeColors r Hwf) as (fc & Hfc & Hlen & _).
    exists r, fc.
    rewrite (generateBasicAnalysis_incomplete _ _ _ r Hai Hinc Hr).
    split; [reflexivity|]. split; [exact Hfc|]. split; [intros _; exact Hlen|].
    split; [reflexivity|]. intros cs Hf. discriminate.
  - destruct (incomplete_false result Hinc) as (_ & _ & cs & Hfc & Hlen).
    exists (setFreeColors result
              (map fixColor (cs ++ skipn (List.length cs) defaultColors)%list)),
           (map fixColor (cs ++ skipn (List.length cs) defaultColors)%list).
    rewrite (generateBasicAnalysis_accepted _ _ _ cs Hai Hinc Hfc).
    split; [reflexivity|]. split; [reflexivity|]. split; [discriminate|].
    split.
    + intros E. rewrite E in Hfc. injection Hfc as <-. simpl in Hlen. lia.
    + intros cs' _ Hfc'. rewrite Hfc in Hfc'. injection Hfc' as <-.
      split; [exact Hlen|]. split; [reflexivity|].
      rewrite length_map, <- padFreeColors_skipn. apply padFreeColors_length.
Qed.

(** A run of C3 (as amended): one colour comes back, two defaults are
    added. *)
Lemma freeColors_length_one_colour :
  aiBasic (Scenario.world (AiResolves (Some (Scenario.aiObject "Autumn" [Scenario.rust])))
                          (EnrichRejects JsOther))
          "https://storage.example/analysis/photo.jpg"
  = AiResolves (Some (Scenario.aiObject "Autumn" [Scenario.rust]))
  /\ rndBasic (Scenario.world (AiResolves (Some (Scenario.aiObject "Autumn" [Scenario.rust])))
                              (EnrichRejects JsOther)) < 4
  /\ exists r fc,
       completion (generateBasicAnalysis
                     (Scenario.world
                        (AiResolves (Some (Scenario.aiObject "Autumn" [Scenario.rust])))
                        (EnrichRejects JsOther))
                     "https://storage.example/analysis/photo.jpg") = Return r
       /\ freeColors r = Some fc
       /\ List.length fc = 3.
Proof.
  split; [reflexivity|]. split; [simpl; lia|].
  destruct (freeColors_length
              (Scenario.world (AiResolves (Some (Scenario.aiObject "Autumn" [Scenario.rust])))
                              (EnrichRejects JsOther))
              "https://storage.example/analysis/photo.jpg"
              (Scenario.aiObject "Autumn" [Scenario.rust]))
    as (r & fc & Hr & Hfc & _ & _ & Hacc); [reflexivity | simpl; lia |].
  exists r, fc. split; [exact Hr|]. split; [exact Hfc|].
  destruct (Hacc [Scenario.rust]) as (_ & _ & Hlen); [reflexivity | reflexivity |].
  exact Hlen.
Defined.

(** C3, the part that fails: four colours come back, and four are
    returned. *)
Lemma freeColors_length_four :
  exists r fc,
    completion (generateBasicAnalysis
                  (Scenario.world
                     (AiResolves (Some (Scenario.aiObject "Autumn"
                        [Scenario.rust; Scenario.teal; Scenario.moss; Scenario.plum])))
                     (EnrichRejects JsOther))
                  "https://storage.example/analysis/photo.jpg") = Return r
    /\ freeColors r = Some fc
    /\ List.length fc = 4.
Proof.
  eexists. eexists. split; [vm_compute; reflexivity | split; reflexivity].
Qed.

Lemma defaultColors_repaired n :
  map fixColor (skipn n defaultColors) = skipn n defaultColors.
Proof. destruct n as [|[|[|[|n]]]]; reflexivity. Qed.

(** C10.  The loop takes the default at the index of the current
    length.  A response that passed the validation has at least one
    colour, so the [freeColors] of the result that the stage returns are
    the colours of the response, repaired, followed by the defaults
    from that index on, never by the first one: a response with one
    colour receives Soft Cream and Dusty Rose, a response with two
    receives only Dusty Rose, and no colour that was appended is Classic
    Navy.  Only an empty list, which the validation excludes, would
    receive Classic Navy. *)
Theorem padding_indexes_by_length w imageUrl result cs :
  aiBasic w imageUrl = AiResolves (Some result) ->
  incomplete result = false ->
  freeColors result = Some cs ->
  1 <= List.length cs
  /\ padFreeColors cs = (cs ++ skipn (List.length cs) defaultColors)%list
  /\ (exists r fc,
        completion (generateBasicAnalysis w imageUrl) = Return r
        /\ freeColors r = Some fc
        /\ firstn (List.length cs) fc = map fixColor cs
        /\ skipn (List.length cs) fc = skipn (List.length cs) defaultColors
        /\ (forall d, In d (skipn (List.length cs) fc) -> name d <> "Classic Navy")
        /\ (List.length cs = 1 ->
            exists c,
              fc = [ fixColor c;
                     color "Soft Cream" "#F5F5DC"
                           "A gentle neutral that complements many skin tones";
                     color "Dusty Rose" "#D4A5A5"
                           "A universally flattering soft pink tone" ])
        /\ (List.length cs = 2 ->
            exists c1 c2,
              fc = [ fixColor c1; fixColor c2;
                     color "Dusty Rose" "#D4A5A5"
                           "A universally flattering soft pink tone" ]))
  /\ map name (padFreeColors []) = ["Classic Navy"; "Soft Cream"; "Dusty Rose"].
Proof.
  intros Hai Hinc Hfc.
  destruct (incomplete_false result Hinc) as (_ & _ & cs' & Hfc' & Hlen).
  rewrite Hfc in Hfc'. injection Hfc' as <-.
  split; [exact Hlen|]. split; [apply padFreeColors_skipn|].
  split; [|rewrite padFreeColors_skipn; reflexivity].
  exists (setFreeColors result
            (map fixColor (cs ++ skipn (List.length cs) defaultColors)%list)),
         (map fixColor (cs ++ skipn (List.length cs) defaultColors)%list).
  split; [now rewrite (generateBasicAnalysis_accepted _ _ _ cs Hai Hinc Hfc)|].
  split; [reflexivity|].
  assert (Hskip : skipn (List.length cs)
                        (map fixColor (cs ++ skipn (List.length cs) defaultColors)%list)
                  = skipn (List.length cs) defaultColors).
  { rewrite map_app, skipn_app, length_map, Nat.sub_diag.
    rewrite skipn_all2 by (rewrite length_map; lia).
    cbn [skipn app]. apply defaultColors_repaired. }
  split.
  { rewrite map_app, firstn_app, length_map, Nat.sub_diag.
    cbn [firstn]. rewrite app_nil_r. apply firstn_all2. rewrite length_map. lia. }
  split; [exact Hskip|]. rewrite Hskip. split; [|split].
  - intros d Hd.
    destruct (List.length cs) as [|[|[|n]]]; [lia| | |];
      unfold defaultColors in Hd; simpl in Hd.
    + destruct Hd as [<- | [<- | []]]; simpl; discriminate.
    + destruct Hd as [<- | []]; simpl; discriminate.
    + rewrite skipn_nil in Hd. destruct Hd.
  - intros H1. destruct cs as [|c [|c' cs]]; try discriminate H1.
    exists c. reflexivity.
  - intros H2. destruct cs as [|c1 [|c2 [|c3 cs]]]; try discriminate H2.
    exists c1, c2. reflexivity.
Qed.

(** A run of C10: one colour comes back, and the stage returns it
    followed by Soft Cream and Dusty Rose. *)
Lemma padding_indexes_by_length_one_colour :
  aiBasic (Scenario.world (AiResolves (Some (Scenario.aiObject "Autumn" [Scenario.rust])))
                          (EnrichRejects JsOther))
          "https://storage.example/analysis/photo.jpg"
  = AiResolves (Some (Scenario.aiObject "Autumn" [Scenario.rust]))
  /\ incomplete (Scenario.aiObject "Autumn" [Scenario.rust]) = false
  /\ freeColors (Scenario.aiObject "Autumn" [Scenario.rust]) = Some [Scenario.rust]
  /\ exists r fc,
       completion (generateBasicAnalysis
                     (Scenario.world
                        (AiResolves (Some (Scenario.aiObject "Autumn" [Scenario.rust])))
                        (EnrichRejects JsOther))
                     "https://storage.example/analysis/photo.jpg") = Return r
       /\ freeColors r = Some fc
       /\ map name fc = ["Rust"; "Soft Cream"; "Dusty Rose"].
Proof.
  split; [reflexivity|]. split; [reflexivity|]. split; [reflexivity|].
  destruct (padding_indexes_by_length
              (Scenario.world (AiResolves (Some (Scenario.aiObject "Autumn" [Scenario.rust])))
                              (EnrichRejects JsOther))
              "https://storage.example/analysis/photo.jpg"
              (Scenario.aiObject "Autumn" [Scenario.rust]) [Scenario.rust]
              eq_refl eq_refl eq_refl)
    as (_ & _ & (r & fc & Hr & Hfc & Hfirst & Hskip & _) & _).
  exists r, fc. split; [exact Hr|]. split; [exact Hfc|].
  rewrite <- (firstn_skipn 1 fc).
  change (List.length [Scenario.rust]) with 1 in Hfirst, Hskip.
  rewrite Hfirst, Hskip. reflexivity.
Defined.

Lemma startsWith_hash c rest :
  Js.startsWith (String c rest) "#" = Ascii.eqb c "#".
Proof.
  unfold Js.startsWith. cbn [String.prefix].
  destruct (ascii_dec "#" c) as [<-|Hne].
  - destruct rest; reflexivity.
  - symmetry. apply Ascii.eqb_neq. congruence.
Qed.

(** A code of three characters without [#] gets the [#] and has each
    character doubled. *)
Lemma fixHex_three a b c :
  Ascii.eqb a "#" = false ->
  fixHex (String a (String b (String c EmptyString)))
  = String "#" (String a (String a (String b (String b (String c (String c EmptyString)))))).
Proof.
  intros Ha. unfold fixHex.
  assert (matchesHex6 (String a (String b (String c EmptyString))) = false) as ->
    by (unfold matchesHex6; rewrite Ha; reflexivity).
  rewrite startsWith_hash, Ha. reflexivity.
Qed.

(** The repair loop rewrites every free colour where it stands: the
    colour at each index of the response is returned at the same index
    with only its code changed. *)
Lemma repaired_in_place (cs pad : list ColorResult) i c :
  nth_error cs i = Some c ->
  nth_error (map fixColor (cs ++ pad)%list) i = Some (fixColor c).
Proof.
  intros H. rewrite nth_error_map, nth_error_app1.
  - now rewrite H.
  - apply nth_error_Some. now rewrite H.
Qed.

(** C7.  The repair maps the code abc to #aabbcc and the code 123456 to
    #123456, and it is applied to the colours of the response where they
    stand: the result holds, at the index of each colour, that colour
    with the repaired code and nothing else changed. *)
Theorem hex_repair_in_place w imageUrl result cs :
  aiBasic w imageUrl = AiResolves (Some result) ->
  incomplete result = false ->
  freeColors result = Some cs ->
  fixHex "abc" = "#aabbcc"
  /\ fixHex "123456" = "#123456"
  /\ exists r fc,
       completion (generateBasicAnalysis w imageUrl) = Return r
       /\ freeColors r = Some fc
       /\ forall i c,
            nth_error cs i = Some c ->
            exists c',
              nth_error fc i = Some c'
              /\ hex c' = fixHex (hex c)
              /\ name c' = name c
              /\ description c' = description c
              /\ category c' = category c.
Proof.
  intros Hai Hinc Hfc.
  split; [reflexivity|]. split; [reflexivity|].
  eexists. eexists.
  rewrite (generateBasicAnalysis_accepted _ _ _ cs Hai Hinc Hfc).
  split; [reflexivity|]. split; [reflexivity|].
  intros i c Hc. exists (fixColor c).
  split; [now apply repaired_in_place|]. repeat split.
Qed.

(** A run of C7: the model returns the codes abc and 123456. *)
Lemma hex_repair_in_place_short_codes :
  aiBasic (Scenario.world
             (AiResolves (Some (Scenario.aiObject "Winter"
                [color "Sage" "abc" "Muted green"; color "Ink" "123456" "Deep blue"])))
             (EnrichRejects JsOther))
          "https://storage.example/analysis/photo.jpg"
  = AiResolves (Some (Scenario.aiObject "Winter"
                [color "Sage" "abc" "Muted green"; color "Ink" "123456" "Deep blue"]))
  /\ exists r,
       completion (generateBasicAnalysis
                     (Scenario.world
                        (AiResolves (Some (Scenario.aiObject "Winter"
                           [color "Sage" "abc" "Muted green"; color "Ink" "123456" "Deep blue"])))
                        (EnrichRejects JsOther))
                     "https://storage.example/analysis/photo.jpg") = Return r
       /\ option_map (map hex) (freeColors r) = Some ["#aabbcc"; "#123456"; "#D4A5A5"].
Proof.
  split; [reflexivity|].
  destruct (hex_repair_in_place
              (Scenario.world
                 (AiResolves (Some (Scenario.aiObject "Winter"
                    [color "Sage" "abc" "Muted green"; color "Ink" "123456" "Deep blue"])))
                 (EnrichRejects JsOther))
              "https://storage.example/analysis/photo.jpg"
              (Scenario.aiObject "Winter"
                 [color "Sage" "abc" "Muted green"; color "Ink" "123456" "Deep blue"])
              [color "Sage" "abc" "Muted green"; color "Ink" "123456" "Deep blue"]
              eq_refl eq_refl eq_refl)
    as (_ & _ & r & fc & Hr & Hfc & _).
  exists r. split; [exact Hr|].
  vm_compute in Hr. injection Hr as <-. reflexivity.
Defined.

(* ===================================================================== *)
(** ** Where the result of the pipeline comes from                       *)
(* ===================================================================== *)

Lemma completion_bind_inv {A B} (m : Eff A) (k : A -> Eff B) b :
  completion (bind m k) = Return b ->
  exists a, completion m = Return a /\ completion (k a) = Return b.
Proof.
  destruct m as [t [a|e]]; unfold completion; simpl.
  - destruct (k a) as [t' c] eqn:E. simpl. intros ->. exists a. now rewrite E.
  - discriminate.
Qed.

Lemma generateBasicAnalysis_inv w imageUrl b :
  completion (generateBasicAnalysis w imageUrl) = Return b ->
  BasicResult w imageUrl b.
Proof.
  unfold generateBasicAnalysis, repairResult.
  destruct (aiBasic w imageUrl) as [e | | [result|]] eqn:Hai; try discriminate.
  destruct (incomplete result) eqn:Hinc.
  - destruct (generateFallbackAnalysis (rndBasic w) "incomplete_ai_result")
      as [r|e] eqn:Hfb; [|discriminate].
    unfold completion; simpl. intros [= <-].
    now apply BasicFallback with result.
  - destruct (incomplete_false result Hinc) as (_ & _ & cs & Hfc & _).
    rewrite Hfc, padFreeColors_skipn. unfold completion; simpl. intros [= <-].
    now apply BasicRepaired.
Qed.

Lemma generateEnhancedAnalysis_cases w basic :
  (exists object,
     aiEnhance w basic = EnrichResolves (Some object)
     /\ generateEnhancedAnalysis w basic = ([EvGenerateEnhanced], Return (spread basic object)))
  \/ ((forall object, aiEnhance w basic <> EnrichResolves (Some object))
      /\ generateEnhancedAnalysis w basic
         = ([EvGenerateEnhanced], generateFallbackPremiumData basic)).
Proof.
  unfold generateEnhancedAnalysis.
  destruct (aiEnhance w basic) as [e | [object|]].
  - right. split; [discriminate|].
    simpl. destruct (generateFallbackPremiumData basic); reflexivity.
  - left. exists object. split; reflexivity.
  - right. split; [discriminate|].
    simpl. destruct (generateFallbackPremiumData basic); reflexivity.
Qed.

Lemma pipelineBody_inv w file userId r :
  completion (pipelineBody w file userId) = Return r ->
  PipelineResult w file r.
Proof.
  unfold pipelineBody. intros H.
  apply completion_bind_inv in H as (up & _ & H).
  apply completion_bind_inv in H as (_ & _ & H).
  apply completion_bind_inv in H as (b & Hb & H).
  apply generateBasicAnalysis_inv in Hb.
  destruct (generateEnhancedAnalysis_cases w b) as [(o & Ho & E) | (_ & E)];
    rewrite E in H; unfold completion in H; simpl in H.
  - injection H as <-. now apply FromEnrichment with (publicUrl up).
  - now apply FromStaticPremium with (publicUrl up) b.
Qed.

(** The pipeline always returns, and its result has one of the three
    origins. *)
Lemma analyze_result w file userId :
  rndTop w < 4 ->
  exists r, completion (analyzePhotoWithAI w file userId) = Return r
            /\ PipelineResult w file r.
Proof.
  intros H.
  destruct (completion (pipelineBody w file userId)) as [a|e] eqn:E.
  - exists a. split; [now apply analyze_on_return | now apply pipelineBody_inv with userId].
  - destruct (generateFallbackAnalysis_returns (rndTop w) (fileName file) H)
      as (r & Hr & _).
    exists r. rewrite (analyze_on_throw _ _ _ e E).
    split; [exact Hr | now apply FromHandler].
Qed.

(* ===================================================================== *)
(** ** Colour codes after the repair                                     *)
(* ===================================================================== *)

Lemma matchesHex6_hash rest :
  matchesHex6 (String "#" rest) = hexDigitsOfLength 6 rest.
Proof. reflexivity. Qed.

(** The repaired code is a six-digit code exactly for the repairable
    inputs. *)
Lemma fixHex_valid_iff h : matchesHex6 (fixHex h) = repairable h.
Proof.
  destruct h as [|c rest]; [reflexivity|].
  unfold fixHex, repairable. rewrite startsWith_hash.
  destruct (Ascii.eqb c "#") eqn:Ec.
  - apply Ascii.eqb_eq in Ec. subst c. rewrite matchesHex6_hash.
    destruct (hexDigitsOfLength 6 rest) eqn:E6.
    + rewrite matchesHex6_hash, E6. reflexivity.
    + cbn [negb orb].
      destruct rest as [|x [|y [|z [|u rest']]]]; try reflexivity.
      * cbn. destruct (Js.isHexDigit x), (Js.isHexDigit y), (Js.isHexDigit z); reflexivity.
      * change (String.length (String "#" (String x (String y (String z (String u rest'))))) =? 4)%nat
          with false.
        cbn iota. rewrite matchesHex6_hash, E6. reflexivity.
  - assert (matchesHex6 (String c rest) = false) as ->
      by (unfold matchesHex6; rewrite Ec; reflexivity).
    cbn [negb].
    destruct rest as [|x [|y [|z rest']]]; try reflexivity.
    + cbn. destruct (Js.isHexDigit c), (Js.isHexDigit x), (Js.isHexDigit y); reflexivity.
    + change (String.length ("#" ++ String c (String x (String y (String z rest')))) =? 4)%nat
        with false.
      cbn iota.
      change ("#" ++ String c (String x (String y (String z rest'))))
        with (String "#" (String c (String x (String y (String z rest'))))).
      rewrite matchesHex6_hash.
      unfold hexDigitsOfLength at 3.
      change (String.length (String c (String x (String y (String z rest')))) =? 3)%nat
        with false.
      cbn [andb]. now rewrite orb_false_r.
Qed.

(** The static premium data leave the basic properties alone and add
    fifteen colours with six-digit codes, eight make-up tips, ten
    wardrobe entries and the seasonal details. *)
Lemma generateFallbackPremiumData_shape basic r :
  generateFallbackPremiumData basic = Return r ->
  skinTone r = skinTone basic /\ season r = season basic
  /\ freeColors r = freeColors basic /\ recommendations r = recommendations basic
  /\ hasLength 15 (premiumColors r) = true /\ hexValidIn (premiumColors r) = true
  /\ hasLength 8 (makeupTips r) = true /\ hasLength 10 (wardrobeGuide r) = true
  /\ isSome (seasonalDetails r) = true.
Proof.
  unfold generateFallbackPremiumData, lookupSeason, propertyKey.
  destruct (season basic) as [s|]; [|vm_compute; discriminate].
  unfold seasonColors, assoc.
  destruct (s =? "Spring")%string;
    [|destruct (s =? "Summer")%string;
      [|destruct (s =? "Autumn")%string;
        [|destruct (s =? "Winter")%string;
          [|destruct (memStr s objectPrototypeKeys); [discriminate|]]]]];
    intros [= <-]; repeat split; vm_compute; reflexivity.
Qed.

Lemma seasonValid_eq r b : season r = season b -> seasonValid r = seasonValid b.
Proof. unfold seasonValid. now intros ->. Qed.

(** The full fallback returns only for an index inside [seasons]. *)
Lemma generateFallbackAnalysis_inv rnd fileName r :
  generateFallbackAnalysis rnd fileName = Return r ->
  rnd < 4 /\ wellFormed r = true /\ season r = nth_error seasons rnd.
Proof.
  intros H.
  assert (Hrnd : rnd < 4).
  { destruct (Nat.lt_ge_cases rnd 4) as [Hlt|Hge]; [exact Hlt|].
    unfold generateFallbackAnalysis in H.
    rewrite (proj2 (nth_error_None seasons rnd) Hge) in H. discriminate. }
  split; [exact Hrnd|].
  destruct (generateFallbackAnalysis_returns rnd fileName Hrnd) as (r' & Hr' & Hwf & Hs).
  rewrite H in Hr'. injection Hr' as <-. now split.
Qed.

Lemma wellFormed_seasonValid r : wellFormed r = true -> seasonValid r = true.
Proof.
  unfold wellFormed. intros H.
  repeat (apply andb_true_iff in H as [H ?]). assumption.
Qed.

Lemma wellFormed_hex r :
  wellFormed r = true ->
  hexValidIn (freeColors r) = true /\ hexValidIn (premiumColors r) = true.
Proof.
  unfold wellFormed. intros H.
  repeat (apply andb_true_iff in H as [H ?]). now split.
Qed.

(** The season of a basic result: one of the four when the fallback
    stood in, otherwise the non-empty string of the response. *)
Lemma basicResult_season w imageUrl b :
  BasicResult w imageUrl b ->
  seasonValid b = true
  \/ exists result,
       aiBasic w imageUrl = AiResolves (Some result)
       /\ truthy (season result) = true /\ season b = season result.
Proof.
  intros [result r Hai Hinc Hfb | result cs Hai Hinc Hfc].
  - left. apply generateFallbackAnalysis_inv in Hfb as (_ & Hwf & _).
    now apply wellFormed_seasonValid.
  - right. exists result. destruct (incomplete_false result Hinc) as (_ & Hs & _).
    now repeat split.
Qed.

(** C5 (as amended).  The pipeline returns a result whose season is one
    of the four or else the very string the primary or the enrichment
    model supplied: a season that is missing or empty makes the primary
    stage return the fallback, whose season is the one of the four that
    the random index selects, but a non-empty season is accepted
    without being compared with the four and is kept as it is. *)
Theorem season_of_result w file userId :
  rndTop w < 4 ->
  (exists r,
      completion (analyzePhotoWithAI w file userId) = Return r
      /\ (seasonValid r = true
          \/ (exists imageUrl result,
                aiBasic w imageUrl = AiResolves (Some result)
                /\ truthy (season result) = true /\ season r = season result)
          \/ (exists basic object,
                aiEnhance w basic = EnrichResolves (Some object)
                /\ isSome (season object) = true /\ season r = season object)))
  /\ (forall imageUrl result,
        rndBasic w < 4 ->
        aiBasic w imageUrl = AiResolves (Some result) ->
        truthy (season result) = false ->
        exists fb,
          completion (generateBasicAnalysis w imageUrl) = Return fb
          /\ generateFallbackAnalysis (rndBasic w) "incomplete_ai_result" = Return fb
          /\ season fb = nth_error seasons (rndBasic w)
          /\ seasonValid fb = true)
  /\ (forall imageUrl result,
        aiBasic w imageUrl = AiResolves (Some result) ->
        incomplete result = false ->
        exists b,
          completion (generateBasicAnalysis w imageUrl) = Return b
          /\ season b = season result).
Proof.
  intros Htop. split; [|split].
  - destruct (analyze_result w file userId Htop) as (r & Hr & Hor).
    exists r. split; [exact Hr|].
    destruct Hor as [r Hfb | imageUrl b r Hb Hp | imageUrl b o Hb Ho].
    + left. apply generateFallbackAnalysis_inv in Hfb as (_ & Hwf & _).
      now apply wellFormed_seasonValid.
    + apply generateFallbackPremiumData_shape in Hp as (_ & Hs & _).
      destruct (basicResult_season w imageUrl b Hb) as [Hv | (result & Hai & Ht & Hsb)].
      * left. now rewrite (seasonValid_eq r b Hs).
      * right. left. exists imageUrl, result. repeat split; try assumption.
        now rewrite Hs.
    + destruct (season o) as [s|] eqn:Hso.
      * right. right. exists b, o. split; [exact Ho|]. split; [now rewrite Hso|].
        simpl. now rewrite Hso.
      * assert (Hs : season (spread b o) = season b) by (simpl; now rewrite Hso).
        destruct (basicResult_season w imageUrl b Hb) as [Hv | (result & Hai & Ht & Hsb)].
        -- left. now rewrite (seasonValid_eq _ b Hs).
        -- right. left. exists imageUrl, result. repeat split; try assumption.
           now rewrite Hs.
  - intros imageUrl result Hrnd Hai Ht.
    assert (Hinc : incomplete result = true).
    { unfold incomplete. rewrite Ht. cbn [negb]. now rewrite orb_true_r. }
    destruct (generateFallbackAnalysis_returns (rndBasic w) "incomplete_ai_result" Hrnd)
      as (fb & Hfb & Hwf & Hs).
    exists fb. rewrite (generateBasicAnalysis_incomplete _ _ _ fb Hai Hinc Hfb).
    split; [reflexivity|]. split; [exact Hfb|]. split; [exact Hs|].
    now apply wellFormed_seasonValid.
  - intros imageUrl result Hai Hinc.
    destruct (incomplete_false result Hinc) as (_ & _ & cs & Hfc & _).
    eexists. rewrite (generateBasicAnalysis_accepted _ _ _ cs Hai Hinc Hfc).
    split; reflexivity.
Qed.

(** A run of C5 (as amended): the model leaves the season empty. *)
Lemma season_of_result_empty_season :
  rndTop (Scenario.world (AiResolves (Some (Scenario.aiObject "" [Scenario.rust])))
                         (EnrichRejects JsOther)) < 4
  /\ exists fb,
       completion (generateBasicAnalysis
                     (Scenario.world (AiResolves (Some (Scenario.aiObject "" [Scenario.rust])))
                                     (EnrichRejects JsOther))
                     "https://storage.example/analysis/photo.jpg") = Return fb
       /\ season fb = Some "Autumn".
Proof.
  assert (H : rndTop (Scenario.world
                        (AiResolves (Some (Scenario.aiObject "" [Scenario.rust])))
                        (EnrichRejects JsOther)) < 4) by (simpl; lia).
  split; [exact H|].
  destruct (season_of_result
              (Scenario.world (AiResolves (Some (Scenario.aiObject "" [Scenario.rust])))
                              (EnrichRejects JsOther))
              Scenario.photo "user-1" H) as (_ & Hempty & _).
  destruct (Hempty "https://storage.example/analysis/photo.jpg"
                   (Scenario.aiObject "" [Scenario.rust]))
    as (fb & Hfb & _ & Hs & _); [simpl; lia | reflexivity | reflexivity |].
  exists fb. split; [exact Hfb | exact Hs].
Defined.

(** C5, the part that fails: the model names a season outside the four;
    the pipeline returns it unchanged. *)
Lemma season_outside_the_four :
  memStr "Fall" seasons = false
  /\ exists r,
       completion (analyzePhotoWithAI
                     (Scenario.world
                        (AiResolves (Some (Scenario.aiObject "Fall"
                           [Scenario.rust; Scenario.teal; Scenario.moss])))
                        (EnrichRejects JsOther))
                     Scenario.photo "user-1") = Return r
       /\ season r = Some "Fall"
       /\ seasonValid r = false.
Proof.
  split; [reflexivity|].
  eexists. split; [vm_compute; reflexivity | split; reflexivity].
Qed.

Lemma forallb_map_compose {A B} (f : B -> bool) (g : A -> B) l :
  forallb f (map g l) = forallb (fun x => f (g x)) l.
Proof. induction l as [|x l IH]; simpl; [reflexivity | now rewrite IH]. Qed.

(** After padding and repair the free colours are all valid exactly
    when every code of the response was repairable. *)
Lemma allHexValid_repaired cs :
  allHexValid (map fixColor (cs ++ skipn (List.length cs) defaultColors)%list)
  = forallb (fun c => repairable (hex c)) cs.
Proof.
  unfold allHexValid. rewrite forallb_map_compose, forallb_app.
  assert (forallb (fun x => matchesHex6 (hex (fixColor x)))
                  (skipn (List.length cs) defaultColors) = true) as ->.
  { destruct (List.length cs) as [|[|[|n]]]; try reflexivity.
    unfold defaultColors. simpl. now rewrite skipn_nil. }
  rewrite andb_true_r.
  induction cs as [|c cs IH]; [reflexivity|].
  cbn [forallb]. rewrite IH. f_equal. apply fixHex_valid_iff.
Qed.

(** C4 (as amended).  Every colour of a result of the fallback generator,
    free or premium, has a six-digit code.  On the primary path the
    repair adds a missing [#] and doubles the characters of a
    three-character form, so the free colours are all valid exactly
    when every code of the response had six or three hexadecimal
    digits, with or without [#]; any other code stays invalid.  The
    object of the enrichment call is merged as it is: its colours are
    not normalized. *)
Theorem hex_of_result w file r :
  PipelineResult w file r ->
  (forall h, matchesHex6 (fixHex h) = repairable h)
  /\ ((hexValidIn (freeColors r) = true /\ hexValidIn (premiumColors r) = true)
      \/ (exists imageUrl result cs,
            aiBasic w imageUrl = AiResolves (Some result)
            /\ incomplete result = false
            /\ freeColors result = Some cs
            /\ freeColors r
               = Some (map fixColor (cs ++ skipn (List.length cs) defaultColors)%list)
            /\ hexValidIn (freeColors r) = forallb (fun c => repairable (hex c)) cs
            /\ hexValidIn (premiumColors r) = true)
      \/ (exists imageUrl basic object,
            BasicResult w imageUrl basic
            /\ aiEnhance w basic = EnrichResolves (Some object)
            /\ r = spread basic object
            /\ (forall pc, premiumColors object = Some pc -> premiumColors r = Some pc)
            /\ (forall fc, freeColors object = Some fc -> freeColors r = Some fc))).
Proof.
  intros Hor. split; [exact fixHex_valid_iff|].
  destruct Hor as [r Hfb | imageUrl b r Hb Hp | imageUrl b o Hb Ho].
  - left. apply generateFallbackAnalysis_inv in Hfb as (_ & Hwf & _).
    now apply wellFormed_hex.
  - apply generateFallbackPremiumData_shape in Hp as (_ & _ & Hfc & _ & _ & Hpc & _).
    destruct Hb as [result b Hai Hinc Hfb | result cs Hai Hinc Hcs].
    + left. apply generateFallbackAnalysis_inv in Hfb as (_ & Hwf & _).
      rewrite Hfc. split; [now apply wellFormed_hex | exact Hpc].
    + right. left. exists imageUrl, result, cs.
      simpl in Hfc.
      split; [exact Hai|]. split; [exact Hinc|]. split; [exact Hcs|].
      split; [exact Hfc|]. split; [|exact Hpc].
      rewrite Hfc. apply allHexValid_repaired.
  - right. right. exists imageUrl, b, o.
    split; [exact Hb|]. split; [exact Ho|]. split; [reflexivity|].
    split; intros l Hl; simpl; now rewrite Hl.
Qed.

(** A run of C4 (as amended): the result of the top-level handler. *)
Lemma hex_of_result_handler :
  PipelineResult (Scenario.flaky 3) Scenario.photo Scenario.handlerResult
  /\ (hexValidIn (freeColors Scenario.handlerResult) = true
      /\ hexValidIn (premiumColors Scenario.handlerResult) = true
      \/ (exists imageUrl result cs,
            aiBasic (Scenario.flaky 3) imageUrl = AiResolves (Some result)
            /\ incomplete result = false
            /\ freeColors result = Some cs
            /\ freeColors Scenario.handlerResult
               = Some (map fixColor (cs ++ skipn (List.length cs) defaultColors)%list)
            /\ hexValidIn (freeColors Scenario.handlerResult)
               = forallb (fun c => repairable (hex c)) cs
            /\ hexValidIn (premiumColors Scenario.handlerResult) = true)
      \/ (exists imageUrl basic object,
            BasicResult (Scenario.flaky 3) imageUrl basic
            /\ aiEnhance (Scenario.flaky 3) basic = EnrichResolves (Some object)
            /\ Scenario.handlerResult = spread basic object
            /\ (forall pc, premiumColors object = Some pc ->
                  premiumColors Scenario.handlerResult = Some pc)
            /\ (forall fc, freeColors object = Some fc ->
                  freeColors Scenario.handlerResult = Some fc))).
Proof.
  assert (Hor : PipelineResult (Scenario.flaky 3) Scenario.photo Scenario.handlerResult)
    by (apply FromHandler; reflexivity).
  split; [exact Hor|].
  exact (proj2 (hex_of_result (Scenario.flaky 3) Scenario.photo
                              Scenario.handlerResult Hor)).
Defined.

(** C4, the part that fails: the model gives the code red for a free
    colour and the enrichment returns a premium colour with the code
    tomato; the pipeline returns the codes #rreedd and tomato. *)
Lemma hex_not_normalized :
  exists r,
    completion (analyzePhotoWithAI
                  (Scenario.world
                     (AiResolves (Some (Scenario.aiObject "Autumn"
                        [color "Brick" "red" "Warm red"; Scenario.teal; Scenario.moss])))
                     (EnrichResolves (Some (Scenario.premiumObject
                        [tagged "Tomato" "tomato" "Lively red" "accent"]))))
                  Scenario.photo "user-1") = Return r
    /\ option_map (map hex) (freeColors r) = Some ["#rreedd"; "#008080"; "#8A9A5B"]
    /\ option_map (map hex) (premiumColors r) = Some ["tomato"]
    /\ hexValidIn (freeColors r) = false
    /\ hexValidIn (premiumColors r) = false.
Proof.
  eexists. split; [vm_compute; reflexivity | repeat split; reflexivity].
Qed.

(* ===================================================================== *)
(** ** Lightening and darkening                                          *)
(* ===================================================================== *)

Lemma below_sixteen (v : Z) :
  (0 <= v < 16)%Z ->
  In v [0; 1; 2; 3; 4; 5; 6; 7; 8; 9; 10; 11; 12; 13; 14; 15]%Z.
Proof. intros H. simpl. lia. Qed.

Ltac each_digit v H :=
  let Hin := fresh in
  pose proof (below_sixteen v H) as Hin; simpl in Hin;
  repeat (destruct Hin as [<- | Hin]; [|]); [..|destruct Hin].

Lemma of_hex_uint_acc_digitOf v l acc :
  (0 <= v < 16)%Z ->
  exists acc',
    Z.pos acc' = (v + 16 * Z.pos acc)%Z
    /\ Pos.of_hex_uint_acc (digitOf v l) acc = Pos.of_hex_uint_acc l acc'.
Proof.
  intros H. each_digit v H; simpl; eexists; (split; [|reflexivity]); lia.
Qed.

Lemma string_of_digitOf v l :
  (0 <= v < 16)%Z ->
  HexadecimalString.NilEmpty.string_of_uint (digitOf v l)
  = String (Spec.digitChar v) (HexadecimalString.NilEmpty.string_of_uint l).
Proof. intros H. each_digit v H; reflexivity. Qed.

Lemma string_of_leading_one l :
  HexadecimalString.NilZero.string_of_uint (Hexadecimal.unorm (Hexadecimal.D1 l))
  = String "1" (HexadecimalString.NilEmpty.string_of_uint l).
Proof. reflexivity. Qed.

Lemma toString16_seven a1 a2 a3 a4 a5 a6 :
  (0 <= a1 < 16 -> 0 <= a2 < 16 -> 0 <= a3 < 16 ->
   0 <= a4 < 16 -> 0 <= a5 < 16 -> 0 <= a6 < 16 ->
   Js.toString16 ((((((1 * 16 + a1) * 16 + a2) * 16 + a3) * 16 + a4) * 16 + a5) * 16 + a6)
   = String "1" (String (Spec.digitChar a1) (String (Spec.digitChar a2)
       (String (Spec.digitChar a3) (String (Spec.digitChar a4)
         (String (Spec.digitChar a5) (String (Spec.digitChar a6) EmptyString)))))))%Z.
Proof.
  intros H1 H2 H3 H4 H5 H6.
  pose (u := Hexadecimal.D1 (digitOf a1 (digitOf a2 (digitOf a3
               (digitOf a4 (digitOf a5 (digitOf a6 Hexadecimal.Nil))))))).
  assert (Hu : N.of_hex_uint u
               = Z.to_N ((((((1 * 16 + a1) * 16 + a2) * 16 + a3) * 16 + a4) * 16 + a5) * 16 + a6)).
  { unfold u. cbn [N.of_hex_uint Pos.of_hex_uint].
    destruct (of_hex_uint_acc_digitOf a1
                (digitOf a2 (digitOf a3 (digitOf a4 (digitOf a5 (digitOf a6 Hexadecimal.Nil))))) 1 H1)
      as (c1 & E1 & ->).
    destruct (of_hex_uint_acc_digitOf a2
                (digitOf a3 (digitOf a4 (digitOf a5 (digitOf a6 Hexadecimal.Nil)))) c1 H2)
      as (c2 & E2 & ->).
    destruct (of_hex_uint_acc_digitOf a3
                (digitOf a4 (digitOf a5 (digitOf a6 Hexadecimal.Nil))) c2 H3)
      as (c3 & E3 & ->).
    destruct (of_hex_uint_acc_digitOf a4 (digitOf a5 (digitOf a6 Hexadecimal.Nil)) c3 H4)
      as (c4 & E4 & ->).
    destruct (of_hex_uint_acc_digitOf a5 (digitOf a6 Hexadecimal.Nil) c4 H5)
      as (c5 & E5 & ->).
    destruct (of_hex_uint_acc_digitOf a6 Hexadecimal.Nil c5 H6) as (c6 & E6 & ->).
    cbn [Pos.of_hex_uint_acc]. lia. }
  unfold Js.toString16. rewrite <- Hu, HexadecimalN.Unsigned.to_of.
  unfold u. rewrite string_of_leading_one.
  rewrite !string_of_digitOf by assumption. reflexivity.
Qed.

Lemma hexDigit_range a v : Js.hexDigit a = Some v -> (0 <= v < 16)%Z.
Proof.
  destruct a as [[] [] [] [] [] [] [] []]; intros H; vm_compute in H;
    try discriminate; injection H as <-; lia.
Qed.

Lemma hexDigit_not_white a v : Js.hexDigit a = Some v -> Js.isWhite a = false.
Proof.
  destruct a as [[] [] [] [] [] [] [] []]; vm_compute; intros H;
    try discriminate; reflexivity.
Qed.

(** An integer below 2^53 is a double. *)
Lemma roundToDouble_small v :
  (0 <= v < 2 ^ 53)%Z -> Js.roundToDouble v = Some v.
Proof.
  intros H. unfold Js.roundToDouble.
  assert (Hbits : (Z.log2 v + 1 <= 53)%Z).
  { destruct (Z.eq_dec v 0) as [->|Hne]; [cbn; lia|].
    assert (Z.log2 v < 53)%Z by (apply Z.log2_lt_pow2; lia). lia. }
  destruct (Z.leb_spec (Z.log2 v + 1) 53); [reflexivity | lia].
Qed.

Lemma splitSign_digit a v rest :
  Js.hexDigit a = Some v -> Js.splitSign (String a rest) = (false, String a rest).
Proof.
  destruct a as [[] [] [] [] [] [] [] []]; intros H; try reflexivity;
    vm_compute in H; discriminate.
Qed.

Lemma stripHexPrefix_digit a b v rest :
  Js.hexDigit b = Some v ->
  Js.stripHexPrefix (String a (String b rest)) = String a (String b rest).
Proof.
  intros H. destruct (Ascii.eqb_spec a "0") as [->|Hne].
  - destruct b as [[] [] [] [] [] [] [] []]; try reflexivity;
      vm_compute in H; discriminate.
  - destruct a as [[] [] [] [] [] [] [] []]; try reflexivity.
    now contradiction Hne.
Qed.

Lemma parseInt16_six r1 r2 g1 g2 b1 b2 x1 x2 x3 x4 x5 x6 :
  Js.hexDigit r1 = Some x1 -> Js.hexDigit r2 = Some x2 ->
  Js.hexDigit g1 = Some x3 -> Js.hexDigit g2 = Some x4 ->
  Js.hexDigit b1 = Some x5 -> Js.hexDigit b2 = Some x6 ->
  Js.parseInt16 (String r1 (String r2 (String g1 (String g2 (String b1 (String b2 EmptyString))))))
  = Js.Finite (((((x1 * 16 + x2) * 16 + x3) * 16 + x4) * 16 + x5) * 16 + x6)%Z.
Proof.
  intros H1 H2 H3 H4 H5 H6.
  pose proof (hexDigit_range _ _ H1). pose proof (hexDigit_range _ _ H2).
  pose proof (hexDigit_range _ _ H3). pose proof (hexDigit_range _ _ H4).
  pose proof (hexDigit_range _ _ H5). pose proof (hexDigit_range _ _ H6).
  unfold Js.parseInt16.
  cbn [Js.skipWhite]. rewrite (hexDigit_not_white r1 x1 H1).
  rewrite (splitSign_digit r1 x1 _ H1), (stripHexPrefix_digit r1 r2 x2 _ H2).
  cbn [Js.hexRun]. rewrite H1, H2, H3, H4, H5, H6.
  cbn [Z.mul Z.add]. rewrite roundToDouble_small by lia. reflexivity.
Qed.

Lemma toInt32_small n : (0 <= n < 2147483648)%Z -> Js.toInt32 (Js.Finite n) = n.
Proof. intros H. unfold Js.toInt32. rewrite Z.mod_small by lia. lia. Qed.

Lemma channels_of_number R G B :
  (0 <= R < 256)%Z -> (0 <= G < 256)%Z -> (0 <= B < 256)%Z ->
  Z.shiftr (R * 65536 + G * 256 + B) 16 = R
  /\ Z.land (Z.shiftr (R * 65536 + G * 256 + B) 8) 255 = G
  /\ Z.land (R * 65536 + G * 256 + B) 255 = B.
Proof.
  intros HR HG HB.
  rewrite !Z.shiftr_div_pow2 by lia.
  change 255%Z with (Z.ones 8). rewrite !Z.land_ones by lia.
  change (2 ^ 16)%Z with 65536%Z. change (2 ^ 8)%Z with 256%Z.
  assert (E8 : ((R * 65536 + G * 256 + B) / 256 = R * 256 + G)%Z)
    by (symmetry; apply (Z.div_unique _ _ _ B); lia).
  split; [|split].
  - symmetry. apply (Z.div_unique _ _ _ (G * 256 + B)); lia.
  - rewrite E8. symmetry. apply (Z.mod_unique _ _ R); lia.
  - symmetry. apply (Z.mod_unique _ _ (R * 256 + G)); lia.
Qed.

Lemma clampChannel_spec x : clampChannel x = Spec.clampByte x.
Proof.
  unfold clampChannel, Spec.clampByte.
  destruct (Z.ltb_spec x 255); destruct (Z.ltb_spec x 1); lia.
Qed.

Lemma clampByte_range x : (0 <= Spec.clampByte x < 256)%Z.
Proof. unfold Spec.clampByte. lia. Qed.

Lemma nibbles v :
  (0 <= v < 256)%Z ->
  (0 <= v / 16 < 16)%Z /\ (0 <= v mod 16 < 16)%Z /\ (v = (v / 16) * 16 + v mod 16)%Z.
Proof.
  intros H. pose proof (Z.div_mod v 16 ltac:(lia)) as E.
  pose proof (Z.mod_pos_bound v 16 ltac:(lia)) as Hm.
  split; [|split; [exact Hm | lia]]. lia.
Qed.

Lemma toString16_channels R G B :
  (0 <= R < 256)%Z -> (0 <= G < 256)%Z -> (0 <= B < 256)%Z ->
  Js.toString16 (16777216 + R * 65536 + G * 256 + B)
  = "1" ++ Spec.hexPair R ++ Spec.hexPair G ++ Spec.hexPair B.
Proof.
  intros HR HG HB.
  destruct (nibbles R HR) as (R1 & R2 & ER).
  destruct (nibbles G HG) as (G1 & G2 & EG).
  destruct (nibbles B HB) as (B1 & B2 & EB).
  replace (16777216 + R * 65536 + G * 256 + B)%Z
    with ((((((1 * 16 + R / 16) * 16 + R mod 16) * 16 + G / 16) * 16 + G mod 16) * 16
           + B / 16) * 16 + B mod 16)%Z by lia.
  rewrite toString16_seven by assumption. reflexivity.
Qed.

Lemma matchesHex6_inv h :
  matchesHex6 h = true ->
  exists r1 r2 g1 g2 b1 b2 x1 x2 x3 x4 x5 x6,
    h = String "#" (String r1 (String r2 (String g1 (String g2 (String b1 (String b2 EmptyString))))))
    /\ Js.hexDigit r1 = Some x1 /\ Js.hexDigit r2 = Some x2
    /\ Js.hexDigit g1 = Some x3 /\ Js.hexDigit g2 = Some x4
    /\ Js.hexDigit b1 = Some x5 /\ Js.hexDigit b2 = Some x6.
Proof.
  destruct h as [|c rest]; [discriminate|].
  unfold matchesHex6. intros H.
  apply andb_true_iff in H as [H Hd]. apply andb_true_iff in H as [Hc Hl].
  apply Ascii.eqb_eq in Hc. subst c. apply Nat.eqb_eq in Hl.
  destruct rest as [|r1 [|r2 [|g1 [|g2 [|b1 [|b2 [|? ?]]]]]]]; try discriminate.
  cbn [allHexDigits] in Hd. unfold Js.isHexDigit in Hd.
  destruct (Js.hexDigit r1) as [x1|] eqn:E1; [|discriminate].
  destruct (Js.hexDigit r2) as [x2|] eqn:E2; [|discriminate].
  destruct (Js.hexDigit g1) as [x3|] eqn:E3; [|discriminate].
  destruct (Js.hexDigit g2) as [x4|] eqn:E4; [|discriminate].
  destruct (Js.hexDigit b1) as [x5|] eqn:E5; [|discriminate].
  destruct (Js.hexDigit b2) as [x6|] eqn:E6; [|discriminate].
  exists r1, r2, g1, g2, b1, b2, x1, x2, x3, x4, x5, x6.
  repeat split; assumption.
Qed.

(** On every six-digit code the utility computes what the
    specification says: each channel moved by [amt] and clamped. *)
Theorem shiftColor_spec amt h :
  matchesHex6 h = true -> Spec.shifted amt h = Some (shiftColor amt h).
Proof.
  intros H.
  destruct (matchesHex6_inv h H)
    as (r1 & r2 & g1 & g2 & b1 & b2 & x1 & x2 & x3 & x4 & x5 & x6
        & -> & H1 & H2 & H3 & H4 & H5 & H6).
  pose proof (hexDigit_range _ _ H1). pose proof (hexDigit_range _ _ H2).
  pose proof (hexDigit_range _ _ H3). pose proof (hexDigit_range _ _ H4).
  pose proof (hexDigit_range _ _ H5). pose proof (hexDigit_range _ _ H6).
  unfold Spec.shifted, Spec.channels, Spec.pairValue.
  rewrite H1, H2, H3, H4, H5, H6.
  unfold shiftColor. cbn [Js.removeFirst]. rewrite Ascii.eqb_refl.
  rewrite (parseInt16_six _ _ _ _ _ _ _ _ _ _ _ _ H1 H2 H3 H4 H5 H6).
  rewrite toInt32_small by lia.
  replace (((((x1 * 16 + x2) * 16 + x3) * 16 + x4) * 16 + x5) * 16 + x6)%Z
    with ((x1 * 16 + x2) * 65536 + (x3 * 16 + x4) * 256 + (x5 * 16 + x6))%Z by lia.
  destruct (channels_of_number (x1 * 16 + x2) (x3 * 16 + x4) (x5 * 16 + x6))
    as (-> & -> & ->); try lia.
  rewrite !clampChannel_spec.
  pose proof (clampByte_range (x1 * 16 + x2 + amt)).
  pose proof (clampByte_range (x3 * 16 + x4 + amt)).
  pose proof (clampByte_range (x5 * 16 + x6 + amt)).
  rewrite toString16_channels by assumption. reflexivity.
Qed.

Corollary lightenColor_spec h :
  matchesHex6 h = true -> Spec.shifted 40 h = Some (lightenColor h).
Proof. apply shiftColor_spec. Qed.

Corollary darkenColor_spec h :
  matchesHex6 h = true -> Spec.shifted (-40) h = Some (darkenColor h).
Proof. apply shiftColor_spec. Qed.

(* ===================================================================== *)
(** ** The static premium palette                                        *)
(* ===================================================================== *)

(** C9.  For a basic result whose season is one of the four keys of the
    table, [generateFallbackPremiumData] returns fifteen premium
    colours: the five base colours of the season, then their five
    Light variants (each channel of the base colour plus 40, clamped to
    [0, 255], category soft), then their five Deep variants (each
    channel minus 40, clamped, category statement); cutting at 24
    changes nothing. *)
Theorem generateFallbackPremiumData_palette basic s :
  season basic = Some s ->
  In s seasons ->
  exists r base,
    generateFallbackPremiumData basic = Return r
    /\ assoc s seasonColors = Some base
    /\ List.length base = 5
    /\ premiumColors r = Some (base ++ map lightVariant base ++ map deepVariant base)%list
    /\ hasLength 15 (premiumColors r) = true
    /\ firstn 24 (expandPalette base) = expandPalette base
    /\ forall c,
         In c base ->
         name (lightVariant c) = "Light " ++ name c
         /\ category (lightVariant c) = Some "soft"
         /\ Some (hex (lightVariant c)) = Spec.shifted 40 (hex c)
         /\ name (deepVariant c) = "Deep " ++ name c
         /\ category (deepVariant c) = Some "statement"
         /\ Some (hex (deepVariant c)) = Spec.shifted (-40) (hex c).
Proof.
  intros Hs Hin. unfold generateFallbackPremiumData. rewrite Hs.
  destruct Hin as [<- | [<- | [<- | [<- | []]]]];
    (eexists; eexists; split; [reflexivity|]; split; [reflexivity|];
     split; [reflexivity|]; split; [reflexivity|]; split; [reflexivity|];
     split; [reflexivity|];
     intros c Hc;
     assert (Hv : matchesHex6 (hex c) = true)
       by (simpl in Hc;
           repeat (destruct Hc as [<- | Hc]; [reflexivity|]); destruct Hc);
     split; [reflexivity|]; split; [reflexivity|];
     split; [symmetry; now apply lightenColor_spec|];
     split; [reflexivity|]; split; [reflexivity|];
     symmetry; now apply darkenColor_spec).
Qed.

(** A run of C9: the Winter palette. *)
Lemma generateFallbackPremiumData_palette_winter :
  season (Scenario.aiObject "Winter" [Scenario.teal]) = Some "Winter"
  /\ In "Winter" seasons
  /\ exists r,
       generateFallbackPremiumData (Scenario.aiObject "Winter" [Scenario.teal]) = Return r
       /\ option_map (map hex) (premiumColors r)
          = Some [ "#FF0000"; "#4169E1"; "#FFFFFF"; "#000000"; "#50C878";
                   "#ff2828"; "#6991ff"; "#ffffff"; "#282828"; "#78f0a0";
                   "#d70000"; "#1941b9"; "#d7d7d7"; "#000000"; "#28a050" ].
Proof.
  assert (Hin : In "Winter" seasons) by (simpl; tauto).
  split; [reflexivity|]. split; [exact Hin|].
  destruct (generateFallbackPremiumData_palette
              (Scenario.aiObject "Winter" [Scenario.teal]) "Winter" eq_refl Hin)
    as (r & base & Hr & Hbase & _ & Hpc & _).
  exists r. split; [exact Hr|].
  rewrite Hpc. injection Hbase as <-. reflexivity.
Defined.

(* ===================================================================== *)
(** ** Two runs of the whole pipeline                                    *)
(* ===================================================================== *)

(** A 2 MiB JPEG; the primary model returns the season Autumn with one
    colour and the enrichment fails: the caller receives three free
    colours, two of them defaults, and the Autumn palette. *)
Example pipeline_one_colour :
  exists r,
    analyzePhotoWithAI
      (Scenario.world (AiResolves (Some (Scenario.aiObject "Autumn" [Scenario.rust])))
                      (EnrichRejects (JsError "Service unavailable")))
      Scenario.photo "user-1"
    = ([EvUpload 1;
        EvHead "https://storage.example/analysis/photo.jpg";
        EvGenerateBasic "https://storage.example/analysis/photo.jpg";
        EvGenerateEnhanced],
       Return r)
    /\ season r = Some "Autumn"
    /\ option_map (map name) (freeColors r) = Some ["Rust"; "Soft Cream"; "Dusty Rose"]
    /\ option_map (map name) (premiumColors r)
       = Some [ "Burnt Orange"; "Deep Burgundy"; "Golden Brown"; "Olive Green"; "Warm Cream";
                "Light Burnt Orange"; "Light Deep Burgundy"; "Light Golden Brown";
                "Light Olive Green"; "Light Warm Cream";
                "Deep Burnt Orange"; "Deep Deep Burgundy"; "Deep Golden Brown";
                "Deep Olive Green"; "Deep Warm Cream" ].
Proof. eexists. split; [vm_compute; reflexivity | repeat split]. Qed.

(** The primary AI call loses the race against the timer: the handler
    answers with the fallback for the season drawn. *)
Example pipeline_timeout :
  exists r,
    analyzePhotoWithAI (Scenario.world AiTimesOut (EnrichRejects JsOther))
                       Scenario.photo "user-1"
    = ([EvUpload 1;
        EvHead "https://storage.example/analysis/photo.jpg";
        EvGenerateBasic "https://storage.example/analysis/photo.jpg"],
       Return r)
    /\ completion (generateBasicAnalysis (Scenario.world AiTimesOut (EnrichRejects JsOther))
                                         "https://storage.example/analysis/photo.jpg")
       = Throw (JsError "AI analysis failed: AI analysis timed out after 60 seconds")
    /\ season r = Some "Autumn"
    /\ option_map (map name) (freeColors r) = Some ["Soft Pink"; "Warm Beige"; "Light Blue"]
    /\ wellFormed r = true.
Proof. eexists. split; [vm_compute; reflexivity | repeat split]. Qed.

(* ===================================================================== *)
(** ** Further properties of the colour utilities                        *)
(* ===================================================================== *)

(** X1.  On every six-digit code [lightenColor] returns the code whose
    channels are those of the input plus 40, clamped to [0, 255], and
    [darkenColor] the one with the channels minus 40, clamped; both
    write the digits in lower case. *)
Theorem lighten_darken_channels h :
  matchesHex6 h = true ->
  Spec.shifted 40 h = Some (lightenColor h)
  /\ Spec.shifted (-40) h = Some (darkenColor h).
Proof. intros H. split; now apply shiftColor_spec. Qed.

Lemma lighten_darken_channels_royal_blue :
  matchesHex6 "#4169E1" = true
  /\ lightenColor "#4169E1" = "#6991ff"
  /\ darkenColor "#4169E1" = "#1941b9".
Proof.
  assert (H : matchesHex6 "#4169E1" = true) by reflexivity.
  split; [exact H|].
  destruct (lighten_darken_channels "#4169E1" H) as [Hl Hd].
  split.
  - assert (E : Some (lightenColor "#4169E1") = Some "#6991ff")
      by (rewrite <- Hl; reflexivity).
    exact (f_equal (fun o => match o with Some x => x | None => "" end) E).
  - assert (E : Some (darkenColor "#4169E1") = Some "#1941b9")
      by (rewrite <- Hd; reflexivity).
    exact (f_equal (fun o => match o with Some x => x | None => "" end) E).
Defined.

Lemma clampChannel_range x : (0 <= clampChannel x < 256)%Z.
Proof. rewrite clampChannel_spec. apply clampByte_range. Qed.

Lemma digitChar_isHexDigit v :
  (0 <= v < 16)%Z -> Js.isHexDigit (Spec.digitChar v) = true.
Proof. intros H. each_digit v H; reflexivity. Qed.

Lemma hexPair_digits v rest :
  (0 <= v < 256)%Z ->
  allHexDigits (Spec.hexPair v ++ rest) = allHexDigits rest.
Proof.
  intros H. destruct (nibbles v H) as (H1 & H2 & _).
  unfold Spec.hexPair. cbn [append allHexDigits].
  now rewrite !digitChar_isHexDigit by assumption.
Qed.

(** The result of [shiftColor] written with its three channels. *)
Lemma shiftColor_channels amt h :
  exists R G B,
    (0 <= R < 256)%Z /\ (0 <= G < 256)%Z /\ (0 <= B < 256)%Z
    /\ shiftColor amt h = "#" ++ Spec.hexPair R ++ Spec.hexPair G ++ Spec.hexPair B.
Proof.
  unfold shiftColor.
  set (num := Js.toInt32 (Js.parseInt16 (Js.removeFirst "#" h))).
  exists (clampChannel (Z.shiftr num 16 + amt)),
         (clampChannel (Z.land (Z.shiftr num 8) 255 + amt)),
         (clampChannel (Z.land num 255 + amt)).
  pose proof (clampChannel_range (Z.shiftr num 16 + amt)).
  pose proof (clampChannel_range (Z.land (Z.shiftr num 8) 255 + amt)).
  pose proof (clampChannel_range (Z.land num 255 + amt)).
  repeat (split; [assumption|]).
  rewrite toString16_channels by assumption. reflexivity.
Qed.

(** X2.  Whatever string they are given, [lightenColor] and [darkenColor]
    return a well-formed six-digit code; a string in which [parseInt]
    finds no number, or a number that is read as an infinity, counts as
    black, which gives #282828 and #000000. *)
Theorem lighten_darken_total h :
  matchesHex6 (lightenColor h) = true
  /\ matchesHex6 (darkenColor h) = true
  /\ (Js.parseInt16 (Js.removeFirst "#" h) = Js.NaN
      \/ (exists negative, Js.parseInt16 (Js.removeFirst "#" h) = Js.Infinity negative) ->
      lightenColor h = "#282828" /\ darkenColor h = "#000000").
Proof.
  assert (Hv : forall amt, matchesHex6 (shiftColor amt h) = true).
  { intros amt. destruct (shiftColor_channels amt h) as (R & G & B & HR & HG & HB & ->).
    change ("#" ++ Spec.hexPair R ++ Spec.hexPair G ++ Spec.hexPair B)
      with (String "#" (Spec.hexPair R ++ Spec.hexPair G ++ Spec.hexPair B)).
    rewrite matchesHex6_hash. unfold hexDigitsOfLength.
    rewrite !hexPair_digits by assumption.
    replace (Spec.hexPair B) with (Spec.hexPair B ++ "") by (unfold Spec.hexPair; reflexivity).
    rewrite hexPair_digits by assumption. reflexivity. }
  split; [apply Hv|]. split; [apply Hv|].
  intros [Hnan | (negative & Hinf)];
    unfold lightenColor, darkenColor, shiftColor; [rewrite Hnan | rewrite Hinf];
    split; reflexivity.
Qed.

Lemma lighten_darken_total_not_a_code :
  Js.parseInt16 (Js.removeFirst "#" "tomato") = Js.NaN
  /\ lightenColor "tomato" = "#282828"
  /\ darkenColor "tomato" = "#000000".
Proof.
  assert (H : Js.parseInt16 (Js.removeFirst "#" "tomato") = Js.NaN) by reflexivity.
  split; [exact H|].
  exact (proj2 (proj2 (lighten_darken_total "tomato")) (or_introl H)).
Defined.

(** Fourteen digits: 2^53 + 1 is read as the double 2^53, whose low 32
    bits are 0, so the code counts as black. *)
Example lighten_long_code :
  lightenColor "20000000000001" = "#282828"
  /\ darkenColor "#20000000000003" = "#000000"
  /\ lightenColor "1000000FF7F7F" = "#ffa7a7".
Proof. repeat split; vm_compute; reflexivity. Qed.

Lemma matchesHex6_startsWith h :
  matchesHex6 h = true -> Js.startsWith h "#" = true.
Proof.
  destruct h as [|c rest]; [discriminate|].
  unfold matchesHex6. rewrite startsWith_hash.
  destruct (Ascii.eqb c "#"); [reflexivity|discriminate].
Qed.

(** A string that begins with [#] and is not four characters long is
    left as it is. *)
Lemma fixHex_stable s :
  Js.startsWith s "#" = true -> (String.length s =? 4)%nat = false -> fixHex s = s.
Proof.
  intros Hs Hl. unfold fixHex. rewrite Hs. cbn [negb]. rewrite Hl.
  destruct (matchesHex6 s); reflexivity.
Qed.

(** The string to which the first step of the repair brings a code
    that does not match. *)
Lemma fixHex_cases h :
  fixHex h = h
  \/ (exists a b c,
        fixHex h = String "#" (String a (String a (String b (String b
                     (String c (String c EmptyString)))))))
  \/ (fixHex h = "#" ++ h
      /\ (String.length ("#" ++ h) =? 4)%nat = false).
Proof.
  unfold fixHex. destruct (matchesHex6 h); [now left|].
  destruct h as [|x rest].
  - right. right. split; reflexivity.
  - rewrite startsWith_hash. destruct (Ascii.eqb x "#") eqn:Ex; cbn [negb].
    + destruct rest as [|a [|b [|c [|d rest']]]]; try (now left).
      right. left. exists a, b, c. reflexivity.
    + destruct rest as [|a [|b [|c rest']]].
      * right. right. split; reflexivity.
      * right. right. split; reflexivity.
      * right. left. exists x, a, b. reflexivity.
      * right. right. split; reflexivity.
Qed.

(** X3.  The repair of a colour code is idempotent, its result always
    begins with [#], and a code that already has six digits is returned
    untouched. *)
Theorem fixHex_idempotent h :
  fixHex (fixHex h) = fixHex h
  /\ Js.startsWith (fixHex h) "#" = true
  /\ (matchesHex6 h = true -> fixHex h = h).
Proof.
  assert (Hvalid : matchesHex6 h = true -> fixHex h = h)
    by (intros E; unfold fixHex; now rewrite E).
  split; [|split; [|exact Hvalid]].
  - destruct (fixHex_cases h) as [E | [(a & b & c & E) | (E & Hl)]].
    + now rewrite E.
    + rewrite E. now apply fixHex_stable.
    + rewrite E. apply fixHex_stable; [apply (startsWith_hash "#" h) | exact Hl].
  - unfold fixHex. destruct (matchesHex6 h) eqn:Em.
    + now apply matchesHex6_startsWith.
    + assert (H1 : Js.startsWith
                     (if negb (Js.startsWith h "#") then "#" ++ h else h) "#" = true).
      { destruct (Js.startsWith h "#") eqn:Es; cbn [negb];
          [exact Es | apply (startsWith_hash "#" h)]. }
      destruct (String.length (if negb (Js.startsWith h "#") then "#" ++ h else h) =? 4)%nat;
        [|exact H1].
      match goal with
      | |- Js.startsWith ("#" ++ ?rest) "#" = true => apply (startsWith_hash "#" rest)
      end.
Qed.

Lemma fixHex_idempotent_valid_code :
  matchesHex6 "#B7410E" = true /\ fixHex "#B7410E" = "#B7410E".
Proof.
  assert (H : matchesHex6 "#B7410E" = true) by reflexivity.
  split; [exact H|].
  exact (proj2 (proj2 (fixHex_idempotent "#B7410E")) H).
Defined.

(* ===================================================================== *)
(** ** Further properties of the upload retrier                          *)
(* ===================================================================== *)

Lemma totalSleep_app t1 t2 : totalSleep (t1 ++ t2) = (totalSleep t1 + totalSleep t2)%N.
Proof.
  induction t1 as [|ev t1 IH]; [reflexivity|].
  destruct ev; simpl; rewrite IH; lia.
Qed.

Lemma pow2_succ (a : nat) : (2 ^ N.of_nat (S a) = 2 * 2 ^ N.of_nat a)%N.
Proof. rewrite Nat2N.inj_succ. apply N.pow_succ_r'. Qed.

Lemma pow2_le (a n : nat) : a <= n -> (2 ^ N.of_nat a <= 2 ^ N.of_nat n)%N.
Proof. intros H. apply N.pow_le_mono_r; lia. Qed.

(** The loop from attempt [attempt] on, when every attempt that is left
    fails. *)
Lemma uploadLoop_all_fail w maxRetries remaining :
  forall attempt lastError,
    attempt + remaining = S maxRetries ->
    (forall k, attempt <= k <= maxRetries ->
               exists e, completion (attemptUpload w k) = Throw e) ->
    uploads (trace (uploadLoop w maxRetries remaining attempt lastError)) = remaining
    /\ totalSleep (trace (uploadLoop w maxRetries remaining attempt lastError))
       = ((2 ^ N.of_nat maxRetries - 2 ^ N.of_nat attempt) * 1000)%N
    /\ exists m,
         completion (uploadLoop w maxRetries remaining attempt lastError)
         = Throw (JsError ("Upload failed after " ++ Js.decimal maxRetries
                           ++ " attempts: " ++ m))
         /\ (remaining = 0 -> m = lastMessage lastError)
         /\ (0 < remaining ->
             forall e, completion (attemptUpload w maxRetries) = Throw e ->
                       m = messageOf (toError e)).
Proof.
  induction remaining as [|rem IH]; intros attempt lastError Hsum Hfail.
  - cbn [uploadLoop throw trace completion fst snd uploads totalSleep].
    split; [reflexivity|]. split.
    + assert (attempt = S maxRetries) as -> by lia.
      pose proof (pow2_le maxRetries (S maxRetries) ltac:(lia)). lia.
    + eexists. split; [reflexivity|]. split; [reflexivity | lia].
  - destruct (Hfail attempt ltac:(lia)) as (e & He).
    rewrite (uploadLoop_failure _ _ _ _ _ e He).
    assert (Hfail' : forall k, S attempt <= k <= maxRetries ->
              exists e', completion (attemptUpload w k) = Throw e')
      by (intros k Hk; apply Hfail; lia).
    destruct (IH (S attempt) (Some (toError e)) ltac:(lia) Hfail')
      as (Hu & Hs & m & Hc & H0 & Hlast).
    destruct (uploadLoop w maxRetries rem (S attempt) (Some (toError e))) as [t c] eqn:El.
    unfold trace, completion in Hu, Hs, Hc. cbn [fst snd] in Hu, Hs, Hc.
    destruct (Nat.ltb_spec attempt maxRetries) as [Hlt|Hge].
    + cbn. split; [now rewrite Hu|]. split.
      * rewrite Hs. unfold backoffDelay.
        pose proof (pow2_succ attempt) as E2.
        pose proof (pow2_le (S attempt) maxRetries ltac:(lia)) as Hle. lia.
      * exists m. split; [exact Hc|]. split; [lia|].
        intros _ e' He'.
        change (completion (attemptUpload w maxRetries) = Throw e') in He'.
        apply Hlast; [lia | exact He'].
    + assert (Ea : attempt = maxRetries) by lia.
      assert (Er : rem = 0) by lia.
      cbn. split; [now rewrite Hu|]. split.
      * rewrite Hs, Ea.
        pose proof (pow2_le maxRetries (S maxRetries) ltac:(lia)). lia.
      * exists m. split; [exact Hc|]. split; [lia|].
        intros _ e' He'.
        change (completion (attemptUpload w maxRetries) = Throw e') in He'.
        rewrite Ea, He' in He. injection He as <-.
        rewrite (H0 Er). reflexivity.
Qed.

(** The trace of the loop from attempt [attempt] on, when every attempt
    that is left fails: each upload, followed by its wait when another
    attempt is allowed. *)
Lemma uploadLoop_all_fail_trace w maxRetries remaining :
  forall attempt lastError,
    (forall k, attempt <= k < attempt + remaining ->
               exists e, completion (attemptUpload w k) = Throw e) ->
    trace (uploadLoop w maxRetries remaining attempt lastError)
    = flat_map (fun k => EvUpload k
                           :: (if (k <? maxRetries)%nat
                               then [EvSleep (2 ^ N.of_nat k * 1000)%N]
                               else []))
               (seq attempt remaining).
Proof.
  induction remaining as [|rem IH]; intros attempt lastError Hfail; [reflexivity|].
  destruct (Hfail attempt ltac:(lia)) as (e & He).
  rewrite (uploadLoop_failure _ _ _ _ _ e He).
  assert (Hfail' : forall k, S attempt <= k < S attempt + rem ->
            exists e', completion (attemptUpload w k) = Throw e')
    by (intros k Hk; apply Hfail; lia).
  specialize (IH (S attempt) (Some (toError e)) Hfail').
  destruct (uploadLoop w maxRetries rem (S attempt) (Some (toError e))) as [t c] eqn:El.
  unfold trace in IH. cbn [fst] in IH.
  cbn [seq flat_map]. rewrite <- IH.
  destruct (attempt <? maxRetries)%nat; reflexivity.
Qed.

(** X4.  Whatever the number of retries, when every attempt fails
    [uploadWithRetry] makes exactly [maxRetries] attempts, in order,
    waits 2^k * 1000 ms after attempt [k] and before attempt [k + 1],
    does not wait after the last attempt, waits in all
    (2^maxRetries - 2) * 1000 ms, and throws an error that names
    [maxRetries] and the message of the last failure; with no retry
    allowed it makes no attempt and the message ends in undefined. *)
Theorem uploadWithRetry_exhausted w file userId maxRetries :
  fileSize file <> 0%N -> (fileSize file <= maxUploadSize)%N ->
  (forall k, 1 <= k <= maxRetries ->
             exists e, completion (attemptUpload w k) = Throw e) ->
  trace (uploadWithRetry w file userId maxRetries)
  = flat_map (fun k => EvUpload k
                         :: (if (k <? maxRetries)%nat
                             then [EvSleep (2 ^ N.of_nat k * 1000)%N]
                             else []))
             (seq 1 maxRetries)
  /\ uploads (trace (uploadWithRetry w file userId maxRetries)) = maxRetries
  /\ totalSleep (trace (uploadWithRetry w file userId maxRetries))
     = ((2 ^ N.of_nat maxRetries - 2) * 1000)%N
  /\ exists m,
       completion (uploadWithRetry w file userId maxRetries)
       = Throw (JsError ("Upload failed after " ++ Js.decimal maxRetries
                         ++ " attempts: " ++ m))
       /\ (maxRetries = 0 -> m = "undefined")
       /\ (0 < maxRetries ->
           forall e, completion (attemptUpload w maxRetries) = Throw e ->
                     m = messageOf (toError e)).
Proof.
  intros H0 Hmax Hfail. rewrite (uploadWithRetry_accepts _ _ _ _ H0 Hmax).
  destruct (uploadLoop_all_fail w maxRetries maxRetries 1 None ltac:(lia) Hfail)
    as (Hu & Hs & m & Hc & Hz & Hlast).
  split.
  { apply uploadLoop_all_fail_trace. intros k Hk. apply Hfail. lia. }
  split; [exact Hu|]. split; [exact Hs|].
  exists m. split; [exact Hc|]. split; [|exact Hlast].
  intros E. subst maxRetries. now apply Hz.
Qed.

Lemma uploadWithRetry_exhausted_five :
  fileSize Scenario.photo <> 0%N
  /\ (fileSize Scenario.photo <= maxUploadSize)%N
  /\ trace (uploadWithRetry (Scenario.flaky 5) Scenario.photo "user-1" 5)
     = [ EvUpload 1; EvSleep 2000; EvUpload 2; EvSleep 4000; EvUpload 3; EvSleep 8000;
         EvUpload 4; EvSleep 16000; EvUpload 5 ]
  /\ uploads (trace (uploadWithRetry (Scenario.flaky 5) Scenario.photo "user-1" 5)) = 5
  /\ totalSleep (trace (uploadWithRetry (Scenario.flaky 5) Scenario.photo "user-1" 5))
     = 30000%N.
Proof.
  assert (H0 : fileSize Scenario.photo <> 0%N) by (simpl; discriminate).
  assert (Hmax : (fileSize Scenario.photo <= maxUploadSize)%N)
    by (vm_compute; discriminate).
  assert (Hfail : forall k, 1 <= k <= 5 ->
            exists e, completion (attemptUpload (Scenario.flaky 5) k) = Throw e).
  { intros k Hk.
    assert (Hin : k = 1 \/ k = 2 \/ k = 3 \/ k = 4 \/ k = 5) by lia.
    destruct Hin as [-> | [-> | [-> | [-> | ->]]]]; eexists; reflexivity. }
  split; [exact H0|]. split; [exact Hmax|].
  destruct (uploadWithRetry_exhausted (Scenario.flaky 5) Scenario.photo "user-1" 5
              H0 Hmax Hfail) as (Ht & Hu & Hs & _).
  split; [exact Ht|]. split; [exact Hu | exact Hs].
Defined.

Lemma attemptUpload_return w attempt r :
  completion (attemptUpload w attempt) = Return r ->
  upload w attempt = UploadResolves (Some r)
  /\ publicUrl r <> ""
  /\ Js.startsWith (publicUrl r) "http" = true.
Proof.
  unfold attemptUpload.
  destruct (upload w attempt) as [e | [up|]]; try discriminate.
  cbn. destruct (String.eqb_spec (publicUrl up) "") as [E|Hne]; [discriminate|].
  destruct (Js.startsWith (publicUrl up) "http") eqn:Es; cbn; [|discriminate].
  intros [= <-]. repeat split; assumption.
Qed.

Lemma uploadLoop_return w maxRetries remaining :
  forall attempt lastError r,
    completion (uploadLoop w maxRetries remaining attempt lastError) = Return r ->
    exists k,
      attempt <= k < attempt + remaining
      /\ completion (attemptUpload w k) = Return r
      /\ (forall j, attempt <= j < k ->
                    exists e, completion (attemptUpload w j) = Throw e)
      /\ uploads (trace (uploadLoop w maxRetries remaining attempt lastError))
         = S (k - attempt).
Proof.
  induction remaining as [|rem IH]; intros attempt lastError r H.
  - discriminate.
  - destruct (completion (attemptUpload w attempt)) as [r'|e] eqn:E.
    + rewrite (uploadLoop_success _ _ _ _ _ r' E) in *.
      cbn in H. injection H as <-.
      exists attempt. split; [lia|]. split; [exact E|]. split; [intros j Hj; lia|].
      cbn. f_equal. lia.
    + rewrite (uploadLoop_failure _ _ _ _ _ e E) in *.
      destruct (uploadLoop w maxRetries rem (S attempt) (Some (toError e))) as [t c] eqn:El.
      assert (Hc : c = Return r).
      { destruct (attempt <? maxRetries)%nat; cbn in H; exact H. }
      subst c.
      assert (Hret : completion (uploadLoop w maxRetries rem (S attempt)
                                            (Some (toError e))) = Return r)
        by now rewrite El.
      destruct (IH (S attempt) (Some (toError e)) r Hret) as (k & Hk & Hr & Hbefore & Hu).
      rewrite El in Hu. unfold trace in Hu. cbn [fst] in Hu.
      exists k. split; [lia|]. split; [exact Hr|]. split.
      * intros j Hj. destruct (Nat.eq_dec j attempt) as [->|Hne]; [now exists e|].
        apply Hbefore. lia.
      * destruct (attempt <? maxRetries)%nat; cbn; rewrite Hu; lia.
Qed.

(** X5.  When [uploadWithRetry] returns, the file had an accepted size,
    the result is the answer of the storage to the last attempt made,
    every earlier attempt had failed, and the URL returned is not empty
    and begins with http. *)
Theorem uploadWithRetry_returns w file userId maxRetries r :
  completion (uploadWithRetry w file userId maxRetries) = Return r ->
  fileSize file <> 0%N
  /\ (fileSize file <= maxUploadSize)%N
  /\ publicUrl r <> ""
  /\ Js.startsWith (publicUrl r) "http" = true
  /\ exists k,
       1 <= k <= maxRetries
       /\ upload w k = UploadResolves (Some r)
       /\ (forall j, 1 <= j < k -> exists e, completion (attemptUpload w j) = Throw e)
       /\ uploads (trace (uploadWithRetry w file userId maxRetries)) = k.
Proof.
  unfold uploadWithRetry.
  destruct (N.eqb_spec (fileSize file) 0) as [E|Hne]; [discriminate|].
  destruct (N.ltb_spec maxUploadSize (fileSize file)) as [Hbig|Hok]; [discriminate|].
  intros H.
  destruct (uploadLoop_return w maxRetries maxRetries 1 None r H)
    as (k & Hk & Hr & Hbefore & Hu).
  destruct (attemptUpload_return w k r Hr) as (Hup & Hurl & Hhttp).
  split; [exact Hne|]. split; [exact Hok|]. split; [exact Hurl|]. split; [exact Hhttp|].
  exists k. split; [lia|]. split; [exact Hup|]. split; [exact Hbefore|].
  rewrite Hu. lia.
Qed.

Lemma uploadWithRetry_returns_second_attempt :
  completion (uploadWithRetry (Scenario.flaky 1) Scenario.photo "user-1" 3)
  = Return Scenario.stored
  /\ uploads (trace (uploadWithRetry (Scenario.flaky 1) Scenario.photo "user-1" 3)) = 2.
Proof.
  assert (H : completion (uploadWithRetry (Scenario.flaky 1) Scenario.photo "user-1" 3)
              = Return Scenario.stored) by reflexivity.
  split; [exact H|].
  destruct (uploadWithRetry_returns (Scenario.flaky 1) Scenario.photo "user-1" 3
              Scenario.stored H) as (_ & _ & _ & _ & k & Hk & Hup & _ & Hu).
  rewrite Hu.
  assert (Hin : k = 1 \/ k = 2 \/ k = 3) by lia.
  destruct Hin as [-> | [-> | ->]]; [discriminate Hup | reflexivity | ].
  vm_compute in Hu. discriminate Hu.
Defined.

(* ===================================================================== *)
(** ** The order of the external calls                                   *)
(* ===================================================================== *)

Lemma validateUrl_eq w url :
  validateUrl w url = ([EvHead url], completion (validateUrl w url)).
Proof.
  unfold validateUrl.
  destruct (head w url) as [e | [|] status statusText]; reflexivity.
Qed.

Lemma validateUrl_return w url :
  completion (validateUrl w url) = Return tt ->
  exists status statusText, head w url = FetchResolves true status statusText.
Proof.
  unfold validateUrl.
  destruct (head w url) as [e | [|] status statusText]; try discriminate.
  intros _. now exists status, statusText.
Qed.

Lemma generateBasicAnalysis_eq w imageUrl :
  generateBasicAnalysis w imageUrl
  = ([EvGenerateBasic imageUrl], completion (generateBasicAnalysis w imageUrl)).
Proof.
  unfold generateBasicAnalysis, repairResult.
  destruct (aiBasic w imageUrl) as [e | | [result|]]; try reflexivity.
  destruct (incomplete result).
  - destruct (generateFallbackAnalysis (rndBasic w) "incomplete_ai_result"); reflexivity.
  - destruct (freeColors result); reflexivity.
Qed.

Lemma generateEnhancedAnalysis_eq w basic :
  generateEnhancedAnalysis w basic
  = ([EvGenerateEnhanced], completion (generateEnhancedAnalysis w basic)).
Proof.
  destruct (generateEnhancedAnalysis_cases w basic) as [(o & _ & ->) | (_ & ->)];
    reflexivity.
Qed.

Lemma uploadLoop_only_uploads w maxRetries remaining :
  forall attempt lastError,
    filter isAfterUpload (trace (uploadLoop w maxRetries remaining attempt lastError)) = [].
Proof.
  induction remaining as [|rem IH]; intros attempt lastError; [reflexivity|].
  destruct (completion (attemptUpload w attempt)) as [r|e] eqn:E.
  - rewrite (uploadLoop_success _ _ _ _ _ r E). reflexivity.
  - rewrite (uploadLoop_failure _ _ _ _ _ e E).
    specialize (IH (S attempt) (Some (toError e))).
    destruct (uploadLoop w maxRetries rem (S attempt) (Some (toError e))) as [t c].
    unfold trace in *. cbn [fst] in IH.
    destruct (attempt <? maxRetries)%nat; cbn; exact IH.
Qed.

Lemma uploadWithRetry_only_uploads w file userId maxRetries :
  filter isAfterUpload (trace (uploadWithRetry w file userId maxRetries)) = [].
Proof.
  unfold uploadWithRetry.
  destruct (fileSize file =? 0)%N; [reflexivity|].
  destruct (maxUploadSize <? fileSize file)%N; [reflexivity|].
  apply uploadLoop_only_uploads.
Qed.

Lemma trace_bind_throw {A B} (m : Eff A) (k : A -> Eff B) e :
  completion m = Throw e -> trace (bind m k) = trace m.
Proof.
  destruct m as [t [a|e']]; unfold completion, trace; simpl; intros H;
    [discriminate | reflexivity].
Qed.

Lemma trace_tryCatch_lift {A} (m : Eff A) (h : Thrown -> Completion A) :
  trace (tryCatch m (fun e => lift (h e))) = trace m.
Proof.
  destruct m as [t [a|e]]; unfold trace; simpl; [reflexivity|].
  now rewrite app_nil_r.
Qed.

(** X6.  The pipeline calls the outside world in a fixed order and stops
    at the first stage that fails: the upload stage only uploads and
    waits; the HEAD request is made only after an upload that
    succeeded, the primary AI call only after a HEAD request that was
    answered with an ok response, the enrichment call only after the
    primary stage returned; the top-level handler makes no call. *)
Theorem analyzePhotoWithAI_call_order w file userId :
  filter isAfterUpload (trace (uploadWithRetry w file userId 3)) = []
  /\ exists tail,
       trace (analyzePhotoWithAI w file userId)
       = (trace (uploadWithRetry w file userId 3) ++ tail)%list
       /\ ((tail = [] /\ exists e, completion (uploadWithRetry w file userId 3) = Throw e)
           \/ exists up,
                completion (uploadWithRetry w file userId 3) = Return up
                /\ ((tail = [EvHead (publicUrl up)]
                     /\ exists e, completion (validateUrl w (publicUrl up)) = Throw e)
                    \/ ((exists status statusText,
                           head w (publicUrl up) = FetchResolves true status statusText)
                        /\ ((tail = [EvHead (publicUrl up); EvGenerateBasic (publicUrl up)]
                             /\ exists e,
                                  completion (generateBasicAnalysis w (publicUrl up))
                                  = Throw e)
                            \/ (tail = [EvHead (publicUrl up);
                                        EvGenerateBasic (publicUrl up);
                                        EvGenerateEnhanced]
                                /\ exists b,
                                     completion (generateBasicAnalysis w (publicUrl up))
                                     = Return b))))).
Proof.
  split; [apply uploadWithRetry_only_uploads|].
  unfold analyzePhotoWithAI. rewrite trace_tryCatch_lift. unfold pipelineBody.
  destruct (completion (uploadWithRetry w file userId 3)) as [up|e] eqn:Hu.
  2:{ exists []. rewrite (trace_bind_throw _ _ e Hu), app_nil_r.
      split; [reflexivity|]. left. split; [reflexivity | now exists e]. }
  rewrite (trace_bind_return _ _ up Hu).
  destruct (completion (validateUrl w (publicUrl up))) as [[]|e] eqn:Hv.
  2:{ exists [EvHead (publicUrl up)].
      rewrite (trace_bind_throw _ _ e Hv), validateUrl_eq.
      split; [reflexivity|]. right. exists up. split; [reflexivity|].
      left. split; [reflexivity | now exists e]. }
  rewrite (trace_bind_return _ _ tt Hv).
  pose proof (validateUrl_return _ _ Hv) as Hok.
  destruct (completion (generateBasicAnalysis w (publicUrl up))) as [b|e] eqn:Hb.
  - exists [EvHead (publicUrl up); EvGenerateBasic (publicUrl up); EvGenerateEnhanced].
    rewrite (trace_bind_return _ _ b Hb).
    rewrite validateUrl_eq, generateBasicAnalysis_eq, generateEnhancedAnalysis_eq.
    split; [reflexivity|]. right. exists up. split; [reflexivity|].
    right. split; [exact Hok|]. right. split; [reflexivity | now exists b].
  - exists [EvHead (publicUrl up); EvGenerateBasic (publicUrl up)].
    rewrite (trace_bind_throw _ _ e Hb).
    rewrite validateUrl_eq, generateBasicAnalysis_eq.
    split; [reflexivity|]. right. exists up. split; [reflexivity|].
    right. split; [exact Hok|]. left. split; [reflexivity | now exists e].
Qed.

(* ===================================================================== *)
(** ** Errors of the primary stage                                       *)
(* ===================================================================== *)


Lemma withoutHex_map l : existsb withoutHex (map Untyped.WithHex l) = false.
Proof. induction l as [|c l IH]; [reflexivity | exact IH]. Qed.

Lemma withoutHex_app fc l :
  existsb withoutHex (fc ++ map Untyped.WithHex l) = existsb withoutHex fc.
Proof. rewrite existsb_app, withoutHex_map. apply orb_false_r. Qed.










(* ===================================================================== *)
(** ** The static premium data and the enrichment stage                  *)
(* ===================================================================== *)

Lemma expandPalette_length base :
  List.length (expandPalette base) = 3 * List.length base.
Proof. unfold expandPalette. rewrite !length_app, !length_map. lia. Qed.

Lemma firstn_expandPalette base :
  List.length base <= 8 -> firstn 24 (expandPalette base) = expandPalette base.
Proof.
  intros H. apply firstn_all2. rewrite expandPalette_length. lia.
Qed.

Lemma assoc_seasonColors s base :
  assoc s seasonColors = Some base ->
  In s seasons /\ List.length base = 5 /\ memStr s objectPrototypeKeys = false.
Proof.
  unfold seasonColors, assoc.
  destruct (String.eqb_spec s "Spring") as [->|_];
    [intros [= <-]; repeat split; simpl; tauto|].
  destruct (String.eqb_spec s "Summer") as [->|_];
    [intros [= <-]; repeat split; simpl; tauto|].
  destruct (String.eqb_spec s "Autumn") as [->|_];
    [intros [= <-]; repeat split; simpl; tauto|].
  destruct (String.eqb_spec s "Winter") as [->|_];
    [intros [= <-]; repeat split; simpl; tauto|].
  discriminate.
Qed.

(** X8.  [generateFallbackPremiumData] selects the palette by the season
    of the basic result: a season that is a key of the table gives its
    palette, any other season gives the Spring palette, in both cases
    expanded to fifteen colours.  It throws a [TypeError] when the
    season is missing and when the season names a property that every
    object inherits (constructor, toString, ...), because that value is
    spread as if it were a palette. *)
Theorem generateFallbackPremiumData_by_season basic :
  (season basic = None ->
     exists m, generateFallbackPremiumData basic = Throw (JsTypeError m))
  /\ (forall s,
        season basic = Some s -> memStr s objectPrototypeKeys = true ->
        exists m, generateFallbackPremiumData basic = Throw (JsTypeError m))
  /\ (forall s,
        season basic = Some s -> memStr s objectPrototypeKeys = false ->
        exists r,
          generateFallbackPremiumData basic = Return r
          /\ premiumColors r
             = Some (expandPalette (match assoc s seasonColors with
                                    | Some base => base
                                    | None => springColors
                                    end))
          /\ hasLength 15 (premiumColors r) = true).
Proof.
  unfold generateFallbackPremiumData, lookupSeason, propertyKey.
  split; [|split].
  - intros ->. eexists. reflexivity.
  - intros s -> Hm. destruct (assoc s seasonColors) as [base|] eqn:Ea.
    + apply assoc_seasonColors in Ea as (_ & _ & Hn). congruence.
    + rewrite Hm. eexists. reflexivity.
  - intros s -> Hm. destruct (assoc s seasonColors) as [base|] eqn:Ea.
    + apply assoc_seasonColors in Ea as (_ & Hl & _).
      eexists. split; [reflexivity|]. cbn [premiumColors].
      rewrite firstn_expandPalette by lia.
      split; [reflexivity|]. cbn [hasLength]. rewrite expandPalette_length, Hl. reflexivity.
    + rewrite Hm. eexists. split; [reflexivity|]. split; reflexivity.
Qed.

Lemma generateFallbackPremiumData_by_season_unknown :
  season (Scenario.aiObject "Fall" [Scenario.rust]) = Some "Fall"
  /\ memStr "Fall" objectPrototypeKeys = false
  /\ exists r,
       generateFallbackPremiumData (Scenario.aiObject "Fall" [Scenario.rust]) = Return r
       /\ premiumColors r = Some (expandPalette springColors).
Proof.
  split; [reflexivity|]. split; [reflexivity|].
  destruct (generateFallbackPremiumData_by_season (Scenario.aiObject "Fall" [Scenario.rust]))
    as (_ & _ & Hret).
  destruct (Hret "Fall" eq_refl eq_refl) as (r & Hr & Hp & _).
  exists r. split; [exact Hr | exact Hp].
Defined.




(* ===================================================================== *)
(** ** Security utilities                                                *)
(* ===================================================================== *)

Lemma hexDigitsOfLength_hash n rest : hexDigitsOfLength n (String "#" rest) = false.
Proof.
  unfold hexDigitsOfLength. change (allHexDigits (String "#" rest)) with false.
  apply andb_false_r.
Qed.

(** X10.  [validateHexColor] and the repair of the pipeline agree: the
    repair yields a six-digit code exactly for the codes that
    [validateHexColor] accepts as they are or with a [#] put in front;
    a code that [validateHexColor] accepts is repaired into a code that
    both tests accept, and every six-digit code passes
    [validateHexColor]. *)
Theorem validateHexColor_repair h :
  matchesHex6 (fixHex h)
  = Security.validateHexColor h || Security.validateHexColor ("#" ++ h)
  /\ (Security.validateHexColor h = true ->
      matchesHex6 (fixHex h) = true /\ Security.validateHexColor (fixHex h) = true)
  /\ (matchesHex6 h = true -> Security.validateHexColor h = true).
Proof.
  assert (H6 : forall s, matchesHex6 s = true -> Security.validateHexColor s = true).
  { intros [|c rest]; [discriminate|]. unfold matchesHex6, Security.validateHexColor.
    intros H. apply andb_true_iff in H as [H Hd]. apply andb_true_iff in H as [Hc Hl].
    rewrite Hc. unfold hexDigitsOfLength. rewrite Hl, Hd. reflexivity. }
  assert (Heq : matchesHex6 (fixHex h)
                = Security.validateHexColor h || Security.validateHexColor ("#" ++ h)).
  { rewrite fixHex_valid_iff. unfold repairable.
    destruct h as [|c rest]; [reflexivity|].
    change ("#" ++ String c rest) with (String "#" (String c rest)).
    unfold Security.validateHexColor.
    destruct (Ascii.eqb c "#") eqn:Ec.
    - apply Ascii.eqb_eq in Ec. subst c.
      rewrite !hexDigitsOfLength_hash. cbn [andb orb].
      now rewrite orb_false_r.
    - cbn [andb orb]. reflexivity. }
  split; [exact Heq|]. split; [|apply H6].
  intros Hv. assert (Hm : matchesHex6 (fixHex h) = true) by (rewrite Heq, Hv; reflexivity).
  split; [exact Hm | now apply H6].
Qed.

Lemma validateHexColor_repair_short :
  Security.validateHexColor "#abc" = true
  /\ matchesHex6 (fixHex "#abc") = true
  /\ Security.validateHexColor (fixHex "#abc") = true.
Proof.
  assert (H : Security.validateHexColor "#abc" = true) by reflexivity.
  split; [exact H|].
  exact (proj1 (proj2 (validateHexColor_repair "#abc")) H).
Defined.

Lemma uploadLoop_throw w maxRetries remaining :
  forall attempt lastError e,
    completion (uploadLoop w maxRetries remaining attempt lastError) = Throw e ->
    exists m, e = JsError ("Upload failed after " ++ Js.decimal maxRetries
                           ++ " attempts: " ++ m).
Proof.
  induction remaining as [|rem IH]; intros attempt lastError e H.
  - cbn in H. injection H as <-. eexists. reflexivity.
  - destruct (completion (attemptUpload w attempt)) as [r|e'] eqn:E.
    + rewrite (uploadLoop_success _ _ _ _ _ r E) in H. discriminate.
    + rewrite (uploadLoop_failure _ _ _ _ _ e' E) in H.
      apply (IH (S attempt) (Some (toError e')) e).
      destruct (uploadLoop w maxRetries rem (S attempt) (Some (toError e'))) as [t c].
      destruct (attempt <? maxRetries)%nat; cbn in H; exact H.
Qed.

Lemma allowedTypes_image t :
  memStr t Security.allowedTypes = true -> Js.startsWith t "image/" = true.
Proof.
  unfold memStr. intros H. apply existsb_exists in H as (x & Hin & Hx).
  apply String.eqb_eq in Hx. subst x. simpl in Hin.
  repeat (destruct Hin as [<- | Hin]; [reflexivity|]). destruct Hin.
Qed.

Lemma validateFileUpload_valid file :
  Security.isValid (Security.validateFileUpload file) = true ->
  memStr (fileType file) Security.allowedTypes = true
  /\ (fileSize file <= Security.maxSize)%N
  /\ existsb (Security.hasExtension (fileName file)) Security.suspiciousExtensions = false.
Proof.
  unfold Security.validateFileUpload.
  destruct (memStr (fileType file) Security.allowedTypes); cbn [negb]; [|discriminate].
  destruct (N.ltb_spec Security.maxSize (fileSize file)); [discriminate|].
  destruct (existsb _ _); [discriminate|]. intros _. repeat split. assumption.
Qed.

(** X11.  A file that [validateFileUpload] accepts has an allowed image
    type, at most 15 MiB and no suspicious extension, and it comes
    without error text.  In [uploadWithRetry] such a file is never
    rejected as too large; but the validation has no lower bound on the
    size, so an accepted file may be empty, and then [uploadWithRetry]
    rejects it before any attempt.  The only other error is the
    exhaustion of the attempts. *)
Theorem validateFileUpload_then_upload w file userId maxRetries :
  Security.isValid (Security.validateFileUpload file) = true ->
  Security.error (Security.validateFileUpload file) = None
  /\ (fileSize file <= maxUploadSize)%N
  /\ Js.startsWith (fileType file) "image/" = true
  /\ (fileSize file = 0%N ->
      uploadWithRetry w file userId maxRetries
      = ([], Throw (JsError "Please select a valid image file")))
  /\ (fileSize file <> 0%N ->
      uploadWithRetry w file userId maxRetries
      = uploadLoop w maxRetries maxRetries 1 None)
  /\ (forall e,
        completion (uploadWithRetry w file userId maxRetries) = Throw e ->
        e <> JsError "File too large: Maximum size is 15MB"
        /\ (fileSize file = 0%N \/
            exists m, e = JsError ("Upload failed after " ++ Js.decimal maxRetries
                                   ++ " attempts: " ++ m))).
Proof.
  intros Hv.
  destruct (validateFileUpload_valid file Hv) as (Ht & Hs & Hn).
  split.
  { unfold Security.validateFileUpload in *.
    destruct (negb (memStr (fileType file) Security.allowedTypes)); [discriminate|].
    destruct (Security.maxSize <? fileSize file)%N; [discriminate|].
    destruct (existsb _ _); [discriminate | reflexivity]. }
  split; [exact Hs|]. split; [now apply allowedTypes_image|].
  split; [apply uploadWithRetry_empty|].
  split; [intros H0; now apply uploadWithRetry_accepts|].
  intros e He. destruct (N.eq_dec (fileSize file) 0) as [E0|H0].
  - rewrite (uploadWithRetry_empty _ _ _ _ E0) in He. injection He as <-.
    split; [discriminate | now left].
  - rewrite (uploadWithRetry_accepts _ _ _ _ H0 Hs) in He.
    destruct (uploadLoop_throw _ _ _ _ _ _ He) as (m & ->).
    split; [|right; now exists m].
    intros Habs. cbn [append] in Habs. discriminate Habs.
Qed.

Lemma validateFileUpload_then_upload_empty_image :
  Security.isValid (Security.validateFileUpload Scenario.emptyPhoto) = true
  /\ uploadWithRetry (Scenario.flaky 0) Scenario.emptyPhoto "user-1" 3
     = ([], Throw (JsError "Please select a valid image file")).
Proof.
  assert (H : Security.isValid (Security.validateFileUpload Scenario.emptyPhoto) = true)
    by reflexivity.
  split; [exact H|].
  destruct (validateFileUpload_then_upload (Scenario.flaky 0) Scenario.emptyPhoto
              "user-1" 3 H) as (_ & _ & _ & Hempty & _).
  apply Hempty. reflexivity.
Defined.

Lemma toLowerCase_app a b :
  Js.toLowerCase (a ++ b) = Js.toLowerCase a ++ Js.toLowerCase b.
Proof. induction a as [|c a IH]; [reflexivity|]. cbn. now rewrite IH. Qed.

Lemma endsWith_app stem s suffix :
  Security.endsWith s suffix = true -> Security.endsWith (stem ++ s) suffix = true.
Proof.
  intros H. induction stem as [|c stem IH]; [exact H|].
  cbn [append Security.endsWith]. rewrite IH. apply orb_true_r.
Qed.

Lemma endsWith_length s suffix :
  Security.endsWith s suffix = true -> String.length suffix <= String.length s.
Proof.
  induction s as [|c s IH]; cbn [Security.endsWith].
  - rewrite orb_false_r. intros H. apply String.eqb_eq in H. subst. cbn. lia.
  - intros H. apply orb_true_iff in H as [H|H].
    + apply String.eqb_eq in H. subst. lia.
    + apply IH in H. cbn. lia.
Qed.

Lemma length_append a b : String.length (a ++ b) = String.length a + String.length b.
Proof. induction a as [|c a IH]; [reflexivity|]. cbn. now rewrite IH. Qed.

Lemma append_assoc_string a b c : (a ++ b) ++ c = a ++ (b ++ c).
Proof. induction a as [|x a IH]; [reflexivity|]. cbn. now rewrite IH. Qed.

(** A name that ends in [.png] has none of the suspicious extensions. *)
Lemma png_not_suspicious stem ext :
  In ext Security.suspiciousExtensions ->
  Security.endsWith (stem ++ ".png") ext = false.
Proof.
  intros Hin. induction stem as [|c stem IH].
  - simpl in Hin.
    repeat (destruct Hin as [<- | Hin]; [reflexivity|]). destruct Hin.
  - cbn [append Security.endsWith]. rewrite IH, orb_false_r.
    apply String.eqb_neq. intros E.
    apply (f_equal String.length) in E. cbn [String.length] in E.
    rewrite length_append in E. cbn [String.length] in E.
    simpl in Hin.
    repeat (destruct Hin as [<- | Hin]; [cbn in E; lia|]). destruct Hin.
Qed.

(** X12.  The name check of [validateFileUpload] looks at the end of the
    name only and ignores the case of the letters: a name with a
    suspicious extension is rejected whatever is put in front of it and
    however it is capitalised, while a name that ends in .png is
    accepted whatever comes before, another extension included. *)
Theorem validateFileUpload_extension size type stem name ext :
  In ext Security.suspiciousExtensions ->
  (Security.hasExtension name ext = true ->
   Security.isValid (Security.validateFileUpload (mkFile (stem ++ name) size type)) = false)
  /\ (forall name',
        Js.toLowerCase name' = Js.toLowerCase name ->
        Security.validateFileUpload (mkFile name' size type)
        = Security.validateFileUpload (mkFile name size type))
  /\ (memStr type Security.allowedTypes = true -> (size <= Security.maxSize)%N ->
      Security.validateFileUpload (mkFile (stem ++ name ++ ".png") size type)
      = Security.mkValidation true None).
Proof.
  intros Hin. split; [|split].
  - intros Hext. unfold Security.validateFileUpload. cbn [fileName fileSize fileType].
    destruct (negb (memStr type Security.allowedTypes)); [reflexivity|].
    destruct (Security.maxSize <? size)%N; [reflexivity|].
    assert (Hex : existsb (Security.hasExtension (stem ++ name))
                          Security.suspiciousExtensions = true).
    { apply existsb_exists. exists ext. split; [exact Hin|].
      unfold Security.hasExtension in *. rewrite toLowerCase_app.
      now apply endsWith_app. }
    now rewrite Hex.
  - intros name' E. unfold Security.validateFileUpload, Security.hasExtension.
    cbn [fileName fileSize fileType]. now rewrite E.
  - intros Ht Hs. unfold Security.validateFileUpload. cbn [fileName fileSize fileType].
    rewrite Ht. cbn [negb].
    destruct (N.ltb_spec Security.maxSize size); [lia|].
    assert (Hex : existsb (Security.hasExtension (stem ++ name ++ ".png"))
                          Security.suspiciousExtensions = false).
    { apply not_true_is_false. intros Hex. apply existsb_exists in Hex as (x & Hx & Hx').
      unfold Security.hasExtension in Hx'.
      rewrite !toLowerCase_app in Hx'.
      change (Js.toLowerCase ".png") with ".png" in Hx'.
      rewrite <- append_assoc_string in Hx'.
      rewrite (png_not_suspicious _ x Hx) in Hx'. discriminate. }
    now rewrite Hex.
Qed.

Lemma validateFileUpload_extension_upper_case :
  In ".php" Security.suspiciousExtensions
  /\ Security.hasExtension "shell.PHP" ".php" = true
  /\ Security.isValid
       (Security.validateFileUpload (mkFile ("holiday-" ++ "shell.PHP") 1024 "image/png"))
     = false.
Proof.
  assert (Hin : In ".php" Security.suspiciousExtensions) by (simpl; tauto).
  split; [exact Hin|]. split; [reflexivity|].
  destruct (validateFileUpload_extension 1024 "image/png" "holiday-" "shell.PHP" ".php" Hin)
    as (Hrej & _).
  apply Hrej. reflexivity.
Defined.

(* ===================================================================== *)
(** ** The rate limiter                                                  *)
(* ===================================================================== *)

Lemma filter_length_le {A} (f : A -> bool) l : List.length (filter f l) <= List.length l.
Proof. induction l as [|x l IH]; simpl; [lia|]. destruct (f x); simpl; lia. Qed.

(** X13.  One call of the rate limiter.  [isAllowed] grants the call
    exactly when [getRemainingAttempts] is positive at that moment; a
    refused call leaves the limiter as it was and there are then 0
    attempts remaining; a granted call uses up exactly one of the
    remaining attempts (with a positive window) and changes nothing for
    any other identifier. *)
Theorem isAllowed_remaining l identifier now :
  (fst (Security.isAllowed l identifier now) = true
   <-> (0 < Security.getRemainingAttempts l identifier now)%Z)
  /\ (fst (Security.isAllowed l identifier now) = false ->
      snd (Security.isAllowed l identifier now) = l
      /\ Security.getRemainingAttempts l identifier now = 0%Z)
  /\ (fst (Security.isAllowed l identifier now) = true ->
      (0 < Security.windowMs l)%Z ->
      Security.getRemainingAttempts (snd (Security.isAllowed l identifier now))
                                    identifier now
      = (Security.getRemainingAttempts l identifier now - 1)%Z)
  /\ (forall other,
        other <> identifier ->
        Security.attempts (snd (Security.isAllowed l identifier now)) other
        = Security.attempts l other).
Proof.
  unfold Security.isAllowed, Security.getRemainingAttempts.
  set (valid := Security.validAttempts l identifier now).
  destruct (Z.leb_spec (Security.maxAttempts l) (Z.of_nat (List.length valid)))
    as [Hfull|Hfree]; cbn [fst snd].
  - split; [split; [discriminate | lia]|].
    split; [intros _; split; [reflexivity | lia]|].
    split; [discriminate|]. reflexivity.
  - split; [split; [lia | reflexivity]|].
    split; [discriminate|]. split.
    + intros _ Hw. unfold Security.validAttempts at 1.
      cbn [Security.attempts Security.windowMs Security.maxAttempts].
      rewrite String.eqb_refl, filter_app.
      assert (Hsame : filter (fun time => (now - time <? Security.windowMs l)%Z) valid
                      = valid).
      { unfold valid, Security.validAttempts.
        induction (Security.attempts l identifier) as [|t ts IH]; [reflexivity|].
        cbn [filter]. destruct (now - t <? Security.windowMs l)%Z eqn:E;
          [cbn [filter]; rewrite E; now f_equal | exact IH]. }
      rewrite Hsame. cbn [filter].
      replace (now - now)%Z with 0%Z by lia.
      destruct (Z.ltb_spec 0 (Security.windowMs l)); [|lia].
      rewrite length_app. cbn [List.length]. lia.
    + intros other Hne. cbn [Security.attempts].
      destruct (String.eqb_spec other identifier); [contradiction | reflexivity].
Qed.

Lemma isAllowed_remaining_sixth_call :
  fst (Security.isAllowed
         (Security.mkLimiter 5 900000 (fun _ => [0; 1000; 2000; 3000; 4000]%Z))
         "user-1" 5000%Z) = false
  /\ Security.getRemainingAttempts
       (Security.mkLimiter 5 900000 (fun _ => [0; 1000; 2000; 3000; 4000]%Z))
       "user-1" 5000%Z = 0%Z.
Proof.
  assert (H : fst (Security.isAllowed
                     (Security.mkLimiter 5 900000 (fun _ => [0; 1000; 2000; 3000; 4000]%Z))
                     "user-1" 5000%Z) = false) by reflexivity.
  split; [exact H|].
  destruct (isAllowed_remaining
              (Security.mkLimiter 5 900000 (fun _ => [0; 1000; 2000; 3000; 4000]%Z))
              "user-1" 5000%Z) as (_ & Hdenied & _).
  exact (proj2 (Hdenied H)).
Defined.

Lemma filter_filter_window (w now T : Z) (l : list Z) :
  (now <= T)%Z ->
  filter (fun t => (T - t <? w)%Z) (filter (fun t => (now - t <? w)%Z) l)
  = filter (fun t => (T - t <? w)%Z) l.
Proof.
  intros H. induction l as [|t l IH]; [reflexivity|].
  cbn [filter]. destruct (Z.ltb_spec (now - t) w) as [Hin|Hout].
  - cbn [filter]. destruct (T - t <? w)%Z; now rewrite IH.
  - destruct (Z.ltb_spec (T - t) w); [lia | exact IH].
Qed.

Lemma isAllowed_parameters l identifier now :
  Security.maxAttempts (snd (Security.isAllowed l identifier now)) = Security.maxAttempts l
  /\ Security.windowMs (snd (Security.isAllowed l identifier now)) = Security.windowMs l.
Proof.
  unfold Security.isAllowed.
  destruct (Security.maxAttempts l <=? _)%Z; split; reflexivity.
Qed.

Lemma isAllowed_invariant l history clock identifier now :
  limiterInvariant l history clock ->
  (clock <= now)%Z ->
  limiterInvariant
    (snd (Security.isAllowed l identifier now))
    (fun k => if String.eqb k identifier && fst (Security.isAllowed l identifier now)
              then (history k ++ [now])%list else history k)
    now.
Proof.
  intros Hinv Hclock k.
  destruct (Hinv k) as (Hlen & Hwin).
  unfold Security.isAllowed.
  set (valid := Security.validAttempts l identifier now).
  destruct (Z.leb_spec (Security.maxAttempts l) (Z.of_nat (List.length valid)))
    as [Hfull|Hfree]; cbn [fst snd].
  - rewrite andb_false_r. split; [exact Hlen|].
    intros T HT. apply Hwin. lia.
  - cbn [Security.attempts Security.maxAttempts Security.windowMs].
    destruct (String.eqb_spec k identifier) as [->|Hne]; cbn [andb].
    + split; [rewrite length_app; cbn [List.length]; lia|].
      intros T HT. rewrite !filter_app. f_equal.
      unfold valid, Security.validAttempts.
      rewrite (filter_filter_window _ _ _ _ HT). apply Hwin. lia.
    + split; [exact Hlen|]. intros T HT. apply Hwin. lia.
Qed.

Lemma run_invariant calls :
  forall l history clock,
    limiterInvariant l history clock ->
    Security.clockFrom clock calls ->
    limiterInvariant
      (snd (Security.run l calls))
      (fun k => (history k ++ Security.granted k calls (fst (Security.run l calls)))%list)
      (Security.lastClock clock calls)
    /\ Security.windowMs (snd (Security.run l calls)) = Security.windowMs l
    /\ Security.maxAttempts (snd (Security.run l calls)) = Security.maxAttempts l.
Proof.
  induction calls as [|[identifier now] calls IH]; intros l history clock Hinv Hclock.
  - cbn. split; [|split; reflexivity].
    intros k. destruct (Hinv k) as (Hlen & Hwin). split; [exact Hlen|].
    intros T HT. rewrite app_nil_r. now apply Hwin.
  - destruct Hclock as (Hle & Hrest).
    pose proof (isAllowed_invariant l history clock identifier now Hinv Hle) as Hstep.
    destruct (isAllowed_parameters l identifier now) as (Hmax & Hw).
    cbn [Security.run Security.lastClock].
    destruct (Security.isAllowed l identifier now) as [answer l'] eqn:Ea.
    cbn [fst snd] in Hstep, Hmax, Hw.
    destruct (IH l' _ now Hstep Hrest) as (Hfinal & Hw' & Hmax').
    destruct (Security.run l' calls) as [answers l''] eqn:Er.
    cbn [fst snd] in *. split; [|split; congruence].
    intros k. destruct (Hfinal k) as (Hlen & Hwin).
    split; [exact Hlen|]. intros T HT. rewrite (Hwin T HT).
    cbn [Security.granted]. f_equal. rewrite (String.eqb_sym identifier k).
    destruct (String.eqb k identifier && answer); [|reflexivity].
    now rewrite <- app_assoc.
Qed.

(** X14.  The guarantee of the rate limiter.  Start with a new limiter
    and let calls of [isAllowed] arrive for any identifiers, with a
    clock that never goes back.  Then, at any moment [T] after these
    calls, the calls granted to one identifier less than [windowMs]
    before [T] are at most [maxAttempts]. *)
Theorem rate_limit_guarantee maxAttempts windowMs start calls identifier T :
  Security.clockFrom start calls ->
  (Security.lastClock start calls <= T)%Z ->
  (Z.of_nat
     (List.length
        (filter (fun t => (T - t <? windowMs)%Z)
                (Security.granted identifier calls
                   (fst (Security.run (Security.newLimiter maxAttempts windowMs) calls)))))
   <= Z.max 0 maxAttempts)%Z.
Proof.
  intros Hclock HT.
  assert (Hinit : limiterInvariant (Security.newLimiter maxAttempts windowMs)
                                   (fun _ => []) start).
  { intros k. cbn. split; [lia|]. reflexivity. }
  destruct (run_invariant calls _ _ _ Hinit Hclock) as (Hinv & Hw & Hmax).
  destruct (Hinv identifier) as (Hlen & Hwin).
  specialize (Hwin T HT). cbn [app] in Hwin.
  rewrite Hw in Hwin. cbn [Security.newLimiter Security.windowMs] in Hwin.
  rewrite <- Hwin. rewrite Hmax in Hlen.
  cbn [Security.newLimiter Security.maxAttempts] in Hlen.
  pose proof (filter_length_le (fun t => (T - t <? windowMs)%Z)
                (Security.attempts
                   (snd (Security.run (Security.newLimiter maxAttempts windowMs) calls))
                   identifier)).
  lia.
Qed.

(** Seven calls of one user within seven seconds and one call of
    another user, with the limiter of the application: five are
    granted to the first user. *)
Lemma rate_limit_guarantee_seven_calls :
  Security.clockFrom 0
    [("user-1", 0); ("user-1", 1000); ("user-2", 1500); ("user-1", 2000);
     ("user-1", 3000); ("user-1", 4000); ("user-1", 5000); ("user-1", 6000)]%Z
  /\ fst (Security.run (Security.newLimiter 5 900000)
            [("user-1", 0); ("user-1", 1000); ("user-2", 1500); ("user-1", 2000);
             ("user-1", 3000); ("user-1", 4000); ("user-1", 5000); ("user-1", 6000)]%Z)
     = [true; true; true; true; true; true; false; false]
  /\ (Z.of_nat
        (List.length
           (filter (fun t => (6000 - t <? 900000)%Z)
              (Security.granted "user-1"
                 [("user-1", 0); ("user-1", 1000); ("user-2", 1500); ("user-1", 2000);
                  ("user-1", 3000); ("user-1", 4000); ("user-1", 5000);
                  ("user-1", 6000)]%Z
                 (fst (Security.run (Security.newLimiter 5 900000)
                    [("user-1", 0); ("user-1", 1000); ("user-2", 1500); ("user-1", 2000);
                     ("user-1", 3000); ("user-1", 4000); ("user-1", 5000);
                     ("user-1", 6000)]%Z)))))
      <= Z.max 0 5)%Z.
Proof.
  assert (Hclock : Security.clockFrom 0
    [("user-1", 0); ("user-1", 1000); ("user-2", 1500); ("user-1", 2000);
     ("user-1", 3000); ("user-1", 4000); ("user-1", 5000); ("user-1", 6000)]%Z)
    by (cbn; lia).
  split; [exact Hclock|]. split; [reflexivity|].
  apply (rate_limit_guarantee 5 900000 0 _ "user-1" 6000 Hclock).
  cbn. lia.
Defined.

(* ===================================================================== *)
(** ** The input sanitizer                                               *)
(* ===================================================================== *)

Lemma removeAngleBrackets_chars s c :
  In c (list_ascii_of_string (Security.removeAngleBrackets s)) ->
  In c (list_ascii_of_string s) /\ c <> "<"%char /\ c <> ">"%char.
Proof.
  induction s as [|a s IH]; cbn [Security.removeAngleBrackets list_ascii_of_string].
  - intros [].
  - destruct (Ascii.eqb_spec a "<") as [->|Hlt]; cbn [orb].
    + intros H. destruct (IH H) as (Hin & Hc). split; [now right | exact Hc].
    + destruct (Ascii.eqb_spec a ">") as [->|Hgt].
      * intros H. destruct (IH H) as (Hin & Hc). split; [now right | exact Hc].
      * cbn [list_ascii_of_string]. intros [<-|H].
        -- split; [now left | split; congruence].
        -- destruct (IH H) as (Hin & Hc). split; [now right | exact Hc].
Qed.

(** A global removal keeps characters of the text, in their order. *)
Lemma removeMatches_chars matchLength s :
  forall skip c,
    In c (list_ascii_of_string (Security.removeMatches matchLength skip s)) ->
    In c (list_ascii_of_string s).
Proof.
  induction s as [|a s IH]; intros skip c; cbn [Security.removeMatches list_ascii_of_string].
  - intros [].
  - destruct skip as [|k].
    + destruct (matchLength (String a s)) as [n|].
      * intros H. right. exact (IH _ _ H).
      * cbn [list_ascii_of_string]. intros [<-|H]; [now left | right; exact (IH _ _ H)].
    + intros H. right. exact (IH _ _ H).
Qed.

Lemma skipWhite_chars s c :
  In c (list_ascii_of_string (Js.skipWhite s)) -> In c (list_ascii_of_string s).
Proof.
  induction s as [|a s IH]; cbn [Js.skipWhite]; [intros []|].
  destruct (Js.isWhite a); [|exact (fun H => H)].
  intros H. right. exact (IH H).
Qed.

Lemma trimEnd_chars s c :
  In c (list_ascii_of_string (Security.trimEnd s)) -> In c (list_ascii_of_string s).
Proof.
  induction s as [|a s IH]; cbn [Security.trimEnd]; [intros []|].
  destruct (Security.trimEnd s) as [|b t] eqn:E.
  - destruct (Js.isWhite a); [intros []|].
    intros [<-|[]]. now left.
  - cbn [list_ascii_of_string]. intros [<-|H]; [now left|].
    right. apply IH. exact H.
Qed.

Lemma trimEnd_cons a s :
  Js.isWhite a = false -> Security.trimEnd (String a s) = String a (Security.trimEnd s).
Proof.
  intros H. cbn [Security.trimEnd]. rewrite H. now destruct (Security.trimEnd s).
Qed.

(** X15.  [sanitizeInput] only removes: every character of its result is
    a character of the input, and none is an angle bracket. *)
Theorem sanitizeInput_no_angle_brackets input c :
  In c (list_ascii_of_string (Security.sanitizeInput input)) ->
  In c (list_ascii_of_string input) /\ c <> "<"%char /\ c <> ">"%char.
Proof.
  unfold Security.sanitizeInput, Security.trim. intros H.
  apply trimEnd_chars, skipWhite_chars in H.
  apply removeMatches_chars, removeMatches_chars in H.
  now apply removeAngleBrackets_chars.
Qed.

(** A run of the theorem on a script element. *)
Lemma sanitizeInput_no_angle_brackets_script :
  Security.sanitizeInput "<script>alert(1)</script>" = "scriptalert(1)/script"
  /\ (In "s"%char (list_ascii_of_string "<script>alert(1)</script>")
      /\ "s"%char <> "<"%char /\ "s"%char <> ">"%char).
Proof.
  split; [reflexivity|].
  apply (sanitizeInput_no_angle_brackets "<script>alert(1)</script>" "s"%char).
  vm_compute. now left.
Defined.

(** X16.  Each of the two removals is one pass over the text, and what a
    removal leaves is not searched again.  So the protocol and a handler
    survive when they are written around a decoy: whatever follows,
    the result starts with [javascript:], respectively [onclick=]. *)
Theorem sanitizeInput_single_pass rest :
  String.prefix "javascript:" (Security.sanitizeInput ("javajavascript:script:" ++ rest))
  = true
  /\ String.prefix "onclick=" (Security.sanitizeInput ("oonx=nclick=" ++ rest)) = true.
Proof.
  unfold Security.sanitizeInput, Security.trim. split.
  - change (Security.removeAngleBrackets ("javajavascript:script:" ++ rest))
      with ("javajavascript:script:" ++ Security.removeAngleBrackets rest).
    set (x := Security.removeAngleBrackets rest).
    change (Security.removeMatches Security.matchJavascript 0
              ("javajavascript:script:" ++ x))
      with ("javascript:" ++ Security.removeMatches Security.matchJavascript 0 x).
    set (y := Security.removeMatches Security.matchJavascript 0 x).
    change (Security.removeMatches Security.matchHandler 0 ("javascript:" ++ y))
      with ("javascript:" ++ Security.removeMatches Security.matchHandler 0 y).
    set (z := Security.removeMatches Security.matchHandler 0 y).
    change (Js.skipWhite ("javascript:" ++ z)) with ("javascript:" ++ z).
    cbn [append]. rewrite !trimEnd_cons by reflexivity.
    now destruct (Security.trimEnd z).
  - change (Security.removeAngleBrackets ("oonx=nclick=" ++ rest))
      with ("oonx=nclick=" ++ Security.removeAngleBrackets rest).
    set (x := Security.removeAngleBrackets rest).
    change (Security.removeMatches Security.matchJavascript 0 ("oonx=nclick=" ++ x))
      with ("oonx=nclick=" ++ Security.removeMatches Security.matchJavascript 0 x).
    set (y := Security.removeMatches Security.matchJavascript 0 x).
    change (Security.removeMatches Security.matchHandler 0 ("oonx=nclick=" ++ y))
      with ("onclick=" ++ Security.removeMatches Security.matchHandler 0 y).
    set (z := Security.removeMatches Security.matchHandler 0 y).
    change (Js.skipWhite ("onclick=" ++ z)) with ("onclick=" ++ z).
    cbn [append]. rewrite !trimEnd_cons by reflexivity.
    now destruct (Security.trimEnd z).
Qed.

(* ===================================================================== *)
(** ** The caller of the pipeline                                        *)
(* ===================================================================== *)

Lemma friendlyMessage_signIn :
  App.friendlyMessage (JsError App.signInMessage) = unableMessage.
Proof. reflexivity. Qed.

Lemma friendlyMessage_rateLimit remaining :
  App.friendlyMessage (JsError (App.rateLimitMessage remaining)) = unavailableMessage.
Proof. reflexivity. Qed.

Lemma friendlyMessage_validation file :
  Security.isValid (Security.validateFileUpload file) = false ->
  App.friendlyMessage (JsError (App.validationMessage (Security.validateFileUpload file)))
  = unableMessage.
Proof.
  unfold Security.validateFileUpload.
  destruct (negb (memStr (fileType file) Security.allowedTypes)); [reflexivity|].
  destruct (Security.maxSize <? fileSize file)%N; [reflexivity|].
  destruct (existsb _ _); [reflexivity | discriminate].
Qed.

Lemma pipelineCalls_map t : App.pipelineCalls (map App.Pipeline t) = t.
Proof. induction t as [|e t IH]; [reflexivity | cbn; now rewrite IH]. Qed.

Lemma pipelineCalls_app a b :
  App.pipelineCalls (a ++ b) = (App.pipelineCalls a ++ App.pipelineCalls b)%list.
Proof.
  induction a as [|x a IH]; [reflexivity|].
  destruct x; cbn; now rewrite IH.
Qed.

Lemma isAllowed_denied l identifier now :
  fst (Security.isAllowed l identifier now) = false ->
  snd (Security.isAllowed l identifier now) = l.
Proof.
  unfold Security.isAllowed.
  destruct (Security.maxAttempts l <=? _)%Z; [reflexivity | discriminate].
Qed.

Lemma tryBlock_cases user limiter file w c :
  TryBlock user limiter file w c
    (fst (fst (App.tryBlock user limiter file w c)))
    (snd (fst (App.tryBlock user limiter file w c)))
    (snd (App.tryBlock user limiter file w c)).
Proof.
  unfold App.tryBlock.
  destruct user as [id|]; [|now apply SignedOut].
  destruct (truthy (Some id)) eqn:Hid; [|now apply SignedOut].
  pose proof (isAllowed_denied limiter id (App.atIsAllowed c)) as Hden.
  destruct (Security.isAllowed limiter id (App.atIsAllowed c)) as [allowed limiter'] eqn:Ea.
  cbn [fst snd] in Hden.
  destruct allowed; cbn [negb].
  - destruct (Security.isValid (Security.validateFileUpload file)) eqn:Hv; cbn [negb fst snd].
    + replace limiter' with (snd (Security.isAllowed limiter id (App.atIsAllowed c)))
        by now rewrite Ea.
      apply Analyzed; try easy. now rewrite Ea.
    + replace limiter' with (snd (Security.isAllowed limiter id (App.atIsAllowed c)))
        by now rewrite Ea.
      apply Rejected; try easy. now rewrite Ea.
  - cbn [fst snd]. rewrite (Hden eq_refl).
    apply Limited; try easy. now rewrite Ea.
Qed.

Lemma analyzePhoto_eq ui limiter user file w c :
  App.analyzePhoto ui limiter user (Some file) w c
  = (let ui1 := App.setError None (App.setIsAnalyzing true ui) in
     let calls := fst (fst (App.tryBlock user limiter file w c)) in
     let ui2 :=
       match snd (App.tryBlock user limiter file w c) with
       | Return r =>
           App.setAnalysisResult (Some r)
             (App.setCurrentAnalysisId (Some (App.newAnalysisId c)) ui1)
       | Throw e => App.setError (Some (App.friendlyMessage e)) ui1
       end in
     let logged :=
       match snd (App.tryBlock user limiter file w c) with
       | Return _ => []
       | Throw e =>
           if instanceOfError e then [App.LogAnalysisError (messageOf e) user file] else []
       end in
     (App.setIsAnalyzing false ui2,
      snd (fst (App.tryBlock user limiter file w c)),
      (App.StartTiming "photo_analysis" :: calls ++ logged ++ [App.EndTiming])%list)).
Proof.
  unfold App.analyzePhoto.
  destruct (App.tryBlock user limiter file w c) as [[calls limiter'] [r|e]]; reflexivity.
Qed.

(** X17.  What the user sees after [analyzePhoto].  The call ends with
    the busy flag down, and in one of three states.  Either the user is
    signed in, within the limit, the file passed [validateFileUpload],
    and the result of the pipeline is shown with no error.  Or the user
    is over the limit and the message is the one of an unavailable
    service.  Or the user is signed out or the file was refused, and the
    message is the one of an image that cannot be processed.  The texts
    of the three checks themselves (sign in, remaining attempts, reason of
    the refusal) are never shown, and the pipeline is called in the
    first state only. *)
Theorem analyzePhoto_outcome ui limiter user file w c ui' limiter' calls :
  rndTop w < 4 ->
  App.analyzePhoto ui limiter user (Some file) w c = (ui', limiter', calls) ->
  App.isAnalyzing ui' = false
  /\ ((exists id r,
         user = Some id /\ truthy user = true
         /\ fst (Security.isAllowed limiter id (App.atIsAllowed c)) = true
         /\ Security.isValid (Security.validateFileUpload file) = true
         /\ completion (analyzePhotoWithAI w file id) = Return r
         /\ PipelineResult w file r
         /\ App.analysisResult ui' = Some r
         /\ App.error ui' = None
         /\ App.pipelineCalls calls = trace (analyzePhotoWithAI w file id))
      \/ (exists id,
            user = Some id /\ truthy user = true
            /\ fst (Security.isAllowed limiter id (App.atIsAllowed c)) = false
            /\ App.error ui' = Some unavailableMessage
            /\ App.analysisResult ui' = App.analysisResult ui
            /\ limiter' = limiter
            /\ App.pipelineCalls calls = [])
      \/ ((truthy user = false
           \/ Security.isValid (Security.validateFileUpload file) = false)
          /\ App.error ui' = Some unableMessage
          /\ App.analysisResult ui' = App.analysisResult ui
          /\ App.pipelineCalls calls = [])).
Proof.
  intros Hrnd Hrun. rewrite analyzePhoto_eq in Hrun. cbv zeta in Hrun.
  pose proof (tryBlock_cases user limiter file w c) as Hcases.
  destruct (App.tryBlock user limiter file w c) as [[calls0 limiter0] outcome].
  cbn [fst snd] in Hrun, Hcases.
  inversion Hcases as [Hout Ec El Eo
                      | id Hu Hin Hden Ec El Eo
                      | id Hu Hin Hall Hbad Ec El Eo
                      | id Hu Hin Hall Hok Ec El Eo];
    subst calls0; rewrite <- Eo in Hrun.
  - injection Hrun as <- <- <-. split; [reflexivity|].
    right; right. rewrite friendlyMessage_signIn.
    repeat split; auto.
  - injection Hrun as <- <- <-. split; [reflexivity|].
    right; left. exists id. rewrite friendlyMessage_rateLimit.
    repeat split; auto.
  - injection Hrun as <- <- <-. split; [reflexivity|].
    right; right. rewrite (friendlyMessage_validation file Hbad).
    repeat split; auto.
  - destruct (analyze_result w file id Hrnd) as (r & Hr & Horigin).
    rewrite Hr in Hrun, Eo. injection Hrun as <- <- <-.
    split; [reflexivity|]. left. exists id, r.
    repeat split; auto.
    cbn. rewrite pipelineCalls_app, pipelineCalls_map. cbn. now rewrite app_nil_r.
Qed.

(** A run of the theorem: nobody is signed in, and the message shown is
    the one of an image that cannot be processed. *)
Lemma analyzePhoto_outcome_signed_out :
  rndTop Session.offline < 4
  /\ App.error (fst (fst (Session.run None Scenario.photo))) = Some unableMessage
  /\ App.isAnalyzing (fst (fst (Session.run None Scenario.photo))) = false
  /\ ((exists id r,
         None = Some id /\ truthy None = true
         /\ fst (Security.isAllowed App.analysisRateLimiter id
                   (App.atIsAllowed Session.readings)) = true
         /\ Security.isValid (Security.validateFileUpload Scenario.photo) = true
         /\ completion (analyzePhotoWithAI Session.offline Scenario.photo id) = Return r
         /\ PipelineResult Session.offline Scenario.photo r
         /\ App.analysisResult (fst (fst (Session.run None Scenario.photo))) = Some r
         /\ App.error (fst (fst (Session.run None Scenario.photo))) = None
         /\ App.pipelineCalls (snd (Session.run None Scenario.photo))
            = trace (analyzePhotoWithAI Session.offline Scenario.photo id))
      \/ (exists id,
            None = Some id /\ truthy None = true
            /\ fst (Security.isAllowed App.analysisRateLimiter id
                      (App.atIsAllowed Session.readings)) = false
            /\ App.error (fst (fst (Session.run None Scenario.photo)))
               = Some unavailableMessage
            /\ App.analysisResult (fst (fst (Session.run None Scenario.photo)))
               = App.analysisResult Session.idle
            /\ snd (fst (Session.run None Scenario.photo)) = App.analysisRateLimiter
            /\ App.pipelineCalls (snd (Session.run None Scenario.photo)) = [])
      \/ ((truthy None = false
           \/ Security.isValid (Security.validateFileUpload Scenario.photo) = false)
          /\ App.error (fst (fst (Session.run None Scenario.photo))) = Some unableMessage
          /\ App.analysisResult (fst (fst (Session.run None Scenario.photo)))
             = App.analysisResult Session.idle
          /\ App.pipelineCalls (snd (Session.run None Scenario.photo)) = [])).
Proof.
  assert (H : rndTop Session.offline < 4) by (simpl; lia).
  split; [exact H|]. split; [reflexivity|].
  exact (analyzePhoto_outcome Session.idle App.analysisRateLimiter None Scenario.photo
           Session.offline Session.readings
           (fst (fst (Session.run None Scenario.photo)))
           (snd (fst (Session.run None Scenario.photo)))
           (snd (Session.run None Scenario.photo))
           H eq_refl).
Defined.

Lemma isAllowed_granted_remaining l identifier now :
  fst (Security.isAllowed l identifier now) = true ->
  (0 < Security.windowMs l)%Z ->
  Security.getRemainingAttempts (snd (Security.isAllowed l identifier now)) identifier now
  = (Security.getRemainingAttempts l identifier now - 1)%Z.
Proof.
  unfold Security.isAllowed, Security.getRemainingAttempts.
  destruct (Z.leb_spec (Security.maxAttempts l)
              (Z.of_nat (List.length (Security.validAttempts l identifier now))))
    as [Hfull|Hfree]; [discriminate|].
  intros _ Hw. cbn [snd Security.maxAttempts].
  unfold Security.validAttempts at 1.
  cbn [Security.attempts Security.windowMs].
  rewrite String.eqb_refl, filter_app.
  unfold Security.validAttempts at 1.
  rewrite (filter_filter_window _ now now _ (Z.le_refl now)).
  fold (Security.validAttempts l identifier now).
  cbn [filter]. replace (now - now)%Z with 0%Z by lia.
  destruct (Z.ltb_spec 0 (Security.windowMs l)) as [_|Hno]; [|lia].
  rewrite length_app. cbn [List.length]. lia.
Qed.

(** X18.  A request that the limiter grants uses one of the attempts of
    the user, whatever happens next: the limiter is asked before the
    file is looked at, so a file that [validateFileUpload] refuses
    counts against the limit like an analysis. *)
Theorem analyzePhoto_consumes_attempt ui limiter id file w c ui' limiter' calls :
  truthy (Some id) = true ->
  fst (Security.isAllowed limiter id (App.atIsAllowed c)) = true ->
  (0 < Security.windowMs limiter)%Z ->
  App.analyzePhoto ui limiter (Some id) (Some file) w c = (ui', limiter', calls) ->
  Security.getRemainingAttempts limiter' id (App.atIsAllowed c)
  = (Security.getRemainingAttempts limiter id (App.atIsAllowed c) - 1)%Z.
Proof.
  intros Hid Hall Hw Hrun. rewrite analyzePhoto_eq in Hrun. cbv zeta in Hrun.
  pose proof (tryBlock_cases (Some id) limiter file w c) as Hcases.
  destruct (App.tryBlock (Some id) limiter file w c) as [[calls0 limiter0] outcome].
  cbn [fst snd] in Hrun, Hcases.
  injection Hrun as _ <- _.
  inversion Hcases as [Hout Ec El Eo
                      | id' Hu Hin Hden Ec El Eo
                      | id' Hu Hin Hall' Hbad Ec El Eo
                      | id' Hu Hin Hall' Hok Ec El Eo].
  - congruence.
  - injection Hu as <-. congruence.
  - injection Hu as <-. now apply isAllowed_granted_remaining.
  - injection Hu as <-. now apply isAllowed_granted_remaining.
Qed.

(** A run of the theorem: a first request with a file named like a
    script leaves four of the five attempts. *)
Lemma analyzePhoto_consumes_attempt_refused_file :
  Security.isValid (Security.validateFileUpload Session.script) = false
  /\ Security.getRemainingAttempts App.analysisRateLimiter "user-1" 1000 = 5%Z
  /\ Security.getRemainingAttempts
       (snd (fst (Session.run (Some "user-1") Session.script))) "user-1" 1000
     = (Security.getRemainingAttempts App.analysisRateLimiter "user-1" 1000 - 1)%Z.
Proof.
  split; [reflexivity|]. split; [reflexivity|].
  apply (analyzePhoto_consumes_attempt Session.idle App.analysisRateLimiter "user-1"
           Session.script Session.offline Session.readings
           (fst (fst (Session.run (Some "user-1") Session.script)))
           (snd (fst (Session.run (Some "user-1") Session.script)))
           (snd (Session.run (Some "user-1") Session.script))).
  - reflexivity.
  - reflexivity.
  - reflexivity.
  - reflexivity.
Defined.

(* ===================================================================== *)
(** ** The error logger                                                  *)
(* ===================================================================== *)

Lemma firstn_app_firstn {A} (n : nat) (a b : list A) :
  firstn n (a ++ firstn n b) = firstn n (a ++ b).
Proof.
  rewrite !firstn_app, firstn_firstn.
  now replace (Nat.min (n - List.length a) n) with (n - List.length a)%nat by lia.
Qed.

Lemma logError_logs st amb error :
  Logger.logs (fst (Logger.logError st amb error))
  = firstn Logger.maxLogs (Logger.entry amb error :: Logger.logs st).
Proof.
  unfold Logger.logError, Logger.persistLogs. cbn [fst].
  set (unshifted := (Logger.entry amb error :: Logger.logs st)%list).
  assert (Hkept : (if (Logger.maxLogs <? List.length unshifted)%nat
                   then firstn Logger.maxLogs unshifted else unshifted)
                  = firstn Logger.maxLogs unshifted).
  { destruct (Nat.ltb_spec Logger.maxLogs (List.length unshifted)); [reflexivity|].
    symmetry. now apply firstn_all2. }
  rewrite Hkept. now destruct (Logger.storageAccepts amb).
Qed.

Lemma logError_persisted st amb error :
  Logger.persisted (fst (Logger.logError st amb error))
  = if Logger.storageAccepts amb
    then Some (firstn 50 (Logger.logs (fst (Logger.logError st amb error))))
    else Logger.persisted st.
Proof.
  unfold Logger.logError, Logger.persistLogs. cbn [fst].
  now destruct (Logger.storageAccepts amb).
Qed.

Lemma logAll_app st calls more :
  Logger.logAll st (calls ++ more) = Logger.logAll (Logger.logAll st calls) more.
Proof.
  revert st. induction calls as [|[amb error] calls IH]; intros st; [reflexivity|].
  cbn [Logger.logAll app]. apply IH.
Qed.

Lemma logAll_logs calls :
  forall st,
    (List.length (Logger.logs st) <= Logger.maxLogs)%nat \/ calls <> [] ->
    Logger.logs (Logger.logAll st calls)
    = firstn Logger.maxLogs (rev (Logger.entries calls) ++ Logger.logs st).
Proof.
  induction calls as [|[amb error] calls IH]; intros st Hst.
  - cbn [Logger.logAll Logger.entries map rev app].
    destruct Hst as [Hlen|Hne]; [|congruence].
    symmetry. now apply firstn_all2.
  - cbn [Logger.logAll Logger.entries map rev fst snd].
    rewrite IH.
    + rewrite logError_logs, firstn_app_firstn, <- app_assoc. reflexivity.
    + left. rewrite logError_logs, length_firstn. apply Nat.le_min_l.
Qed.

(** X19.  The log keeps the newest entries.  After one call of
    [logError] or more, on any store, the logger holds the entries of
    the calls, the newest first, followed by what it held before, cut
    after 100 entries.  When the storage accepted the item of the last
    call, the stored copy is the first 50 of them; when it did not, the
    copy is the one left by the calls before. *)
Theorem logError_keeps_newest st earlier amb error :
  let calls := (earlier ++ [(amb, error)])%list in
  let st' := Logger.logAll st calls in
  Logger.logs st'
  = firstn 100 (rev (Logger.entries calls) ++ Logger.logs st)
  /\ (List.length (Logger.logs st') <= 100)%nat
  /\ Logger.persisted st'
     = if Logger.storageAccepts amb
       then Some (firstn 50 (rev (Logger.entries calls) ++ Logger.logs st))
       else Logger.persisted (Logger.logAll st earlier).
Proof.
  intros calls st'.
  assert (Hlogs : Logger.logs st'
                  = firstn 100 (rev (Logger.entries calls) ++ Logger.logs st)).
  { apply logAll_logs. right. unfold calls. now destruct earlier. }
  split; [exact Hlogs|]. split.
  - rewrite Hlogs, length_firstn. apply Nat.le_min_l.
  - unfold st', calls in *. rewrite logAll_app in *. cbn [Logger.logAll] in *.
    rewrite logError_persisted. destruct (Logger.storageAccepts amb); [|reflexivity].
    rewrite Hlogs, firstn_firstn. reflexivity.
Qed.

(** A run of the theorem: the two entries that a refused file sends to
    the logger.  The storage refused the second item, so the stored copy
    holds the first entry only. *)
Lemma logError_keeps_newest_refused_file :
  map Logger.errorType (Logger.logs (Logger.logAll Journal.empty Journal.calls))
  = ["Analysis Error"; "Upload Error"]
  /\ option_map (map Logger.errorType)
       (Logger.persisted (Logger.logAll Journal.empty Journal.calls))
     = Some ["Upload Error"]
  /\ (List.length (Logger.logs (Logger.logAll Journal.empty Journal.calls)) <= 100)%nat.
Proof.
  split; [reflexivity|]. split; [reflexivity|].
  exact (proj1 (proj2 (logError_keeps_newest Journal.empty
                         [(Journal.first,
                           Logger.uploadError Journal.refusal None Session.script)]
                         Journal.second
                         (Logger.analysisError Journal.refusal None None)))).
Defined.

(* ===================================================================== *)
(** ** Administrators                                                    *)
(* ===================================================================== *)

Lemma toLowerCase_empty s : Js.toLowerCase s = "" <-> s = "".
Proof. destruct s; cbn; split; intros H; congruence. Qed.

Lemma memStr_In k l : memStr k l = true <-> In k l.
Proof.
  unfold memStr. rewrite existsb_exists. split.
  - intros (x & Hin & Hx). apply String.eqb_eq in Hx. now subst.
  - intros H. exists k. split; [exact H | apply String.eqb_refl].
Qed.

(** X20.  The administrator check reads the address without regard to
    case: two addresses with the same lower-case form get the same
    answer, the same access and the same message, and an address is an
    administrator exactly when its lower-case form is on the list. *)
Theorem isAdmin_ignores_case email1 email2 :
  Js.toLowerCase email1 = Js.toLowerCase email2 ->
  Admin.isAdmin (Some email1) = Admin.isAdmin (Some email2)
  /\ Admin.hasAccess (Admin.getAdminStatus (Some email1))
     = Admin.hasAccess (Admin.getAdminStatus (Some email2))
  /\ Admin.message (Admin.getAdminStatus (Some email1))
     = Admin.message (Admin.getAdminStatus (Some email2))
  /\ (Admin.isAdmin (Some email1) = true
      <-> In (Js.toLowerCase email1) Admin.ADMIN_EMAILS).
Proof.
  intros H.
  assert (Hsame : Admin.isAdmin (Some email1) = Admin.isAdmin (Some email2)).
  { unfold Admin.isAdmin, truthy. rewrite H.
    destruct (String.eqb_spec email1 "") as [->|H1];
      destruct (String.eqb_spec email2 "") as [->|H2]; cbn [negb]; try reflexivity.
    cbn [Js.toLowerCase] in H. symmetry in H.
    apply (proj1 (toLowerCase_empty _)) in H. contradiction. }
  split; [exact Hsame|]. unfold Admin.getAdminStatus. cbn [Admin.hasAccess Admin.message].
  rewrite Hsame. split; [reflexivity|]. split; [reflexivity|].
  rewrite <- Hsame. unfold Admin.isAdmin, truthy.
  destruct (String.eqb_spec email1 "") as [->|H1]; cbn [negb].
  - split; [discriminate|]. cbn. intros [Habs|[Habs|[]]]; discriminate Habs.
  - apply memStr_In.
Qed.

(** A run of the theorem: the address of the list in capitals. *)
Lemma isAdmin_ignores_case_capitals :
  Js.toLowerCase "ADMIN@EXAMPLE.COM" = Js.toLowerCase "admin@example.com"
  /\ Admin.isAdmin (Some "ADMIN@EXAMPLE.COM") = true
  /\ Admin.isAdmin (Some "ADMIN@EXAMPLE.COM") = Admin.isAdmin (Some "admin@example.com").
Proof.
  split; [reflexivity|]. split; [reflexivity|].
  exact (proj1 (isAdmin_ignores_case "ADMIN@EXAMPLE.COM" "admin@example.com" eq_refl)).
Defined.

(* ===================================================================== *)
(** ** The system tests                                                  *)
(* ===================================================================== *)

Lemma filter_all {A} (f : A -> bool) (l : list A) :
  (List.length l - List.length (filter f l) =? 0)%nat = forallb f l.
Proof.
  induction l as [|a l IH]; [reflexivity|].
  pose proof (filter_length_le f l) as Hle.
  cbn [filter forallb List.length]. destruct (f a); cbn [andb List.length].
  - exact IH.
  - destruct (Nat.eqb_spec (S (List.length l) - List.length (filter f l)) 0); [lia|reflexivity].
Qed.

(** X21.  The summary of [runSystemTests] agrees with its list of
    results, whatever the browser: ten tests, the passed and the failed
    ones add up to ten, and [overall] holds exactly when every test of
    the list passed. *)
Theorem runSystemTests_summary b :
  List.length (Testing.tests (Testing.runSystemTests b)) = 10%nat
  /\ Testing.total (Testing.summary (Testing.runSystemTests b)) = 10%nat
  /\ (Testing.passedTests (Testing.summary (Testing.runSystemTests b))
      + Testing.failedTests (Testing.summary (Testing.runSystemTests b)) = 10)%nat
  /\ (Testing.overall (Testing.runSystemTests b) = true
      <-> forall t, In t (Testing.tests (Testing.runSystemTests b)) ->
                    Testing.passed t = true).
Proof.
  unfold Testing.runSystemTests.
  cbn [Testing.tests Testing.summary Testing.total Testing.passedTests
       Testing.failedTests Testing.overall].
  set (tests := [Testing.sdkConnection b; _; _; _; _; _; _; _; _; _]).
  pose proof (filter_length_le Testing.passed tests) as Hle.
  assert (Hlen : List.length tests = 10%nat) by reflexivity.
  split; [exact Hlen|]. split; [exact Hlen|]. split; [lia|].
  rewrite filter_all. apply forallb_forall.
Qed.

(** X22.  The application passes its own tests of the modelled code.
    When the modules load and [validateUrl] accepts the [https] address
    and refuses the [javascript] one, the tests of the file validation,
    of the security utilities, of the administrator check and of the
    photo analysis pass, the last one counting all five file types as
    accepted; so [overall] is decided by the six tests of the browser
    alone. *)
Theorem self_tests_pass b :
  (forall path, Testing.importError b path = None) ->
  Testing.validateUrl b "https://example.com" = true ->
  Testing.validateUrl b "javascript:alert(1)" = false ->
  Testing.passed (Testing.testFileUploadValidation b) = true
  /\ Testing.passed (Testing.testSecurityValidation b) = true
  /\ Testing.passed (Testing.testAdminFunctions b) = true
  /\ Testing.passed (Testing.testPhotoAnalysisMock b) = true
  /\ In ("validFileTypes", Testing.Count 5)
        (match Testing.details (Testing.testPhotoAnalysisMock b) with
         | Some d => d
         | None => []
         end)
  /\ Testing.overall (Testing.runSystemTests b)
     = forallb Testing.passed (Testing.browserTests b).
Proof.
  intros Himport Hhttps Hscript.
  assert (H2 : Testing.testFileUploadValidation b
               = Testing.mkResult "File Upload Validation" true None
                   (Some [("validFile", Testing.Flag true);
                          ("invalidType", Testing.Flag true);
                          ("oversized", Testing.Flag true);
                          ("largeFileSupport", Testing.Flag true)])).
  { unfold Testing.testFileUploadValidation. rewrite Himport. reflexivity. }
  assert (H3 : Testing.testSecurityValidation b
               = Testing.mkResult "Security Validation" true None
                   (Some [("xssPrevention", Testing.Flag true);
                          ("hexValidation", Testing.Flag true);
                          ("urlValidation", Testing.Flag true)])).
  { unfold Testing.testSecurityValidation. rewrite Himport, Hhttps, Hscript.
    reflexivity. }
  assert (H9 : Testing.testAdminFunctions b
               = Testing.mkResult "Admin Functions" true None
                   (Some [("adminEmail", Testing.Flag true);
                          ("nonAdminEmail", Testing.Flag true)])).
  { unfold Testing.testAdminFunctions. rewrite Himport. reflexivity. }
  assert (H10 : Testing.testPhotoAnalysisMock b
                = Testing.mkResult "Photo Analysis Function" true None
                    (Some [("functionExists", Testing.Flag true);
                           ("validFileTypes", Testing.Count 5);
                           ("largeFileSupport", Testing.Flag true);
                           ("oversizedRejection", Testing.Flag true)])).
  { unfold Testing.testPhotoAnalysisMock. rewrite !Himport. reflexivity. }
  unfold Testing.runSystemTests, Testing.browserTests.
  rewrite H2, H3, H9, H10.
  cbn [Testing.passed Testing.details Testing.overall].
  repeat (split; [reflexivity|]). split; [right; left; reflexivity|].
  rewrite filter_all. cbn [forallb Testing.passed]. 
  now rewrite !andb_true_r.
Qed.

(** A run of the theorem: every module loads, and the test of
    accessibility is the only one that fails. *)
Lemma self_tests_pass_one_failure :
  Testing.passedTests (Testing.summary (Testing.runSystemTests Bench.browser)) = 9%nat
  /\ Testing.overall (Testing.runSystemTests Bench.browser) = false
  /\ Testing.passed (Testing.testFileUploadValidation Bench.browser) = true.
Proof.
  split; [reflexivity|]. split; [reflexivity|].
  exact (proj1 (self_tests_pass Bench.browser (fun _ => eq_refl) eq_refl eq_refl)).
Defined.

(* ===================================================================== *)
(** ** What the components show of a result                              *)
(* ===================================================================== *)

Lemma basicResult_freeColors w imageUrl b :
  BasicResult w imageUrl b ->
  exists fc, freeColors b = Some fc /\ 3 <= List.length fc.
Proof.
  intros [result r Hai Hinc Hfb | result cs Hai Hinc Hfc].
  - apply generateFallbackAnalysis_inv in Hfb as (_ & Hwf & _).
    destruct (wellFormed_freeColors r Hwf) as (fc & Hfc & Hlen & _).
    exists fc. split; [exact Hfc | lia].
  - eexists. split; [reflexivity|].
    rewrite length_map, length_app, length_skipn.
    change (List.length defaultColors) with 3. lia.
Qed.

Lemma hasLength_inv {A} n (o : option (list A)) :
  hasLength n o = true -> exists l, o = Some l /\ List.length l = n.
Proof.
  destruct o as [l|]; [|discriminate]. cbn. intros H.
  exists l. split; [reflexivity | now apply Nat.eqb_eq].
Qed.

Lemma colorResults_fifteen r fc pc :
  freeColors r = Some fc -> premiumColors r = Some pc -> List.length pc = 15 ->
  exists v, Display.colorResults r = Return v
            /\ Display.swatches v = fc
            /\ List.length (Display.locked v) = 8
            /\ Display.more v = 7%Z.
Proof.
  intros Hfc Hpc Hlen. unfold Display.colorResults. rewrite Hfc, Hpc.
  eexists. split; [reflexivity|]. cbn [Display.swatches Display.locked Display.more].
  split; [reflexivity|]. rewrite length_firstn, Hlen. split; [reflexivity|lia].
Qed.

(** X23.  The free panel after a fallback.  When the enrichment call
    gives no object, whatever else happens, the result of the pipeline
    can be rendered by [ColorResults]: it shows at least three free
    swatches, eight locked ones, and announces seven more. *)
Theorem colorResults_of_pipeline w file userId r :
  rndTop w < 4 ->
  (forall basic object, aiEnhance w basic <> EnrichResolves (Some object)) ->
  completion (analyzePhotoWithAI w file userId) = Return r ->
  exists v, Display.colorResults r = Return v
            /\ 3 <= List.length (Display.swatches v)
            /\ List.length (Display.locked v) = 8
            /\ Display.more v = 7%Z.
Proof.
  intros Hrnd Hno Hr.
  destruct (analyze_result w file userId Hrnd) as (r' & Hr' & Horigin).
  rewrite Hr in Hr'. injection Hr' as <-.
  destruct Horigin as [r Hfb | imageUrl basic r Hbasic Hpremium
                      | imageUrl basic object Hbasic Henrich].
  - apply generateFallbackAnalysis_inv in Hfb as (_ & Hwf & _).
    destruct (wellFormed_freeColors r Hwf) as (fc & Hfc & Hlen & _).
    unfold wellFormed in Hwf. repeat (apply andb_true_iff in Hwf as [Hwf ?]).
    match goal with H : hasLength 15 _ = true |- _ =>
      destruct (hasLength_inv _ _ H) as (pc & Hpc & Hn) end.
    destruct (colorResults_fifteen r fc pc Hfc Hpc Hn) as (v & Hv & Hs & Hl & Hm).
    exists v. rewrite Hs. repeat split; try assumption. lia.
  - destruct (basicResult_freeColors _ _ _ Hbasic) as (fc & Hfc & Hlen).
    destruct (generateFallbackPremiumData_shape basic r Hpremium)
      as (_ & _ & Hfree & _ & H15 & _).
    destruct (hasLength_inv _ _ H15) as (pc & Hpc & Hn).
    rewrite <- Hfree in Hfc.
    destruct (colorResults_fifteen r fc pc Hfc Hpc Hn) as (v & Hv & Hs & Hl & Hm).
    exists v. rewrite Hs. repeat split; assumption.
  - destruct (Hno basic object Henrich).
Qed.

(** A run of the theorem: the primary AI call times out. *)
Lemma colorResults_of_pipeline_timeout :
  rndTop Session.offline < 4
  /\ exists v,
       Display.colorResults Scenario.handlerResult = Return v
       /\ 3 <= List.length (Display.swatches v)
       /\ List.length (Display.locked v) = 8
       /\ Display.more v = 7%Z.
Proof.
  assert (H : rndTop Session.offline < 4) by (simpl; lia).
  split; [exact H|].
  apply (colorResults_of_pipeline Session.offline Scenario.photo "user-1"
           Scenario.handlerResult H).
  - intros basic object. discriminate.
  - reflexivity.
Defined.

Lemma hasCategory_exclusive c :
  (if Display.hasCategory "neutral" c then 1 else 0)
  + (if Display.hasCategory "accent" c then 1 else 0)
  + (if Display.hasCategory "statement" c then 1 else 0)
  + (if negb (truthy (category c)) then 1 else 0)
  = if shownInPalette c then 1 else 0.
Proof.
  unfold shownInPalette, Display.hasCategory, truthy.
  destruct (category c) as [t|]; [|reflexivity].
  destruct (String.eqb_spec t "neutral") as [->|]; [reflexivity|].
  destruct (String.eqb_spec t "accent") as [->|]; [reflexivity|].
  destruct (String.eqb_spec t "statement") as [->|]; [reflexivity|].
  destruct (String.eqb_spec t ""); reflexivity.
Qed.

Lemma completePalette_length colors :
  List.length (Display.completePalette (Display.categorizeColors colors))
  + List.length (filter (fun c => negb (shownInPalette c)) colors)
  = List.length colors.
Proof.
  unfold Display.completePalette, Display.categorizeColors.
  cbn [Display.neutrals Display.accents Display.statements Display.others].
  rewrite !length_app.
  induction colors as [|c colors IH]; [reflexivity|].
  pose proof (hasCategory_exclusive c) as Hc.
  cbn [filter].
  destruct (Display.hasCategory "neutral" c), (Display.hasCategory "accent" c),
    (Display.hasCategory "statement" c), (negb (truthy (category c))),
    (shownInPalette c); cbn [negb List.length] in *; lia.
Qed.

Lemma completePalette_In colors c :
  In c (Display.completePalette (Display.categorizeColors colors))
  <-> In c colors /\ shownInPalette c = true.
Proof.
  unfold Display.completePalette, Display.categorizeColors, shownInPalette.
  cbn [Display.neutrals Display.accents Display.statements Display.others].
  rewrite !in_app_iff, !filter_In, !orb_true_iff. tauto.
Qed.

Lemma shownInPalette_not_soft c :
  shownInPalette c = true -> category c <> Some "soft".
Proof.
  intros H Hsoft. unfold shownInPalette, Display.hasCategory, truthy in H.
  rewrite Hsoft in H. discriminate H.
Qed.

(** X24.  What [categorizeColors] and the card [Complete Color Palette]
    do with a palette.  A colour of the palette is shown exactly when
    its category is [neutral], [accent] or [statement] or when it has no
    category; no colour is shown twice, so the swatches shown and the
    colours left out add up to the palette.  The list [softs] is built
    and never rendered: a colour of category [soft] is left out, like a
    colour with any other category. *)
Theorem categorizeColors_shown colors :
  (forall c, In c (Display.completePalette (Display.categorizeColors colors))
             <-> In c colors /\ shownInPalette c = true)
  /\ (List.length (Display.completePalette (Display.categorizeColors colors))
      + List.length (filter (fun c => negb (shownInPalette c)) colors)
      = List.length colors)%nat
  /\ (forall c, In c (Display.softs (Display.categorizeColors colors)) ->
                ~ In c (Display.completePalette (Display.categorizeColors colors))).
Proof.
  split; [intros c; apply completePalette_In|].
  split; [apply completePalette_length|].
  intros c Hsoft Hshown.
  apply completePalette_In in Hshown as (_ & Hshown).
  apply shownInPalette_not_soft in Hshown. apply Hshown.
  cbn [Display.categorizeColors Display.softs] in Hsoft.
  apply filter_In in Hsoft as (_ & Hsoft).
  unfold Display.hasCategory in Hsoft.
  destruct (category c) as [t|]; [|discriminate].
  apply String.eqb_eq in Hsoft. now subst.
Qed.




(** X26.  The panel after [analyzePhoto].  When the call ends with a
    message, no result panel is shown, also when the component still
    holds the result of an earlier analysis.  When it ends without one,
    the user is signed in and the panel shows the very result that
    [analyzePhotoWithAI] returned for this file and this user:
    [PremiumResults] once the premium part is unlocked, [ColorResults]
    before. *)
Theorem panel_after_analyzePhoto ui limiter user file w c ui' limiter' calls unlocked :
  rndTop w < 4 ->
  App.analyzePhoto ui limiter user (Some file) w c = (ui', limiter', calls) ->
  match App.error ui' with
  | Some message =>
      (message = unableMessage \/ message = unavailableMessage)
      /\ App.analysisResult ui' = App.analysisResult ui
      /\ Display.panel ui' unlocked = Display.NoPanel
  | None =>
      exists id r,
        user = Some id
        /\ completion (analyzePhotoWithAI w file id) = Return r
        /\ App.analysisResult ui' = Some r
        /\ PipelineResult w file r
        /\ Display.panel ui' unlocked
           = if unlocked then Display.PremiumPanel r else Display.FreePanel r
  end.
Proof.
  intros Hrnd Hrun. rewrite analyzePhoto_eq in Hrun. cbv zeta in Hrun.
  pose proof (tryBlock_cases user limiter file w c) as Hcases.
  destruct (App.tryBlock user limiter file w c) as [[calls0 limiter0] outcome].
  cbn [fst snd] in Hrun, Hcases.
  inversion Hcases as [Hout Ec El Eo
                      | id Hu Hin Hden Ec El Eo
                      | id Hu Hin Hall Hbad Ec El Eo
                      | id Hu Hin Hall Hok Ec El Eo];
    subst calls0; rewrite <- Eo in Hrun.
  - injection Hrun as <- <- <-. cbn [App.error App.setIsAnalyzing App.setError].
    rewrite friendlyMessage_signIn. split; [now left|]. split; [reflexivity|].
    unfold Display.panel. cbn. now destruct (App.analysisResult ui).
  - injection Hrun as <- <- <-. cbn [App.error App.setIsAnalyzing App.setError].
    rewrite friendlyMessage_rateLimit. split; [now right|]. split; [reflexivity|].
    unfold Display.panel. cbn. now destruct (App.analysisResult ui).
  - injection Hrun as <- <- <-. cbn [App.error App.setIsAnalyzing App.setError].
    rewrite (friendlyMessage_validation file Hbad).
    split; [now left|]. split; [reflexivity|].
    unfold Display.panel. cbn. now destruct (App.analysisResult ui).
  - destruct (analyze_result w file id Hrnd) as (r & Hr & Horigin).
    rewrite Hr in Hrun. injection Hrun as <- <- <-.
    cbn. exists id, r. split; [exact Hu|]. split; [exact Hr|].
    split; [reflexivity|]. split; [exact Horigin|]. reflexivity.
Qed.

(** A run of the theorem: a signed-in user sends a photo while the AI
    calls fail, and the free panel shows the fallback result. *)
Lemma panel_after_analyzePhoto_fallback :
  rndTop Session.offline < 4
  /\ App.error (fst (fst (Session.run (Some "user-1") Scenario.photo))) = None
  /\ exists id r,
       Some "user-1" = Some id
       /\ completion (analyzePhotoWithAI Session.offline Scenario.photo id) = Return r
       /\ App.analysisResult (fst (fst (Session.run (Some "user-1") Scenario.photo)))
          = Some r
       /\ PipelineResult Session.offline Scenario.photo r
       /\ Display.panel (fst (fst (Session.run (Some "user-1") Scenario.photo))) false
          = Display.FreePanel r.
Proof.
  assert (H : rndTop Session.offline < 4) by (simpl; lia).
  split; [exact H|]. split; [reflexivity|].
  exact (panel_after_analyzePhoto Session.idle App.analysisRateLimiter (Some "user-1")
           Scenario.photo Session.offline Session.readings
           (fst (fst (Session.run (Some "user-1") Scenario.photo)))
           (snd (fst (Session.run (Some "user-1") Scenario.photo)))
           (snd (Session.run (Some "user-1") Scenario.photo))
           false H eq_refl).
Defined.
